(** * Tourism data client and statistics aggregator (lib/api/tour-api.ts,
      lib/api/stats-api.ts): a shallow embedding and its verified properties.

    Conventions of the model.
    - JavaScript strings are [string]s holding UTF-8 text; [===], template
      literals and [includes] act on them as they do on the source strings.
    - JavaScript numbers that carry page sizes, page numbers, HTTP statuses,
      delays and record counts are integers of [Z]; the one computation that
      leaves the integers, the percentage of [getTypeStats], is carried out in
      IEEE-754 binary64 with [SpecFloat].
    - Effects are kept in a writer monad [M]: every operation returns its
      outcome (a value, or the thrown value) together with the events it
      produced, in the order the sequential reading of the code produces them.
    - The upstream service is a field of the [World]: it answers a request for
      an endpoint and a query on its n-th attempt, so that the outcome of a
      call of the fan-out does not depend on how the calls interleave. *)

From Stdlib Require Import ZArith List String Ascii Bool Lia Arith.
From Stdlib Require Import Sorting.Sorted Sorting.Permutation.
From Stdlib Require Import Floats.SpecFloat.
From Stdlib Require Import DecimalString.
From Stdlib Require DecimalPos.
From Equations Require Import Equations.
Import ListNotations.

#[local] Open Scope string_scope.
#[local] Open Scope Z_scope.

(* ===================================================================== *)
(** * Constants (tour-api.ts, lines 52-60) *)
(* ===================================================================== *)

Definition DEFAULT_MOBILE_OS : string := "ETC".
Definition DEFAULT_MOBILE_APP : string := "MyTrip".
Definition DEFAULT_TYPE : string := "json".
Definition DEFAULT_NUM_OF_ROWS : Z := 10.
Definition DEFAULT_PAGE_NO : Z := 1.
Definition REQUEST_TIMEOUT : Z := 30000.
Definition MAX_RETRIES : nat := 3.
Definition RETRY_DELAYS : list Z := [1000; 2000; 4000].

(* ===================================================================== *)
(** * JavaScript values the code relies on *)
(* ===================================================================== *)

(** [String(n)] for an integer number: the decimal numeral of [n].  It is
    what JavaScript prints for the safe integers, those below 2^53 in
    magnitude; a Number beyond them is printed from its shortest digits, and
    in exponent form from 10^21 on. *)
Definition string_of_Z (z : Z) : string :=
  NilZero.string_of_int (Z.to_int z).

Definition string_of_nat (n : nat) : string := string_of_Z (Z.of_nat n).

(** [s.includes(sub)]. *)
Fixpoint includes (s sub : string) : bool :=
  prefix sub s ||
  match s with
  | EmptyString => false
  | String _ rest => includes rest sub
  end.

(** [a || b] on an optional string: the empty string and [undefined] are
    falsy. *)
Definition or_string (a : option string) (b : option string) : option string :=
  match a with
  | Some s => if String.eqb s "" then b else Some s
  | None => b
  end.

(** [a || d] on an optional number: [0] and [undefined] are falsy. *)
Definition or_number (a : option Z) (d : Z) : Z :=
  match a with
  | Some n => if n =? 0 then d else n
  | None => d
  end.

(* ===================================================================== *)
(** * Errors (tour-api.ts, lines 66-94) *)
(* ===================================================================== *)

Inductive TourAPIErrorType :=
| API_KEY_MISSING
| API_KEY_INVALID
| NETWORK_ERROR
| TIMEOUT_ERROR
| HTTP_ERROR
| API_ERROR
| PARSE_ERROR
| VALIDATION_ERROR
| UNKNOWN_ERROR.

(** The built-in error classes that reach the client. *)
Inductive NativeClass :=
| TypeErrorClass      (* fetch: network failure *)
| SyntaxErrorClass    (* response.json(): body is not JSON *)
| DOMExceptionClass   (* fetch: aborted by the controller *)
| PlainErrorClass.    (* new Error(...) *)

(** What a [catch] clause can receive. *)
#[warnings="-register-all"] Inductive Thrown :=
| TourAPIError (message : string) (statusCode : option Z)
               (originalError : option Thrown) (errorType : TourAPIErrorType)
| NativeError (cls : NativeClass) (name : string) (message : string)
| NonError (text : string).

(** [new TourAPIError(message)]: the remaining constructor arguments at their
    defaults. *)
Definition TourAPIError_default (message : string) : Thrown :=
  TourAPIError message None None UNKNOWN_ERROR.

Definition instanceof_Error (e : Thrown) : bool :=
  match e with NonError _ => false | _ => true end.

Definition instanceof_TypeError (e : Thrown) : bool :=
  match e with NativeError TypeErrorClass _ _ => true | _ => false end.

Definition instanceof_TourAPIError (e : Thrown) : bool :=
  match e with TourAPIError _ _ _ _ => true | _ => false end.

Definition error_name (e : Thrown) : string :=
  match e with
  | TourAPIError _ _ _ _ => "TourAPIError"
  | NativeError _ name _ => name
  | NonError _ => ""
  end.

Definition error_message (e : Thrown) : string :=
  match e with
  | TourAPIError message _ _ _ => message
  | NativeError _ _ message => message
  | NonError _ => ""
  end.

(** The [errorType] field, present on a [TourAPIError] only. *)
Definition errorType_of (e : Thrown) : option TourAPIErrorType :=
  match e with TourAPIError _ _ _ t => Some t | _ => None end.

Definition statusCode_of (e : Thrown) : option Z :=
  match e with TourAPIError _ s _ _ => s | _ => None end.

Definition originalError_of (e : Thrown) : option Thrown :=
  match e with TourAPIError _ _ o _ => o | _ => None end.

(** [error instanceof Error ? error : new Error(String(error))]. *)
Definition as_Error (e : Thrown) : Thrown :=
  match e with
  | NonError text => NativeError PlainErrorClass "Error" text
  | _ => e
  end.

(** The rejection of a [fetch] whose controller was aborted. *)
Definition abortError : Thrown :=
  NativeError DOMExceptionClass "AbortError" "This operation was aborted".

(* ===================================================================== *)
(** * Upstream data (lib/types/tour.ts) *)
(* ===================================================================== *)

(** Records that the client passes through without reading a field of them
    ([TourItem], [TourDetail], [TourIntro], [TourImage], [PetTourInfo]): an
    object with string-valued properties. *)
Definition JsObject : Type := list (string * string).

Module AreaCode.
Record t := mk { code : string; name : string; rnum : option string }.
End AreaCode.

Inductive Endpoint :=
| areaCode2
| areaBasedList2
| searchKeyword2
| detailCommon2
| detailIntro2
| detailImage2
| detailPetTour2.

(** The item type of the envelope each endpoint answers with. *)
Definition ItemOf (ep : Endpoint) : Type :=
  match ep with
  | areaCode2 => AreaCode.t
  | _ => JsObject
  end.

(** [items.item]: a single object or an array. *)
Inductive ItemField (T : Type) :=
| OneItem (x : T)
| ItemArray (xs : list T).
Arguments OneItem {T} x.
Arguments ItemArray {T} xs.

Record Header := mkHeader { resultCode : string; resultMsg : option string }.

Module Body.
Record t (T : Type) := mk {
  items : option (ItemField T);
  numOfRows : option Z;
  pageNo : option Z;
  totalCount : option Z
}.
Arguments mk {T}.
Arguments items {T}.
Arguments numOfRows {T}.
Arguments pageNo {T}.
Arguments totalCount {T}.
End Body.

(** [TourAPIResponse<T>], already unwrapped from its [response] property. *)
Record TourAPIResponse (T : Type) := mkEnvelope {
  header : Header;
  body : option (Body.t T)
}.
Arguments mkEnvelope {T}.
Arguments header {T}.
Arguments body {T}.

(* ===================================================================== *)
(** * Outcomes, events and the monad of effects *)
(* ===================================================================== *)

Inductive Result (A : Type) :=
| Ok (a : A)
| Throw (e : Thrown).
Arguments Ok {A} a.
Arguments Throw {A} e.

(** The entries of a [URLSearchParams], in order.  Its serialisation to a
    query string is injective, so the request is identified by them. *)
Definition Query : Type := list (string * string).

Inductive Event :=
| EvFetch (ep : Endpoint) (query : Query) (attempt : nat)
| EvSleep (ms : Z)
| EvLogError (e : Thrown) (context : option string)
| EvConsoleError (label : string) (detail : string)
| EvConsoleWarn (text : string).

Definition Trace : Type := list Event.

Definition M (A : Type) : Type := (Result A * Trace)%type.

Definition ret {A} (a : A) : M A := (Ok a, []).
Definition throw {A} (e : Thrown) : M A := (Throw e, []).
Definition emit (ev : Event) : M unit := (Ok tt, [ev]).

Definition bind {A B} (m : M A) (f : A -> M B) : M B :=
  match m with
  | (Ok a, t) => let (r, t') := f a in (r, (t ++ t')%list)
  | (Throw e, t) => (Throw e, t)
  end.

(** [try { m } catch (error) { h error }]. *)
Definition try_catch {A} (m : M A) (h : Thrown -> M A) : M A :=
  match m with
  | (Ok a, t) => (Ok a, t)
  | (Throw e, t) => let (r, t') := h e in (r, (t ++ t')%list)
  end.

(** Awaiting a value that is already settled. *)
Definition settle {A} (r : Result A) : M A := (r, []).

Notation "x <- m ;; k" := (bind m (fun x => k))
  (at level 61, m at next level, right associativity).
Notation "m ;;; k" := (bind m (fun _ => k))
  (at level 61, right associativity).

Definition outcome {A} (m : M A) : Result A := fst m.
Definition trace {A} (m : M A) : Trace := snd m.

(** A response of [fetch]: its status line and what [response.json()] settles
    to. *)
Record Response (T : Type) := mkResponse {
  status : Z;
  statusText : string;
  json : Result (TourAPIResponse T)
}.
Arguments mkResponse {T}.
Arguments status {T}.
Arguments statusText {T}.
Arguments json {T}.

(** [response.ok]: the status is in the range 200-299. *)
Definition ok {T} (r : Response T) : bool :=
  (200 <=? status r) && (status r <=? 299).

Inductive FetchOutcome (T : Type) :=
| Responds (r : Response T)
| Rejects (e : Thrown).
Arguments Responds {T} r.
Arguments Rejects {T} e.

(** No response within [REQUEST_TIMEOUT]: the timer aborts the controller and
    [fetch] rejects with the abort error. *)
Definition TimesOut {T} : FetchOutcome T := Rejects abortError.

Record World := mkWorld {
  NEXT_PUBLIC_TOUR_API_KEY : option string;
  TOUR_API_KEY : option string;
  NODE_ENV : option string;
  fetch : forall ep : Endpoint, Query -> nat -> FetchOutcome (ItemOf ep);
  clock : Z
}.

(** [logError(context)] (lines 133-148): the console group is kept as one
    event. *)
Definition logError (w : World) (e : Thrown) (context : option string) : M unit :=
  match NODE_ENV w with
  | Some env => if String.eqb env "development" then emit (EvLogError e context) else ret tt
  | None => ret tt
  end.


(* ===================================================================== *)
(** * HTTP requests with retry (tour-api.ts, lines 216-301) *)
(* ===================================================================== *)

(** The [try] block of [fetchWithRetry] (lines 224-254): one [fetch], and the
    typed error for a response that is not [ok]. *)
Definition attempt (w : World) (ep : Endpoint) (url : Query) (retryCount : nat)
  : M (Response (ItemOf ep)) :=
  emit (EvFetch ep url retryCount) ;;;
  response <- (match fetch w ep url retryCount with
               | Responds r => ret r
               | Rejects e => throw e
               end) ;;
  if negb (ok response) then
    let errorType :=
      if (status response =? 401) || (status response =? 403)
      then API_KEY_INVALID
      else if status response =? 408 then TIMEOUT_ERROR else HTTP_ERROR in
    let error :=
      TourAPIError
        ("HTTP " ++ string_of_Z (status response) ++ ": " ++ statusText response)
        (Some (status response)) None errorType in
    logError w error (Some "fetchWithRetry") ;;;
    throw error
  else ret response.

(** [error instanceof Error && error.name === 'AbortError'] (line 259). *)
Definition isAbortError (error : Thrown) : bool :=
  instanceof_Error error && String.eqb (error_name error) "AbortError".

(** Lines 273-278. *)
Definition isNetworkError (error : Thrown) : bool :=
  instanceof_TypeError error ||
  (instanceof_Error error &&
   (includes (error_message error) "fetch" ||
    includes (error_message error) "network" ||
    includes (error_message error) "Network")).

(** [RETRY_DELAYS[retryCount] || RETRY_DELAYS[RETRY_DELAYS.length - 1]]. *)
Definition retryDelay (retryCount : nat) : Z :=
  or_number (nth_error RETRY_DELAYS retryCount)
            (nth (List.length RETRY_DELAYS - 1)%nat RETRY_DELAYS 0).

(** The error of lines 284-289. *)
Definition maxRetryError (error : Thrown) (retryCount : nat) : Thrown :=
  TourAPIError
    ("요청 실패 (" ++ string_of_nat (retryCount + 1) ++ "회 시도): " ++
     (if instanceof_Error error then error_message error else "알 수 없는 에러"))
    None
    (Some (as_Error error))
    (if isNetworkError error then NETWORK_ERROR else UNKNOWN_ERROR).

(** The error of lines 260-265. *)
Definition timeoutError (error : Thrown) : Thrown :=
  TourAPIError "요청 시간이 초과되었습니다." (Some 408) (Some error) TIMEOUT_ERROR.

Equations? fetchWithRetry (w : World) (ep : Endpoint) (url : Query)
  (retryCount : nat) : M (Response (ItemOf ep))
  by wf (S MAX_RETRIES - retryCount)%nat lt :=
fetchWithRetry w ep url retryCount :=
  try_catch (attempt w ep url retryCount) (fun error =>
    if isAbortError error then
      logError w (timeoutError error) (Some "fetchWithRetry - timeout") ;;;
      throw (timeoutError error)
    else
      match le_lt_dec MAX_RETRIES retryCount with
      | left _ =>
          logError w (maxRetryError error retryCount)
            (Some ("fetchWithRetry - max retries (" ++
                   string_of_nat (retryCount + 1) ++ ")")) ;;;
          throw (maxRetryError error retryCount)
      | right _ =>
          emit (EvSleep (retryDelay retryCount)) ;;;
          fetchWithRetry w ep url (retryCount + 1)
      end).
Proof.
  unfold MAX_RETRIES in *.
  destruct retryCount as [|[|[|[|n]]]]; simpl; lia.
Qed.

(* ===================================================================== *)
(** * Common utilities (tour-api.ts, lines 159-202) *)
(* ===================================================================== *)

(** [!value] on an optional string. *)
Definition falsy_string (o : option string) : bool :=
  match o with
  | Some s => String.eqb s ""
  | None => true
  end.

Definition string_or_empty (o : option string) : string :=
  match o with
  | Some s => s
  | None => ""
  end.

(** [getServiceKey] (lines 159-175). *)
Definition getServiceKey (w : World) : M string :=
  let serviceKey := or_string (NEXT_PUBLIC_TOUR_API_KEY w) (TOUR_API_KEY w) in
  if falsy_string serviceKey then
    let error := TourAPIError
      "API 키가 설정되지 않았습니다. NEXT_PUBLIC_TOUR_API_KEY 또는 TOUR_API_KEY 환경변수를 설정해주세요."
      None None API_KEY_MISSING in
    logError w error (Some "getServiceKey") ;;;
    throw error
  else ret (string_or_empty serviceKey).

(** The value of a query parameter: a string or a number. *)
Inductive ParamValue :=
| PStr (s : string)
| PNum (n : Z).

Definition String_of_param (v : ParamValue) : string :=
  match v with
  | PStr s => s
  | PNum n => string_of_Z n
  end.

(** An object literal of parameters: its own properties in insertion order,
    [None] for a property whose value is [undefined]. *)
Definition Params : Type := list (string * option ParamValue).

(** [getCommonParams] (lines 180-187). *)
Definition getCommonParams (w : World) : M Params :=
  serviceKey <- getServiceKey w ;;
  ret [ ("serviceKey", Some (PStr serviceKey));
        ("MobileOS", Some (PStr DEFAULT_MOBILE_OS));
        ("MobileApp", Some (PStr DEFAULT_MOBILE_APP));
        ("_type", Some (PStr DEFAULT_TYPE)) ].

(** [buildQueryString] (lines 192-202): the entries appended to the
    [URLSearchParams]. *)
Definition buildQueryString (params : Params) : Query :=
  flat_map (fun kv =>
              match snd kv with
              | Some value => [(fst kv, String_of_param value)]
              | None => []
              end) params.

Definition opt_str (o : option string) : option ParamValue := option_map PStr o.

(* ===================================================================== *)
(** * String.prototype.trim on UTF-8 text *)
(* ===================================================================== *)

Definition byte_of (a : ascii) : N := N_of_ascii a.

(** White space and line terminators that take one byte: TAB, LF, VT, FF, CR
    and SP. *)
Definition ws1 (a : ascii) : bool :=
  let x := byte_of a in
  ((x =? 9) || (x =? 10) || (x =? 11) || (x =? 12) || (x =? 13) || (x =? 32))%N.

(** U+00A0. *)
Definition ws2 (a b : ascii) : bool :=
  ((byte_of a =? 194) && (byte_of b =? 160))%N.

(** U+1680, U+2000 to U+200A, U+2028, U+2029, U+202F, U+205F, U+3000 and
    U+FEFF. *)
Definition ws3 (a b c : ascii) : bool :=
  let x := byte_of a in
  let y := byte_of b in
  let z := byte_of c in
  (((x =? 225) && (y =? 154) && (z =? 128)) ||
   ((x =? 226) && (y =? 128) &&
    (((128 <=? z) && (z <=? 138)) || (z =? 168) || (z =? 169) || (z =? 175))) ||
   ((x =? 226) && (y =? 129) && (z =? 159)) ||
   ((x =? 227) && (y =? 128) && (z =? 128)) ||
   ((x =? 239) && (y =? 187) && (z =? 191)))%N.

(** Strips the white space at the front of [s]; with [backwards] the string is
    read from its end, so the bytes of a character arrive last byte first. *)
Fixpoint strip (backwards : bool) (s : string) : string :=
  match s with
  | EmptyString => EmptyString
  | String a r =>
      if ws1 a then strip backwards r
      else
        match r with
        | EmptyString => s
        | String b r2 =>
            if (if backwards then ws2 b a else ws2 a b) then strip backwards r2
            else
              match r2 with
              | EmptyString => s
              | String c r3 =>
                  if (if backwards then ws3 c b a else ws3 a b c)
                  then strip backwards r3
                  else s
              end
        end
  end.

Definition reverse (s : string) : string :=
  string_of_list_ascii (rev (list_ascii_of_string s)).

Definition trimStart (s : string) : string := strip false s.
Definition trimEnd (s : string) : string := reverse (strip true (reverse s)).
Definition trim (s : string) : string := trimEnd (trimStart s).

(** A string made of white space only. *)
Inductive WhiteSpace : string -> Prop :=
| WhiteSpace_nil : WhiteSpace EmptyString
| WhiteSpace_1 a s : ws1 a = true -> WhiteSpace s -> WhiteSpace (String a s)
| WhiteSpace_2 a b s :
    ws2 a b = true -> WhiteSpace s -> WhiteSpace (String a (String b s))
| WhiteSpace_3 a b c s :
    ws3 a b c = true -> WhiteSpace s ->
    WhiteSpace (String a (String b (String c s))).

(** [!value || value.trim() === ''] on an argument that may be missing. *)
Definition blank (value : option string) : bool :=
  match value with
  | None => true
  | Some s => String.eqb s "" || String.eqb (trim s) ""
  end.

(** The argument after the guard has passed: [value.trim()]. *)
Definition trimmed (value : option string) : string :=
  match value with
  | None => ""
  | Some s => trim s
  end.

(* ===================================================================== *)
(** * Parsing the envelope (tour-api.ts, lines 306-343) *)
(* ===================================================================== *)

Definition parseAPIResponse {T} (w : World) (apiResponse : TourAPIResponse T)
  : M (list T) :=
  if negb (String.eqb (resultCode (header apiResponse)) "0000") then
    let resultCode := resultCode (header apiResponse) in
    let resultMsg :=
      string_or_empty
        (or_string (resultMsg (header apiResponse)) (Some "알 수 없는 에러")) in
    let isApiKeyError :=
      String.eqb resultCode "SERVICE_KEY_IS_NOT_REGISTERED" ||
      String.eqb resultCode "SERVICE_KEY_IS_NOT_VALID" ||
      String.eqb resultCode "SERVICE_KEY_IS_NULL" in
    let errorType := if isApiKeyError then API_KEY_INVALID else API_ERROR in
    let error :=
      TourAPIError ("API 에러: " ++ resultMsg ++ " (코드: " ++ resultCode ++ ")")
                   None None errorType in
    logError w error (Some "parseAPIResponse") ;;;
    throw error
  else
    match body apiResponse with
    | None => ret []
    | Some b =>
        match Body.items b with
        | None => ret []
        | Some (OneItem item) => ret [item]
        | Some (ItemArray item) => ret item
        end
    end.

(* ===================================================================== *)
(** * Parameters and results of the operations (lib/types/tour.ts) *)
(* ===================================================================== *)

Module AreaCodeParams.
Record t := mk { numOfRows : option Z; pageNo : option Z }.
End AreaCodeParams.

Module AreaBasedListParams.
Record t := mk {
  areaCode : option string;
  contentTypeId : option string;
  numOfRows : option Z;
  pageNo : option Z
}.
End AreaBasedListParams.

Module SearchKeywordParams.
Record t := mk {
  keyword : option string;
  areaCode : option string;
  contentTypeId : option string;
  numOfRows : option Z;
  pageNo : option Z
}.
End SearchKeywordParams.

Module DetailParams.
Record t := mk { contentId : option string }.
End DetailParams.

Module DetailIntroParams.
Record t := mk { contentId : option string; contentTypeId : option string }.
End DetailIntroParams.

Module DetailImageParams.
Record t := mk {
  contentId : option string;
  numOfRows : option Z;
  pageNo : option Z
}.
End DetailImageParams.

Module TourListResponse.
Record t := mk {
  items : list JsObject;
  totalCount : Z;
  numOfRows : Z;
  pageNo : Z
}.
End TourListResponse.

Module TourImageResponse.
Record t := mk { items : list JsObject; totalCount : Z }.
End TourImageResponse.

(** [TourDetailResponse], [TourIntroResponse] and [PetTourInfoResponse]. *)
Record ItemResponse := mkItemResponse { item : JsObject }.

(** [data.response.body?.field]. *)
Definition body_field {T A} (data : TourAPIResponse T)
  (field : Body.t T -> option A) : option A :=
  match body data with
  | Some b => field b
  | None => None
  end.

(* ===================================================================== *)
(** * The operations (tour-api.ts, lines 354-698) *)
(* ===================================================================== *)

(** The [catch] clause every operation ends with: a [TourAPIError] is thrown
    again as it is, anything else is wrapped in a [TourAPIError] of the
    default type. *)
Definition rethrow {A} (message : string) (error : Thrown) : M A :=
  if instanceof_TourAPIError error then throw error
  else throw (TourAPIError message None (Some (as_Error error)) UNKNOWN_ERROR).

Definition validationError (message : string) : Thrown :=
  TourAPIError message None None VALIDATION_ERROR.

(** [getAreaCode] (lines 354-381). *)
Definition getAreaCode (w : World) (params : AreaCodeParams.t)
  : M (list AreaCode.t) :=
  common <- getCommonParams w ;;
  let queryParams := (common ++
    [ ("numOfRows",
       Some (PNum (or_number (AreaCodeParams.numOfRows params) DEFAULT_NUM_OF_ROWS)));
      ("pageNo",
       Some (PNum (or_number (AreaCodeParams.pageNo params) DEFAULT_PAGE_NO))) ])%list in
  let url := buildQueryString queryParams in
  try_catch
    (response <- fetchWithRetry w areaCode2 url 0 ;;
     data <- settle (json response) ;;
     items <- parseAPIResponse w data ;;
     ret items)
    (rethrow "지역코드 조회 중 에러가 발생했습니다.").

(** [getAreaBasedList] (lines 390-430). *)
Definition getAreaBasedList (w : World) (params : AreaBasedListParams.t)
  : M TourListResponse.t :=
  common <- getCommonParams w ;;
  let queryParams := (common ++
    [ ("areaCode", opt_str (AreaBasedListParams.areaCode params));
      ("contentTypeId", opt_str (AreaBasedListParams.contentTypeId params));
      ("numOfRows",
       Some (PNum (or_number (AreaBasedListParams.numOfRows params) DEFAULT_NUM_OF_ROWS)));
      ("pageNo",
       Some (PNum (or_number (AreaBasedListParams.pageNo params) DEFAULT_PAGE_NO))) ])%list in
  let url := buildQueryString queryParams in
  try_catch
    (response <- fetchWithRetry w areaBasedList2 url 0 ;;
     data <- settle (json response) ;;
     tourItems <- parseAPIResponse w data ;;
     ret (TourListResponse.mk
            tourItems
            (or_number (body_field data Body.totalCount) 0)
            (or_number (body_field data Body.numOfRows) DEFAULT_NUM_OF_ROWS)
            (or_number (body_field data Body.pageNo) DEFAULT_PAGE_NO)))
    (rethrow "지역 기반 목록 조회 중 에러가 발생했습니다.").

(** [searchKeyword] (lines 437-485). *)
Definition searchKeyword (w : World) (params : SearchKeywordParams.t)
  : M TourListResponse.t :=
  if blank (SearchKeywordParams.keyword params) then
    let error := validationError "검색 키워드는 필수입니다." in
    logError w error (Some "searchKeyword") ;;;
    throw error
  else
    common <- getCommonParams w ;;
    let queryParams := (common ++
      [ ("keyword", Some (PStr (trimmed (SearchKeywordParams.keyword params))));
        ("areaCode", opt_str (SearchKeywordParams.areaCode params));
        ("contentTypeId", opt_str (SearchKeywordParams.contentTypeId params));
        ("numOfRows",
         Some (PNum (or_number (SearchKeywordParams.numOfRows params) DEFAULT_NUM_OF_ROWS)));
        ("pageNo",
         Some (PNum (or_number (SearchKeywordParams.pageNo params) DEFAULT_PAGE_NO))) ])%list in
    let url := buildQueryString queryParams in
    try_catch
      (response <- fetchWithRetry w searchKeyword2 url 0 ;;
       data <- settle (json response) ;;
       tourItems <- parseAPIResponse w data ;;
       ret (TourListResponse.mk
              tourItems
              (or_number (body_field data Body.totalCount) 0)
              (or_number (body_field data Body.numOfRows) DEFAULT_NUM_OF_ROWS)
              (or_number (body_field data Body.pageNo) DEFAULT_PAGE_NO)))
      (rethrow "키워드 검색 중 에러가 발생했습니다.").

(** [items[0]], and the error of its absence. *)
Definition firstOrThrow (notFound : string) (items : list JsObject)
  : M ItemResponse :=
  match nth_error items 0 with
  | Some detail => ret (mkItemResponse detail)
  | None => throw (TourAPIError_default notFound)
  end.

(** [getDetailCommon] (lines 492-535). *)
Definition getDetailCommon (w : World) (params : DetailParams.t)
  : M ItemResponse :=
  if blank (DetailParams.contentId params) then
    let error := validationError "콘텐츠 ID는 필수입니다." in
    logError w error (Some "getDetailCommon") ;;;
    throw error
  else
    common <- getCommonParams w ;;
    let queryParams := (common ++
      [ ("contentId", Some (PStr (trimmed (DetailParams.contentId params)))) ])%list in
    let url := buildQueryString queryParams in
    try_catch
      (response <- fetchWithRetry w detailCommon2 url 0 ;;
       data <- settle (json response) ;;
       items <- parseAPIResponse w data ;;
       firstOrThrow "상세 정보를 찾을 수 없습니다." items)
      (rethrow "공통 정보 조회 중 에러가 발생했습니다.").

(** [getDetailIntro] (lines 542-597). *)
Definition getDetailIntro (w : World) (params : DetailIntroParams.t)
  : M ItemResponse :=
  if blank (DetailIntroParams.contentId params) then
    let error := validationError "콘텐츠 ID는 필수입니다." in
    logError w error (Some "getDetailIntro") ;;;
    throw error
  else if blank (DetailIntroParams.contentTypeId params) then
    let error := validationError "콘텐츠 타입 ID는 필수입니다." in
    logError w error (Some "getDetailIntro") ;;;
    throw error
  else
    common <- getCommonParams w ;;
    let queryParams := (common ++
      [ ("contentId", Some (PStr (trimmed (DetailIntroParams.contentId params))));
        ("contentTypeId",
         Some (PStr (trimmed (DetailIntroParams.contentTypeId params)))) ])%list in
    let url := buildQueryString queryParams in
    try_catch
      (response <- fetchWithRetry w detailIntro2 url 0 ;;
       data <- settle (json response) ;;
       items <- parseAPIResponse w data ;;
       firstOrThrow "소개 정보를 찾을 수 없습니다." items)
      (rethrow "소개 정보 조회 중 에러가 발생했습니다.").

(** [getDetailImage] (lines 604-648). *)
Definition getDetailImage (w : World) (params : DetailImageParams.t)
  : M TourImageResponse.t :=
  if blank (DetailImageParams.contentId params) then
    let error := validationError "콘텐츠 ID는 필수입니다." in
    logError w error (Some "getDetailImage") ;;;
    throw error
  else
    common <- getCommonParams w ;;
    let queryParams := (common ++
      [ ("contentId", Some (PStr (trimmed (DetailImageParams.contentId params))));
        ("numOfRows",
         Some (PNum (or_number (DetailImageParams.numOfRows params) DEFAULT_NUM_OF_ROWS)));
        ("pageNo",
         Some (PNum (or_number (DetailImageParams.pageNo params) DEFAULT_PAGE_NO))) ])%list in
    let url := buildQueryString queryParams in
    try_catch
      (response <- fetchWithRetry w detailImage2 url 0 ;;
       data <- settle (json response) ;;
       images <- parseAPIResponse w data ;;
       ret (TourImageResponse.mk
              images
              (or_number (body_field data Body.totalCount) 0)))
      (rethrow "이미지 목록 조회 중 에러가 발생했습니다.").

(** [getDetailPetTour] (lines 655-698). *)
Definition getDetailPetTour (w : World) (params : DetailParams.t)
  : M ItemResponse :=
  if blank (DetailParams.contentId params) then
    let error := validationError "콘텐츠 ID는 필수입니다." in
    logError w error (Some "getDetailPetTour") ;;;
    throw error
  else
    common <- getCommonParams w ;;
    let queryParams := (common ++
      [ ("contentId", Some (PStr (trimmed (DetailParams.contentId params)))) ])%list in
    let url := buildQueryString queryParams in
    try_catch
      (response <- fetchWithRetry w detailPetTour2 url 0 ;;
       data <- settle (json response) ;;
       items <- parseAPIResponse w data ;;
       firstOrThrow "반려동물 정보를 찾을 수 없습니다." items)
      (rethrow "반려동물 정보 조회 중 에러가 발생했습니다.").

(* ===================================================================== *)
(** * Content types (lib/types/tour.ts, lines 357-366) *)
(* ===================================================================== *)

Module CONTENT_TYPE.
Definition TOURIST_SPOT : string := "12".
Definition CULTURAL_FACILITY : string := "14".
Definition FESTIVAL : string := "15".
Definition TOUR_COURSE : string := "25".
Definition LEISURE_SPORTS : string := "28".
Definition ACCOMMODATION : string := "32".
Definition SHOPPING : string := "38".
Definition RESTAURANT : string := "39".

(** [Object.values(CONTENT_TYPE)]: the values in the order of the literal. *)
Definition values : list string :=
  [ TOURIST_SPOT; CULTURAL_FACILITY; FESTIVAL; TOUR_COURSE;
    LEISURE_SPORTS; ACCOMMODATION; SHOPPING; RESTAURANT ].
End CONTENT_TYPE.

(** [TYPE_NAME_MAP] (stats-api.ts, lines 36-45). *)
Definition TYPE_NAME_MAP : list (string * string) :=
  [ (CONTENT_TYPE.TOURIST_SPOT, "관광지");
    (CONTENT_TYPE.CULTURAL_FACILITY, "문화시설");
    (CONTENT_TYPE.FESTIVAL, "축제/행사");
    (CONTENT_TYPE.TOUR_COURSE, "여행코스");
    (CONTENT_TYPE.LEISURE_SPORTS, "레포츠");
    (CONTENT_TYPE.ACCOMMODATION, "숙박");
    (CONTENT_TYPE.SHOPPING, "쇼핑");
    (CONTENT_TYPE.RESTAURANT, "음식점") ].

(** [object[key]]. *)
Fixpoint lookup (key : string) (object : list (string * string)) : option string :=
  match object with
  | [] => None
  | (k, v) :: rest => if String.eqb k key then Some v else lookup key rest
  end.

(* ===================================================================== *)
(** * Numbers in binary64: division, product and toFixed(2) *)
(* ===================================================================== *)

Definition prec : Z := 53.
Definition emax : Z := 1024.

(** The number value of an integer: the nearest double. *)
Definition Number_of_Z (z : Z) : spec_float := binary_normalize prec emax z 0 false.

Definition js_div (x y : spec_float) : spec_float := SFdiv prec emax x y.
Definition js_mul (x y : spec_float) : spec_float := SFmul prec emax x y.

(** What [x.toFixed(2)] returns: the digits of an integer number of
    hundredths with a sign, or [String(x)] for a value that is not finite or
    that has reached 10^21. *)
Inductive Fixed2 :=
| Digits (negative : bool) (hundredths : Z)
| Verbatim (x : spec_float).

(** The integer [n] for which [n / 100 - m * 2^e] is closest to zero, the
    larger one of two. *)
Definition nearest_hundredths (m : positive) (e : Z) : Z :=
  if 0 <=? e then Z.pos m * 2 ^ e * 100
  else (2 * (Z.pos m * 100) + 2 ^ (- e)) / (2 * 2 ^ (- e)).

(** [m * 2^e >= 10^21]. *)
Definition reaches_1e21 (m : positive) (e : Z) : bool :=
  if 0 <=? e then 10 ^ 21 <=? Z.pos m * 2 ^ e
  else 10 ^ 21 * 2 ^ (- e) <=? Z.pos m.

Definition toFixed2 (x : spec_float) : Fixed2 :=
  match x with
  | S754_zero _ => Digits false 0
  | S754_finite s m e =>
      if reaches_1e21 m e then Verbatim x
      else Digits s (nearest_hundredths m e)
  | _ => Verbatim x
  end.

(** [Number(s)] for a string that [toFixed(2)] returned: the double nearest
    to the decimal. *)
Definition Number_of_Fixed2 (s : Fixed2) : spec_float :=
  match s with
  | Digits negative n =>
      match n with
      | Z.pos p => SFdiv prec emax (S754_finite negative p 0) (S754_finite false 100 0)
      | _ => S754_zero negative
      end
  | Verbatim x => x
  end.

(** [Number(((count / totalCount) * 100).toFixed(2))] (stats-api.ts, line
    177). *)
Definition percentageOf (count totalCount : Z) : spec_float :=
  Number_of_Fixed2
    (toFixed2 (js_mul (js_div (Number_of_Z count) (Number_of_Z totalCount))
                      (Number_of_Z 100))).

(** The double written [n / 100] with two decimals, as in [41.67]. *)
Definition decimal2 (n : Z) : spec_float :=
  Number_of_Fixed2 (Digits (n <? 0) (Z.abs n)).

(** The integer a finite double holds. *)
Definition Z_of_Number (x : spec_float) : Z :=
  match x with
  | S754_finite s m e =>
      let magnitude := if 0 <=? e then Z.pos m * 2 ^ e else Z.pos m / 2 ^ (- e) in
      if s then - magnitude else magnitude
  | _ => 0
  end.

(** The integer a Number holds after a sum of integers whose exact value is
    [z]: [z] itself up to 2^53 in magnitude, where every integer is a double,
    and beyond that the nearest double, ties to even.  A sum that overflows
    to [Infinity], from 2^1024 on, is outside the integers of the model. *)
Definition roundNumber (z : Z) : Z :=
  if Z.abs z <=? 2 ^ 53 then z else Z_of_Number (Number_of_Z z).

(** [a + b] on Numbers that hold integers. *)
Definition js_add (a b : Z) : Z := roundNumber (a + b).

(** [Number.isSafeInteger(n)]: the integers on which the arithmetic of
    Numbers is the arithmetic of integers. *)
Definition isSafeInteger (n : Z) : Prop := - 2 ^ 53 < n < 2 ^ 53.




(* ===================================================================== *)
(** * Statistics (lib/types/stats.ts, lib/api/stats-api.ts) *)
(* ===================================================================== *)

Module RegionStats.
Record t := mk { areaCode : string; name : string; count : Z }.
End RegionStats.

Module TypeStats.
Record t := mk {
  contentTypeId : string;
  name : string;
  count : Z;
  percentage : spec_float
}.
End TypeStats.

Module StatsSummary.
Record t := mk {
  totalCount : Z;
  topRegions : list RegionStats.t;
  topTypes : list TypeStats.t;
  lastUpdated : Z
}.
End StatsSummary.

(** [Promise.allSettled(promises)]: every promise runs to its end; the result
    holds the outcome of each in the order of the array, and never rejects.
    The promises run concurrently: the trace lists their events promise by
    promise, which is one of the orders in which they can happen, and a
    property of the run may depend on the events only, not on their order
    across promises. *)
Definition allSettled {A} (promises : list (M A)) : M (list (Result A)) :=
  (Ok (map outcome promises), List.concat (map trace promises)).

(** [Promise.all([a, b])]: both run; it rejects when one of them does. *)
Definition all2 {A B} (a : M A) (b : M B) : M (A * B) :=
  let (ra, ta) := a in
  let (rb, tb) := b in
  (match ra, rb with
   | Ok x, Ok y => Ok (x, y)
   | Throw e, _ => Throw e
   | _, Throw e => Throw e
   end, (ta ++ tb)%list).

(** [result.status === 'fulfilled' && result.value !== null]. *)
Definition fulfilled_not_null {A} (result : Result (option A)) : bool :=
  match result with
  | Ok (Some _) => true
  | _ => false
  end.

(** [result.value]. *)
Definition value {A} (result : Result (option A)) : option A :=
  match result with
  | Ok v => v
  | Throw _ => None
  end.

(** [.filter((stat) => stat !== null)]. *)
Fixpoint not_null {A} (stats : list (option A)) : list A :=
  match stats with
  | [] => []
  | Some stat :: rest => stat :: not_null rest
  | None :: rest => not_null rest
  end.

(** Lines 94-100 and 158-164. *)
Definition successful {A} (results : list (Result (option A))) : list A :=
  not_null (map value (filter fulfilled_not_null results)).

(** [error instanceof Error ? error.message : String(error)]. *)
Definition message_or_String (error : Thrown) : string :=
  match error with
  | NonError text => text
  | _ => error_message error
  end.

(** The callback of [areaCodes.map] (stats-api.ts, lines 67-88). *)
Definition regionCallback (w : World) (areaCode : AreaCode.t)
  : M (option RegionStats.t) :=
  try_catch
    (response <- getAreaBasedList w
       (AreaBasedListParams.mk (Some (AreaCode.code areaCode)) None (Some 1) (Some 1)) ;;
     ret (Some (RegionStats.mk (AreaCode.code areaCode) (AreaCode.name areaCode)
                               (TourListResponse.totalCount response))))
    (fun error =>
       emit (EvConsoleError
               ("[getRegionStats] 지역 " ++ AreaCode.name areaCode ++ " (" ++
                AreaCode.code areaCode ++ ") 통계 수집 실패:")
               (message_or_String error)) ;;;
       ret None).

(** [getRegionStats] (stats-api.ts, lines 56-113). *)
Definition getRegionStats (w : World) : M (list RegionStats.t) :=
  try_catch
    (areaCodes <- getAreaCode w (AreaCodeParams.mk (Some 100) (Some 1)) ;;
     if (List.length areaCodes =? 0)%nat then
       emit (EvConsoleWarn "[getRegionStats] 지역 코드를 조회할 수 없습니다.") ;;;
       ret []
     else
       let statsPromises := map (regionCallback w) areaCodes in
       results <- allSettled statsPromises ;;
       ret (successful results))
    (rethrow "지역별 통계 수집 중 에러가 발생했습니다.").

(** The callback of [contentTypeIds.map] (stats-api.ts, lines 130-152). *)
Definition typeCallback (w : World) (contentTypeId : string)
  : M (option TypeStats.t) :=
  try_catch
    (response <- getAreaBasedList w
       (AreaBasedListParams.mk None (Some contentTypeId) (Some 1) (Some 1)) ;;
     ret (Some (TypeStats.mk
                  contentTypeId
                  (string_or_empty
                     (or_string (lookup contentTypeId TYPE_NAME_MAP)
                                (Some ("타입 " ++ contentTypeId))))
                  (TourListResponse.totalCount response)
                  (S754_zero false))))
    (fun error =>
       emit (EvConsoleError
               ("[getTypeStats] 타입 " ++ contentTypeId ++ " 통계 수집 실패:")
               (message_or_String error)) ;;;
       ret None).

(** [stats.reduce((sum, stat) => sum + stat.count, 0)]. *)
Definition sumCounts (stats : list TypeStats.t) : Z :=
  fold_left (fun sum stat => js_add sum (TypeStats.count stat)) stats 0.

(** [{ ...stat, percentage: p }]. *)
Definition withPercentage (stat : TypeStats.t) (p : spec_float) : TypeStats.t :=
  TypeStats.mk (TypeStats.contentTypeId stat) (TypeStats.name stat)
               (TypeStats.count stat) p.

(** [getTypeStats] (stats-api.ts, lines 124-189). *)
Definition getTypeStats (w : World) : M (list TypeStats.t) :=
  try_catch
    (let contentTypeIds := CONTENT_TYPE.values in
     let statsPromises := map (typeCallback w) contentTypeIds in
     results <- allSettled statsPromises ;;
     let typeStats := successful results in
     let totalCount := sumCounts typeStats in
     if totalCount =? 0 then
       emit (EvConsoleWarn "[getTypeStats] 전체 관광지 수가 0입니다.") ;;;
       ret typeStats
     else
       ret (map (fun stat =>
                   withPercentage stat (percentageOf (TypeStats.count stat) totalCount))
                typeStats))
    (rethrow "타입별 통계 수집 중 에러가 발생했습니다.").

(** [array.sort(compareFn)]: the sort is stable, so for a comparator that
    orders the elements by a key the result is fixed by the language; it is
    computed here by insertion from the right. *)
Fixpoint insert {A} (compareFn : A -> A -> Z) (x : A) (sorted : list A) : list A :=
  match sorted with
  | [] => [x]
  | y :: rest =>
      if compareFn x y <=? 0 then x :: y :: rest
      else y :: insert compareFn x rest
  end.

Definition sort {A} (compareFn : A -> A -> Z) (array : list A) : list A :=
  fold_right (insert compareFn) [] array.

(** [array.slice(0, n)]. *)
Definition slice0 {A} (n : nat) (array : list A) : list A := firstn n array.

(** [getStatsSummary] (stats-api.ts, lines 200-240). *)
Definition getStatsSummary (w : World) : M StatsSummary.t :=
  try_catch
    (both <- all2 (getRegionStats w) (getTypeStats w) ;;
     let regionStats := fst both in
     let typeStats := snd both in
     let totalCount := sumCounts typeStats in
     let topRegions :=
       slice0 3 (sort (fun a b => RegionStats.count b - RegionStats.count a)
                      regionStats) in
     let topTypes :=
       slice0 3 (sort (fun a b => TypeStats.count b - TypeStats.count a)
                      typeStats) in
     let lastUpdated := clock w in
     ret (StatsSummary.mk totalCount topRegions topTypes lastUpdated))
    (rethrow "통계 요약 정보 생성 중 에러가 발생했습니다.").

(* ===================================================================== *)
(** * Observations on traces and on the upstream *)
(* ===================================================================== *)

(** The number of [fetch] calls in a trace. *)
Fixpoint attempts (t : Trace) : nat :=
  match t with
  | [] => 0
  | EvFetch _ _ _ :: rest => S (attempts rest)
  | _ :: rest => attempts rest
  end.

(** The waits of a trace, in order. *)
Fixpoint delays (t : Trace) : list Z :=
  match t with
  | [] => []
  | EvSleep ms :: rest => ms :: delays rest
  | _ :: rest => delays rest
  end.

(** An attempt that fails otherwise than by the timeout: [fetch] rejects with
    something that is not the abort error, or the response is not [ok]. *)
Definition retryable {T} (o : FetchOutcome T) : bool :=
  match o with
  | Responds r => negb (ok r)
  | Rejects e => negb (isAbortError e)
  end.

(** An attempt that fails, the timeout included. *)
Definition fails {T} (o : FetchOutcome T) : bool :=
  match o with
  | Responds r => negb (ok r)
  | Rejects _ => true
  end.

(** The value the [catch] clause of [fetchWithRetry] receives for a failed
    attempt. *)
Definition caught {T} (o : FetchOutcome T) : Thrown :=
  match o with
  | Responds r =>
      TourAPIError
        ("HTTP " ++ string_of_Z (status r) ++ ": " ++ statusText r)
        (Some (status r)) None
        (if (status r =? 401) || (status r =? 403) then API_KEY_INVALID
         else if status r =? 408 then TIMEOUT_ERROR else HTTP_ERROR)
  | Rejects e => e
  end.

(** The key-error codes of the envelope. *)
Definition serviceKeyCodes : list string :=
  [ "SERVICE_KEY_IS_NOT_REGISTERED"; "SERVICE_KEY_IS_NOT_VALID";
    "SERVICE_KEY_IS_NULL" ].

(** [sum] of a list of counts. *)
Definition total (counts : list Z) : Z := fold_right Z.add 0 counts.

(** The comparator [(a, b) => b.key - a.key]. *)
Definition byKeyDesc {A} (key : A -> Z) (a b : A) : Z := key b - key a.

(** A list whose keys do not increase. *)
Definition descending {A} (key : A -> Z) (l : list A) : Prop :=
  StronglySorted (fun a b => key b <= key a) l.

(** An argument that is missing, empty or made of white space. *)
Definition missing_or_blank (value : option string) : Prop :=
  match value with
  | None => True
  | Some s => WhiteSpace s
  end.

(** The operation throws a [TourAPIError] of the given type. *)
Definition throwsType {A} (m : M A) (t : TourAPIErrorType) : Prop :=
  exists e, outcome m = Throw e /\ errorType_of e = Some t.

(** Every request of the run carries the query entry [name=value]. *)
Definition requestsWith {A} (name value : string) (m : M A) : Prop :=
  Forall (fun ev =>
            match ev with
            | EvFetch _ query _ => In (name, value) query
            | _ => True
            end) (trace m).

(** The entries every request starts with. *)
Definition commonQuery (serviceKey : string) : Query :=
  [ ("serviceKey", serviceKey); ("MobileOS", "ETC"); ("MobileApp", "MyTrip");
    ("_type", "json") ].

(** The upstream answers the request with a successful envelope that holds no
    record. *)
Definition answersNoRecord (w : World) (ep : Endpoint) (url : Query) : Prop :=
  exists response data,
    outcome (fetchWithRetry w ep url 0) = Ok response /\
    json response = Ok data /\
    resultCode (header data) = "0000" /\
    match body_field data Body.items with
    | None => True
    | Some (ItemArray []) => True
    | _ => False
    end.

(** A page parameter with the value [0] read as an omitted one. *)
Definition omit0 (o : option Z) : option Z :=
  match o with
  | Some n => if n =? 0 then None else Some n
  | None => None
  end.

(** The listing call [getRegionStats] makes for a region, and the one
    [getTypeStats] makes for a content type. *)
Definition regionParams (areaCode : AreaCode.t) : AreaBasedListParams.t :=
  AreaBasedListParams.mk (Some (AreaCode.code areaCode)) None (Some 1) (Some 1).

Definition typeParams (contentTypeId : string) : AreaBasedListParams.t :=
  AreaBasedListParams.mk None (Some contentTypeId) (Some 1) (Some 1).

(** The statistics of the regions whose listing call succeeds, in the order of
    the area codes: a region whose call fails is left out. *)
Definition regionStatsOf (w : World) (areaCodes : list AreaCode.t)
  : list RegionStats.t :=
  flat_map (fun areaCode =>
              match outcome (getAreaBasedList w (regionParams areaCode)) with
              | Ok response =>
                  [RegionStats.mk (AreaCode.code areaCode) (AreaCode.name areaCode)
                                  (TourListResponse.totalCount response)]
              | Throw _ => []
              end) areaCodes.

(** The console line for a region whose listing call failed with [error]. *)
Definition regionFailureLog (areaCode : AreaCode.t) (error : Thrown) : Event :=
  EvConsoleError
    ("[getRegionStats] 지역 " ++ AreaCode.name areaCode ++ " (" ++
     AreaCode.code areaCode ++ ") 통계 수집 실패:")
    (message_or_String error).

(** The counts of the content types whose listing call succeeds, in the order
    of [CONTENT_TYPE]. *)
Definition typeCountsOf (w : World) (contentTypeIds : list string)
  : list (string * Z) :=
  flat_map (fun contentTypeId =>
              match outcome (getAreaBasedList w (typeParams contentTypeId)) with
              | Ok response =>
                  [(contentTypeId, TourListResponse.totalCount response)]
              | Throw _ => []
              end) contentTypeIds.

Definition typeName (contentTypeId : string) : string :=
  string_or_empty (or_string (lookup contentTypeId TYPE_NAME_MAP)
                             (Some ("타입 " ++ contentTypeId))).

(** [counts.reduce((sum, count) => sum + count, 0)] on Numbers. *)
Definition numberSum (counts : list Z) : Z := fold_left js_add counts 0.


(** The type statistics: for every type whose call succeeded, its count and
    the percentage of that count in the sum of the counts of the successful
    types, or 0 when that sum is zero. *)
Definition typeStatsOf (w : World) : list TypeStats.t :=
  let counted := typeCountsOf w CONTENT_TYPE.values in
  let sum := numberSum (map snd counted) in
  map (fun c =>
         TypeStats.mk (fst c) (typeName (fst c)) (snd c)
           (if sum =? 0 then S754_zero false else percentageOf (snd c) sum))
      counted.

(** What the count query of one content type leaves in the trace: the events
    of the listing call, and the console line when it failed. *)
Definition typeQueryTrace (w : World) (contentTypeId : string) : Trace :=
  (trace (getAreaBasedList w (typeParams contentTypeId)) ++
   match outcome (getAreaBasedList w (typeParams contentTypeId)) with
   | Ok _ => []
   | Throw error =>
       [EvConsoleError ("[getTypeStats] 타입 " ++ contentTypeId ++ " 통계 수집 실패:")
                       (message_or_String error)]
   end)%list.

(* ===================================================================== *)
(** * Sample upstreams *)
(* ===================================================================== *)

(** A response with the given status line whose body is a successful envelope
    without items. *)
Definition emptyResponse {T} (status : Z) (statusText : string) : Response T :=
  mkResponse status statusText
    (Ok (mkEnvelope (mkHeader "0000" (Some "OK"))
                    (Some (Body.mk None None None (Some 0))))).

(** The first attempt runs into the timeout; later attempts would succeed. *)
Definition timeoutThenOk : World :=
  mkWorld (Some "key") None None
    (fun ep url n => if (n =? 0)%nat then TimesOut else Responds (emptyResponse 200 "OK"))
    0.

(** Two network failures, then a success. *)
Definition failsTwice : World :=
  mkWorld (Some "key") None None
    (fun ep url n =>
       if (n <? 2)%nat
       then Rejects (NativeError TypeErrorClass "TypeError" "fetch failed")
       else Responds (emptyResponse 200 "OK"))
    0.

(** Every attempt is answered with HTTP 500. *)
Definition alwaysHttp500 : World :=
  mkWorld (Some "key") None None
    (fun ep url n => Responds (emptyResponse 500 "Internal Server Error"))
    0.

(** Every attempt is answered with a successful envelope without items. *)
Definition noRecords : World :=
  mkWorld (Some "key") None None
    (fun ep url n => Responds (emptyResponse 200 "OK"))
    0.

(** An upstream with four regions and the eight content types: the count of
    a listing depends on the region or on the content type asked for; content
    type 39 holds 500 records and every other type 100. *)
Definition sampleAreaCodes : list AreaCode.t :=
  [ AreaCode.mk "1" "서울" (Some "1");
    AreaCode.mk "6" "부산" (Some "2");
    AreaCode.mk "31" "경기도" (Some "3");
    AreaCode.mk "39" "제주도" (Some "4") ].

Definition sampleCount (url : Query) : Z :=
  match lookup "areaCode" url with
  | Some code =>
      if String.eqb code "1" then 150
      else if String.eqb code "6" then 90
      else if String.eqb code "31" then 300
      else 20
  | None =>
      match lookup "contentTypeId" url with
      | Some id => if String.eqb id "39" then 500 else 100
      | None => 0
      end
  end.

Definition sampleListing (url : Query) : Response JsObject :=
  mkResponse 200 "OK"
    (Ok (mkEnvelope (mkHeader "0000" (Some "OK"))
           (Some (Body.mk (Some (OneItem [("contentid", "125266")]))
                          (Some 1) (Some 1) (Some (sampleCount url)))))).

Definition sampleUpstream : World :=
  mkWorld (Some "key") None None
    (fun ep =>
       match ep as ep0 return Query -> nat -> FetchOutcome (ItemOf ep0) with
       | areaCode2 => fun url n =>
           Responds
             (mkResponse 200 "OK"
                (Ok (mkEnvelope (mkHeader "0000" (Some "OK"))
                       (Some (Body.mk (Some (ItemArray sampleAreaCodes))
                                      (Some 100) (Some 1) (Some 4))))))
       | areaBasedList2 => fun url n => Responds (sampleListing url)
       | searchKeyword2 => fun url n => Responds (sampleListing url)
       | detailCommon2 => fun url n => Responds (sampleListing url)
       | detailIntro2 => fun url n => Responds (sampleListing url)
       | detailImage2 => fun url n => Responds (sampleListing url)
       | detailPetTour2 => fun url n => Responds (sampleListing url)
       end)
    1762041600000.

(** An upstream that answers the area codes of [sampleAreaCodes] and, for a
    listing of one content type, the count that [counts] gives for the type,
    0 for a type it does not list. *)
Definition countOfType (counts : list (string * Z)) (url : Query) : Z :=
  match lookup "contentTypeId" url with
  | Some id =>
      match find (fun entry => String.eqb (fst entry) id) counts with
      | Some entry => snd entry
      | None => 0
      end
  | None => 0
  end.

Definition countedListing (count : Z) : Response JsObject :=
  mkResponse 200 "OK"
    (Ok (mkEnvelope (mkHeader "0000" (Some "OK"))
           (Some (Body.mk (Some (OneItem [("contentid", "125266")]))
                          (Some 1) (Some 1) (Some count))))).

Definition upstreamCounting (counts : list (string * Z)) : World :=
  mkWorld (Some "key") None None
    (fun ep =>
       match ep as ep0 return Query -> nat -> FetchOutcome (ItemOf ep0) with
       | areaCode2 => fun url n =>
           Responds
             (mkResponse 200 "OK"
                (Ok (mkEnvelope (mkHeader "0000" (Some "OK"))
                       (Some (Body.mk (Some (ItemArray sampleAreaCodes))
                                      (Some 100) (Some 1) (Some 4))))))
       | areaBasedList2 => fun url n => Responds (countedListing (countOfType counts url))
       | searchKeyword2 => fun url n => Responds (countedListing (countOfType counts url))
       | detailCommon2 => fun url n => Responds (countedListing (countOfType counts url))
       | detailIntro2 => fun url n => Responds (countedListing (countOfType counts url))
       | detailImage2 => fun url n => Responds (countedListing (countOfType counts url))
       | detailPetTour2 => fun url n => Responds (countedListing (countOfType counts url))
       end)
    1762041600000.

(** 23 places of type 12 and 137 of type 14: 160 in all. *)
Definition twentyThreeOf160 : World := upstreamCounting [("12", 23); ("14", 137)].


(** 2^53 places of type 12, one of type 14 and one of type 15. *)
Definition hugeCounts : World :=
  upstreamCounting [("12", 2 ^ 53); ("14", 1); ("15", 1)].





(** The transport as the specification words it: whatever makes the attempts
    before the [k]-th fail, the timeout included, the response of the first
    attempt that succeeds is returned. *)
Definition retries_after_any_failure : Prop :=
  forall w ep url k r,
    (k <= MAX_RETRIES)%nat ->
    (forall i, (i < k)%nat -> fails (fetch w ep url i) = true) ->
    fetch w ep url k = Responds r -> ok r = true ->
    outcome (fetchWithRetry w ep url 0) = Ok r.

(* ===================================================================== *)
(** * User messages (tour-api.ts, lines 99-128) *)
(* ===================================================================== *)

(** [getUserMessage()] of a [TourAPIError] with the given fields. *)
Definition getUserMessage (message : string) (statusCode : option Z)
  (errorType : TourAPIErrorType) : string :=
  match errorType with
  | API_KEY_MISSING
  | API_KEY_INVALID => "서비스 설정에 문제가 있습니다. 잠시 후 다시 시도해주세요."
  | NETWORK_ERROR => "인터넷 연결을 확인하고 잠시 후 다시 시도해주세요."
  | TIMEOUT_ERROR => "서버 응답이 지연되고 있습니다. 잠시 후 다시 시도해주세요."
  | HTTP_ERROR =>
      match statusCode with
      | Some code =>
          if code =? 404 then "요청한 정보를 찾을 수 없습니다."
          else if code =? 429 then "요청이 너무 많습니다. 잠시 후 다시 시도해주세요."
          else if negb (code =? 0) && (500 <=? code)
               then "서버에 문제가 발생했습니다. 잠시 후 다시 시도해주세요."
               else "요청 처리 중 오류가 발생했습니다."
      | None => "요청 처리 중 오류가 발생했습니다."
      end
  | API_ERROR => "관광지 정보를 불러오는 중 오류가 발생했습니다."
  | PARSE_ERROR => "데이터 처리 중 오류가 발생했습니다."
  | VALIDATION_ERROR => message
  | UNKNOWN_ERROR => "오류가 발생했습니다. 잠시 후 다시 시도해주세요."
  end.

(** The messages [getUserMessage] keeps for an HTTP status. *)
Definition httpStatusMessages : list string :=
  [ "요청한 정보를 찾을 수 없습니다.";
    "요청이 너무 많습니다. 잠시 후 다시 시도해주세요.";
    "서버에 문제가 발생했습니다. 잠시 후 다시 시도해주세요.";
    "요청 처리 중 오류가 발생했습니다." ].

(* ===================================================================== *)
(** * Further observations *)
(* ===================================================================== *)

(** The service key the environment holds: the first of
    [NEXT_PUBLIC_TOUR_API_KEY] and [TOUR_API_KEY] that is set and not
    empty. *)
Definition serviceKeyOf (w : World) : option string :=
  match NEXT_PUBLIC_TOUR_API_KEY w with
  | Some (String c s) => Some (String c s)
  | _ =>
      match TOUR_API_KEY w with
      | Some (String c s) => Some (String c s)
      | _ => None
      end
  end.

(** [response.json()] rejects with built-in errors only, never with a
    [TourAPIError]. *)
Definition nativeJson (w : World) : Prop :=
  forall ep url n r e,
    fetch w ep url n = Responds r -> json r = Throw e ->
    instanceof_TourAPIError e = false.

(** Whatever the run throws satisfies [P]. *)
Definition throwsOnly {A} (P : Thrown -> Prop) (m : M A) : Prop :=
  forall e, outcome m = Throw e -> P e.

(** A [TourAPIError] whose type is one of [types]. *)
Definition typedAmong (types : list TourAPIErrorType) (e : Thrown) : Prop :=
  exists t, errorType_of e = Some t /\ In t types.

(** A [TourAPIError] whose type is one of [types], or a value that is not a
    [TourAPIError]. *)
Definition typedAmongOrForeign (types : list TourAPIErrorType) (e : Thrown) : Prop :=
  instanceof_TourAPIError e = false \/ typedAmong types e.

(** The types of errors the transport ends with. *)
Definition transportTypes : list TourAPIErrorType :=
  [TIMEOUT_ERROR; NETWORK_ERROR; UNKNOWN_ERROR].

(** The types of errors an operation can end with. *)
Definition operationTypes : list TourAPIErrorType :=
  [ VALIDATION_ERROR; API_KEY_MISSING; TIMEOUT_ERROR; NETWORK_ERROR;
    UNKNOWN_ERROR; API_KEY_INVALID; API_ERROR ].

(** Every request of the run carries the service key and the three fixed
    parameters. *)
Definition carriesCommon {A} (serviceKey : string) (m : M A) : Prop :=
  requestsWith "serviceKey" serviceKey m /\
  requestsWith "MobileOS" "ETC" m /\
  requestsWith "MobileApp" "MyTrip" m /\
  requestsWith "_type" "json" m.

(** The query of the request [getAreaBasedList] sends for the given
    parameters. *)
Definition listingQuery (serviceKey : string) (p : AreaBasedListParams.t) : Query :=
  (commonQuery serviceKey ++
   buildQueryString
     [ ("areaCode", opt_str (AreaBasedListParams.areaCode p));
       ("contentTypeId", opt_str (AreaBasedListParams.contentTypeId p));
       ("numOfRows",
        Some (PNum (or_number (AreaBasedListParams.numOfRows p) DEFAULT_NUM_OF_ROWS)));
       ("pageNo",
        Some (PNum (or_number (AreaBasedListParams.pageNo p) DEFAULT_PAGE_NO))) ])%list.

(** The page [getAreaBasedList] builds from a successful envelope. *)
Definition listingOf (data : TourAPIResponse JsObject) : TourListResponse.t :=
  TourListResponse.mk
    match body_field data Body.items with
    | None => []
    | Some (OneItem item) => [item]
    | Some (ItemArray item) => item
    end
    (or_number (body_field data Body.totalCount) 0)
    (or_number (body_field data Body.numOfRows) DEFAULT_NUM_OF_ROWS)
    (or_number (body_field data Body.pageNo) DEFAULT_PAGE_NO).

(** The area-code lookup [getRegionStats] starts with. *)
Definition areaCodeLookup (w : World) : M (list AreaCode.t) :=
  getAreaCode w (AreaCodeParams.mk (Some 100) (Some 1)).

(** An upstream that answers every request with a page that is not JSON. *)
Definition htmlBody : World :=
  mkWorld None (Some "key") None
    (fun ep url n =>
       Responds
         (mkResponse 200 "OK"
            (Throw (NativeError SyntaxErrorClass "SyntaxError"
                      "Unexpected token < in JSON at position 0"))))
    0.

(** An environment without a service key. *)
Definition noKey : World :=
  mkWorld (Some "") None (Some "development")
    (fun ep url n => Responds (emptyResponse 200 "OK"))
    0.

(* ===================================================================== *)
(** * Page numbers (components/ui/loading.tsx, lines 127-226) *)
(* ===================================================================== *)

(** An entry of the page bar: a page number or one of the two ellipses. *)
Inductive PageEntry :=
| PageNumber (page : Z)
| EllipsisStart
| EllipsisEnd.

(** The values [i] of [for (let i = first; i <= last; i++)]. *)
Definition range (first last : Z) : list Z :=
  map (fun k => first + Z.of_nat k) (seq 0 (Z.to_nat (last - first + 1))).

(** [getPageNumbers] (lines 179-226), for a current page and a number of
    pages that are safe integers, as are the two pages before and after the
    current one: the sums and differences are then those of integers, and the
    counter of each loop reaches the value that ends it. *)
Definition getPageNumbers (currentPage totalPages : Z) : list PageEntry :=
  let maxVisible := 5 in
  if totalPages <=? maxVisible then map PageNumber (range 1 totalPages)
  else
    let startPage := Z.max 1 (currentPage - 2) in
    let endPage := Z.min totalPages (currentPage + 2) in
    let adjusted :=
      if endPage - startPage <? maxVisible - 1 then
        if startPage =? 1
        then (startPage, Z.min totalPages (startPage + maxVisible - 1))
        else (Z.max 1 (endPage - maxVisible + 1), endPage)
      else (startPage, endPage) in
    let startPage := fst adjusted in
    let endPage := snd adjusted in
    ((if 1 <? startPage
      then PageNumber 1 :: (if 2 <? startPage then [EllipsisStart] else [])
      else []) ++
     map PageNumber (range startPage endPage) ++
     (if endPage <? totalPages
      then (if endPage <? totalPages - 1 then [EllipsisEnd] else []) ++
           [PageNumber totalPages]
      else []))%list.

(** The page numbers among the entries. *)
Fixpoint pageNumbers (entries : list PageEntry) : list Z :=
  match entries with
  | [] => []
  | PageNumber page :: rest => page :: pageNumbers rest
  | _ :: rest => pageNumbers rest
  end.

(** The handlers (lines 140-177): the page [onPageChange] is called with, if
    it is called.  The pages are safe integers: [currentPage + 1] is then the
    next integer. *)
Definition handlePrevious (currentPage totalPages : Z) : option Z :=
  if 1 <? currentPage then Some (currentPage - 1) else None.

Definition handleNext (currentPage totalPages : Z) : option Z :=
  if currentPage <? totalPages then Some (currentPage + 1) else None.

Definition handlePageClick (currentPage totalPages page : Z) : option Z :=
  if (1 <=? page) && (page <=? totalPages) && negb (page =? currentPage)
  then Some page else None.

Definition handleKeyDown (currentPage totalPages : Z) (key : string) (page : Z)
  : option Z :=
  if String.eqb key "Enter" || String.eqb key " "
  then handlePageClick currentPage totalPages page
  else if String.eqb key "ArrowLeft" && (page =? currentPage)
  then handlePrevious currentPage totalPages
  else if String.eqb key "ArrowRight" && (page =? currentPage)
  then handleNext currentPage totalPages
  else None.

(* ===================================================================== *)
(** * Area code of an address (app/not-found.tsx, lines 193-222) *)
(* ===================================================================== *)

(** [areaMap]: the entries in the order of the literal. *)
Definition areaMap : list (string * string) :=
  [ ("서울", "1"); ("인천", "2"); ("대전", "3"); ("대구", "4"); ("광주", "5");
    ("부산", "6"); ("울산", "7"); ("세종", "8"); ("경기", "31"); ("강원", "32");
    ("충북", "33"); ("충남", "34"); ("경북", "35"); ("경남", "36");
    ("전북", "37"); ("전남", "38"); ("제주", "39") ].

(** The loop over [Object.entries(areaMap)]. *)
Fixpoint firstRegionIn (address : string) (entries : list (string * string))
  : string :=
  match entries with
  | [] => ""
  | (region, code) :: rest =>
      if includes address region then code else firstRegionIn address rest
  end.

Definition extractAreaCodeFromAddress (address : string) : string :=
  if String.eqb address "" then "" else firstRegionIn address areaMap.

(* ===================================================================== *)
(** * Images (image.ts, in unnamed/part_017, lines 86-248) *)
(* ===================================================================== *)

Definition DEFAULT_PLACEHOLDER_IMAGE : string :=
  "https://images.unsplash.com/photo-1506905925346-21bda4d32df4?w=400&h=300&fit=crop".

Definition VISITKOREA_IMAGE_DOMAIN : string := "tong.visitkorea.or.kr".

(** [s.startsWith(p)]. *)
Definition startsWith (s p : string) : bool := prefix p s.

(** [normalizeImageUrl(url, fallback)]; [None] stands for [null], and for
    an [url] that is [undefined].  The caller that leaves the fallback out
    passes [Some DEFAULT_PLACEHOLDER_IMAGE]. *)
Definition normalizeImageUrl (url : option string) (fallback : option string)
  : option string :=
  match url with
  | None => fallback
  | Some url =>
      if String.eqb url "" || String.eqb (trim url) "" ||
         String.eqb url "null" || String.eqb url "undefined"
      then fallback
      else
        let trimmed := trim url in
        if startsWith trimmed "http://" || startsWith trimmed "https://"
        then Some trimmed
        else if startsWith trimmed "/"
        then Some ("https://" ++ VISITKOREA_IMAGE_DOMAIN ++ trimmed)
        else fallback
  end.

(** [isHttpImage(url)]. *)
Definition isHttpImage (url : option string) : bool :=
  match url with
  | None => false
  | Some url => if String.eqb url "" then false else startsWith url "http://"
  end.

Inductive Layout :=
| card
| detail
| gallery_main
| gallery_thumbnail
| gallery_modal
| custom.

(** [getImageSizes(layout, customSizes)]. *)
Definition getImageSizes (layout : Layout) (customSizes : option string) : string :=
  match layout, falsy_string customSizes with
  | custom, false => string_or_empty customSizes
  | card, _ => "(max-width: 640px) 100vw, (max-width: 1024px) 50vw, 33vw"
  | detail, _ => "(max-width: 768px) 100vw, (max-width: 1200px) 80vw, 1200px"
  | gallery_main, _ => "(max-width: 768px) 100vw, (max-width: 1200px) 80vw, 1200px"
  | gallery_thumbnail, _ => "(max-width: 640px) 50vw, (max-width: 768px) 25vw, 20vw"
  | gallery_modal, _ => "100vw"
  | custom, true => "(max-width: 768px) 100vw, 1200px"
  end.

(** The options of [getImageProps]; [None] is an option left out.  The
    fallback can be left out, [null] or a string. *)
Module ImageOptions.
Record t := mk {
  layout : option Layout;
  customSizes : option string;
  priority : option bool;
  fill : option bool;
  width : option Z;
  height : option Z;
  fallback : option (option string)
}.
End ImageOptions.

(** The props [getImageProps] returns; [None] is a property that is not
    set. *)
Module ImageProps.
Record t := mk {
  src : string;
  alt : string;
  sizes : option string;
  priority : option bool;
  unoptimized : option bool;
  fill : option bool;
  width : option Z;
  height : option Z
}.
End ImageProps.

Definition layout_eqb_custom (layout : Layout) : bool :=
  match layout with custom => true | _ => false end.

(** [width && height]: both numbers are set and not zero. *)
Definition truthy_number (n : option Z) : bool :=
  match n with
  | Some z => negb (z =? 0)
  | None => false
  end.

(** [getImageProps(url, alt, options)]. *)
Definition getImageProps (url : option string) (alt : string)
  (options : ImageOptions.t) : ImageProps.t :=
  let layout := match ImageOptions.layout options with Some l => l | None => card end in
  let customSizes := ImageOptions.customSizes options in
  let priority := match ImageOptions.priority options with Some b => b | None => false end in
  let fill := match ImageOptions.fill options with Some b => b | None => false end in
  let width := ImageOptions.width options in
  let height := ImageOptions.height options in
  let fallback :=
    match ImageOptions.fallback options with
    | Some f => f
    | None => Some DEFAULT_PLACEHOLDER_IMAGE
    end in
  let normalizedUrl := normalizeImageUrl url fallback in
  let httpImage := isHttpImage normalizedUrl in
  let sizes :=
    if negb (layout_eqb_custom layout) then Some (getImageSizes layout None)
    else customSizes in
  ImageProps.mk
    (if falsy_string normalizedUrl then DEFAULT_PLACEHOLDER_IMAGE
     else string_or_empty normalizedUrl)
    alt
    (if falsy_string sizes then None else sizes)
    (if priority then Some true else None)
    (if httpImage then Some true else None)
    (if fill then Some true else None)
    (if fill then None
     else if truthy_number width && truthy_number height then width else None)
    (if fill then None
     else if truthy_number width && truthy_number height then height else None).

(* ===================================================================== *)
(** * Query parameters of the page (components/tour-search.tsx, the
      filters in components/ui/error.tsx, components/tour-list.tsx) *)
(* ===================================================================== *)

(** A [URLSearchParams]: its list of name-value pairs. *)
Module URLSearchParams.

Definition t : Type := list (string * string).

(** [params.delete(name)]. *)
Definition delete (name : string) (params : t) : t :=
  filter (fun kv => negb (String.eqb (fst kv) name)) params.

(** [params.append(name, value)]. *)
Definition append (name value : string) (params : t) : t :=
  (params ++ [(name, value)])%list.

(** [params.set(name, value)]: the first pair of that name takes the value
    and the others are removed; without such a pair the pair is appended. *)
Fixpoint set (name value : string) (params : t) : t :=
  match params with
  | [] => [(name, value)]
  | (k, v) :: rest =>
      if String.eqb k name then (name, value) :: delete name rest
      else (k, v) :: set name value rest
  end.

(** [params.getAll(name)]. *)
Definition getAll (name : string) (params : t) : list string :=
  map snd (filter (fun kv => String.eqb (fst kv) name) params).

(** [params.get(name)]. *)
Definition get (name : string) (params : t) : option string :=
  hd_error (getAll name params).

End URLSearchParams.

(** [handleSearch] of the search box (tour-search.tsx, lines 62-83): the
    parameters of the page it navigates to, or [None] while a search is under
    way.  [new URLSearchParams(searchParams.toString())] is a copy of the
    parameters. *)
Definition handleSearch (isSearching : bool) (keyword : string)
  (searchParams : URLSearchParams.t) : option URLSearchParams.t :=
  if isSearching then None
  else
    let params := searchParams in
    let params :=
      if negb (String.eqb (trim keyword) "")
      then URLSearchParams.set "keyword" (trim keyword) params
      else URLSearchParams.delete "keyword" params in
    Some (URLSearchParams.delete "page" params).

(** [handleClear] of the search box (lines 94-100). *)
Definition handleClear (searchParams : URLSearchParams.t) : URLSearchParams.t :=
  URLSearchParams.delete "page" (URLSearchParams.delete "keyword" searchParams).

(** The updates [updateFilters] takes (components/ui/error.tsx, lines
    224-266); [None] is a property that is [undefined]. *)
Module FilterUpdates.
Record t := mk {
  areaCode : option string;
  contentTypeId : option (list string);
  sort : option string;
  resetPage : option bool
}.
End FilterUpdates.

Definition SORT_LATEST : string := "latest".
Definition SORT_NAME : string := "name".

(** [updateFilters]: the parameters of the page it navigates to. *)
Definition updateFilters (searchParams : URLSearchParams.t)
  (updates : FilterUpdates.t) : URLSearchParams.t :=
  let params := searchParams in
  let params :=
    match FilterUpdates.areaCode updates with
    | Some areaCode =>
        if negb (String.eqb areaCode "")
        then URLSearchParams.set "areaCode" areaCode params
        else URLSearchParams.delete "areaCode" params
    | None => params
    end in
  let params :=
    match FilterUpdates.contentTypeId updates with
    | Some ids =>
        fold_left (fun params id => URLSearchParams.append "contentTypeId" id params)
                  ids (URLSearchParams.delete "contentTypeId" params)
    | None => params
    end in
  let params :=
    match FilterUpdates.sort updates with
    | Some sort =>
        if String.eqb sort SORT_LATEST
        then URLSearchParams.delete "sort" params
        else URLSearchParams.set "sort" sort params
    | None => params
    end in
  match FilterUpdates.resetPage updates with
  | Some false => params
  | _ => URLSearchParams.delete "page" params
  end.

(** [searchParams.getAll("contentTypeId").filter(Boolean)]. *)
Definition currentContentTypeIds (searchParams : URLSearchParams.t) : list string :=
  filter (fun id => negb (String.eqb id "")) (URLSearchParams.getAll "contentTypeId" searchParams).

(** [array.includes(x)] on strings. *)
Definition includes_string (array : list string) (x : string) : bool :=
  existsb (String.eqb x) array.

(** [handleAreaChange], [handleTypeToggle], [handleTypeClear] and
    [handleSortChange] (lines 269-292). *)
Definition handleAreaChange (searchParams : URLSearchParams.t) (code : string)
  : URLSearchParams.t :=
  updateFilters searchParams
    (FilterUpdates.mk (Some (if String.eqb code "all" then "" else code))
                      None None None).

Definition handleTypeToggle (searchParams : URLSearchParams.t) (typeId : string)
  : URLSearchParams.t :=
  let current := currentContentTypeIds searchParams in
  let newTypes :=
    if includes_string current typeId
    then filter (fun id => negb (String.eqb id typeId)) current
    else (current ++ [typeId])%list in
  updateFilters searchParams (FilterUpdates.mk None (Some newTypes) None None).

Definition handleTypeClear (searchParams : URLSearchParams.t) : URLSearchParams.t :=
  updateFilters searchParams (FilterUpdates.mk None (Some []) None None).

Definition handleSortChange (searchParams : URLSearchParams.t) (sort : string)
  : URLSearchParams.t :=
  updateFilters searchParams (FilterUpdates.mk None None (Some sort) None).

(** [handlePageChange] of the list (tour-list.tsx, lines 89-93). *)
Definition handlePageChange (searchParams : URLSearchParams.t) (newPage : Z)
  : URLSearchParams.t :=
  URLSearchParams.set "page" (string_of_Z newPage) searchParams.

(* ===================================================================== *)
(** * Recommendations (app/places/[contentId]/page.tsx, lines 378-465) *)
(* ===================================================================== *)

(** [item.contentid]. *)
Definition contentid (item : JsObject) : option string := lookup "contentid" item.

(** [a === b] on a property that may be [undefined]. *)
Definition same_id (a b : option string) : bool :=
  match a, b with
  | Some x, Some y => String.eqb x y
  | None, None => true
  | _, _ => false
  end.

(** [recommendations.some((rec) => rec.contentid === item.contentid)]. *)
Definition alreadyRecommended (recommendations : list JsObject) (item : JsObject)
  : bool :=
  existsb (fun rec => same_id (contentid rec) (contentid item)) recommendations.

(** One step of the search for recommendations: the listing call, and the
    items it adds to the array.  A failed call is written to the console and
    adds nothing. *)
Definition recommendFrom (w : World) (params : AreaBasedListParams.t)
  (keep : JsObject -> bool) (room : nat) (warning : string)
  (recommendations : list JsObject) : M (list JsObject) :=
  try_catch
    (response <- getAreaBasedList w params ;;
     let filtered := slice0 room (filter keep (TourListResponse.items response)) in
     ret (recommendations ++ filtered)%list)
    (fun error => emit (EvConsoleWarn warning) ;;; ret recommendations).

(** [TourRecommendationsContent]: the recommendations handed to the
    component, or [None] when it renders nothing. *)
Definition TourRecommendationsContent (w : World)
  (contentId areaCode contentTypeId : string) : M (option (list JsObject)) :=
  try_catch
    (let maxRecommendations := 6%nat in
     recommendations <-
       recommendFrom w
         (AreaBasedListParams.mk (Some areaCode) (Some contentTypeId) (Some 10) (Some 1))
         (fun item => negb (same_id (contentid item) (Some contentId)))
         maxRecommendations "같은 지역+타입 조회 실패:" [] ;;
     recommendations <-
       (if (List.length recommendations <? 3)%nat then
          recommendFrom w
            (AreaBasedListParams.mk (Some areaCode) None (Some 10) (Some 1))
            (fun item => negb (same_id (contentid item) (Some contentId)) &&
                         negb (alreadyRecommended recommendations item))
            (maxRecommendations - List.length recommendations)
            "같은 지역 조회 실패:" recommendations
        else ret recommendations) ;;
     recommendations <-
       (if (List.length recommendations <? 3)%nat then
          recommendFrom w
            (AreaBasedListParams.mk None (Some contentTypeId) (Some 10) (Some 1))
            (fun item => negb (same_id (contentid item) (Some contentId)) &&
                         negb (alreadyRecommended recommendations item))
            (maxRecommendations - List.length recommendations)
            "같은 타입 조회 실패:" recommendations
        else ret recommendations) ;;
     let finalRecommendations := slice0 maxRecommendations recommendations in
     if (List.length finalRecommendations =? 0)%nat then ret None
     else ret (Some finalRecommendations))
    (fun error => emit (EvConsoleWarn "추천 관광지를 불러올 수 없습니다:") ;;; ret None).

(* ===================================================================== *)
(** * Charts and messages *)
(* ===================================================================== *)

(** [topRegions] of [RegionChart] (components/stats/region-chart.tsx, lines
    78-86). *)
Definition chartTopRegions (data : list RegionStats.t) : list RegionStats.t :=
  map (fun region =>
         RegionStats.mk (RegionStats.areaCode region) (RegionStats.name region)
                        (RegionStats.count region))
      (slice0 10 (sort (fun a b => RegionStats.count b - RegionStats.count a) data)).

(** [getErrorMessage] of the error page (error.tsx, in unnamed/part_013,
    lines 46-88): the title and the message shown for an error. *)
Definition getErrorMessage (error : Thrown) : option string * string :=
  match error with
  | TourAPIError message statusCode _ errorType =>
      (Some match errorType with
            | API_KEY_MISSING | API_KEY_INVALID => "API 설정 오류"
            | NETWORK_ERROR => "네트워크 오류"
            | TIMEOUT_ERROR => "요청 시간 초과"
            | HTTP_ERROR => "서버 오류"
            | API_ERROR => "데이터 조회 오류"
            | VALIDATION_ERROR => "입력 오류"
            | _ => "오류 발생"
            end,
       getUserMessage message statusCode errorType)
  | _ =>
      (None,
       if String.eqb (error_message error) ""
       then "오류가 발생했습니다. 잠시 후 다시 시도해주세요."
       else error_message error)
  end.

(* ===================================================================== *)
(** * Observations on the page bar *)
(* ===================================================================== *)

(** The entries after page [prev] leave no page out silently: a page number
    follows its predecessor at once, or after one ellipsis when pages are
    left out between them; [gap] tells that an ellipsis has just been
    passed. *)
Fixpoint follows (prev : Z) (gap : bool) (entries : list PageEntry) : bool :=
  match entries with
  | [] => negb gap
  | PageNumber page :: rest =>
      (if gap then prev + 1 <? page else page =? prev + 1) &&
      follows page false rest
  | _ :: rest => negb gap && follows prev true rest
  end.

(* ===================================================================== *)
(** * Observations on strings *)
(* ===================================================================== *)

(** [sub] occurs in [s]. *)
Definition occursIn (sub s : string) : Prop :=
  exists before after, s = (before ++ sub ++ after)%string.

(** [s] starts with [p]. *)
Definition beginsWith (p s : string) : Prop := exists rest, s = (p ++ rest)%string.

(* ===================================================================== *)
(** * The region chart of the statistics page
      (components/stats/region-chart-content.tsx) *)
(* ===================================================================== *)

(** [RegionChartContent]: the bars of the chart it renders.  The component
    runs [getRegionStats] itself; [w] is the upstream as it answers the
    requests of this run, which need not be the answers given to another
    component of the page. *)
Definition RegionChartContent (w : World) : M (list RegionStats.t) :=
  data <- getRegionStats w ;;
  ret (chartTopRegions data).

(* ===================================================================== *)
(** * Observations on the error page *)
(* ===================================================================== *)

(** The title and the message the error page shows for [e] are among
    [pages]. *)
Definition shownAmong (pages : list (string * string)) (e : Thrown) : Prop :=
  exists title message,
    getErrorMessage e = (Some title, message) /\ In (title, message) pages.

(** The titles and messages of the error page for the errors of the
    client. *)
Definition clientErrorPages : list (string * string) :=
  [ ("API 설정 오류", "서비스 설정에 문제가 있습니다. 잠시 후 다시 시도해주세요.");
    ("네트워크 오류", "인터넷 연결을 확인하고 잠시 후 다시 시도해주세요.");
    ("요청 시간 초과", "서버 응답이 지연되고 있습니다. 잠시 후 다시 시도해주세요.");
    ("데이터 조회 오류", "관광지 정보를 불러오는 중 오류가 발생했습니다.");
    ("오류 발생", "오류가 발생했습니다. 잠시 후 다시 시도해주세요.");
    ("입력 오류", "검색 키워드는 필수입니다.");
    ("입력 오류", "콘텐츠 ID는 필수입니다.");
    ("입력 오류", "콘텐츠 타입 ID는 필수입니다.") ].

(* ===================================================================== *)
(** * The pages (app/page.tsx, app/places/[contentId]/page.tsx) *)
(* ===================================================================== *)

(** What a server component ends with: the content it renders, the error box
    [<Error title message />], or [notFound()], on which the framework shows
    the 404 page. *)
Inductive Page (A : Type) :=
| Rendered (content : A)
| NotFound
| ErrorBox (title message : string).
Arguments Rendered {A} content.
Arguments NotFound {A}.
Arguments ErrorBox {A} title message.

(** [TourIntroContent] (places page, lines 295-316): the [intro] handed to
    [DetailIntro], or [None] for [null]. *)
Definition TourIntroContent (w : World) (contentId contentTypeId : string)
  : M (option JsObject) :=
  try_catch
    (response <- getDetailIntro w
                   (DetailIntroParams.mk (Some contentId) (Some contentTypeId)) ;;
     ret (Some (item response)))
    (fun error => emit (EvConsoleWarn "운영 정보를 불러올 수 없습니다:") ;;; ret None).

(** [TourPetContent] (lines 322-340). *)
Definition TourPetContent (w : World) (contentId : string) : M (option JsObject) :=
  try_catch
    (response <- getDetailPetTour w (DetailParams.mk (Some contentId)) ;;
     ret (Some (item response)))
    (fun error => emit (EvConsoleWarn "반려동물 정보를 불러올 수 없습니다:") ;;; ret None).

(** [TourGalleryContent] (lines 346-372): the images handed to the gallery. *)
Definition TourGalleryContent (w : World) (contentId title : string)
  : M (option (list JsObject)) :=
  try_catch
    (response <- getDetailImage w
                   (DetailImageParams.mk (Some contentId) (Some 20) (Some 1)) ;;
     let images := TourImageResponse.items response in
     if (List.length images =? 0)%nat then ret None else ret (Some images))
    (fun error => emit (EvConsoleWarn "이미지 갤러리를 불러올 수 없습니다:") ;;; ret None).

(** [TourDetailContent] (lines 475-590): the [detail] its sections are
    rendered from. *)
Definition TourDetailContent (w : World) (contentId : string) : M (Page JsObject) :=
  try_catch
    (response <- getDetailCommon w (DetailParams.mk (Some contentId)) ;;
     ret (Rendered (item response)))
    (fun error =>
       if instanceof_TourAPIError error then
         if includes (error_message error) "찾을 수 없습니다" then ret NotFound
         else ret (ErrorBox "데이터를 불러올 수 없습니다" (error_message error))
       else ret (ErrorBox "오류가 발생했습니다"
                          "관광지 상세 정보를 불러오는 중 문제가 발생했습니다.")).

(** [DetailPage] (lines 655-698): what its detail section ends with. *)
Definition DetailPage (w : World) (contentId : string) : M (Page JsObject) :=
  if blank (Some contentId) then ret NotFound
  else TourDetailContent w (trim contentId).

(** A search parameter of the home page: a string, or an array of strings
    when the parameter is repeated. *)
Inductive SearchParam :=
| One (value : string)
| Many (values : list string).

(** [contentTypeIds?.[0]] (home page, lines 137-144). *)
Definition singleContentTypeId (contentTypeId : option SearchParam) : option string :=
  match contentTypeId with
  | Some (Many values) => nth_error values 0
  | Some (One value) => if String.eqb value "" then None else Some value
  | None => None
  end.

(** [String(value)] of a search parameter: an array is joined with commas. *)
Definition String_of_SearchParam (value : SearchParam) : string :=
  match value with
  | One text => text
  | Many values => String.concat "," values
  end.

(** The listing call of the home page (lines 149-164), for the [pageNo] of
    line 133; [None] stands for [NaN], which [pageNo || 1] replaces as it does
    a missing number.  A keyword given more than once is an array: it is
    truthy and has no [trim], so that [keyword.trim()] throws a [TypeError]
    before a request is made.  An area code given more than once reaches the
    query through [String(value)]. *)
Definition listingCall (w : World) (areaCode : option SearchParam)
  (contentTypeId : option SearchParam) (keyword : option SearchParam)
  (pageNo : option Z) : M TourListResponse.t :=
  let numOfRows := 12 in
  let areaCode := option_map String_of_SearchParam areaCode in
  let list (keyword : option string) :=
    if negb (blank keyword) then
      searchKeyword w
        (SearchKeywordParams.mk (Some (trimmed keyword)) areaCode
           (singleContentTypeId contentTypeId) (Some numOfRows) pageNo)
    else
      getAreaBasedList w
        (AreaBasedListParams.mk areaCode (singleContentTypeId contentTypeId)
           (Some numOfRows) pageNo) in
  match keyword with
  | Some (Many _) =>
      throw (NativeError TypeErrorClass "TypeError" "keyword.trim is not a function")
  | Some (One text) => list (Some text)
  | None => list None
  end.

(** [mode === "infinite" ? "infinite" : "pagination"] (line 169). *)
Definition listMode (mode : option SearchParam) : string :=
  match mode with
  | Some (One text) => if String.eqb text "infinite" then "infinite" else "pagination"
  | _ => "pagination"
  end.

(** [TourListContent] (home page, lines 118-188) from its second statement
    on: the page of results and the mode handed to [TourList]. *)
Definition TourListContent (w : World) (areaCode : option SearchParam)
  (contentTypeId : option SearchParam) (keyword : option SearchParam)
  (pageNo : option Z) (mode : option SearchParam)
  : M (Page (TourListResponse.t * string)) :=
  try_catch
    (data <- listingCall w areaCode contentTypeId keyword pageNo ;;
     ret (Rendered (data, listMode mode)))
    (fun error =>
       if instanceof_TourAPIError error
       then ret (ErrorBox "데이터를 불러올 수 없습니다" (error_message error))
       else ret (ErrorBox "오류가 발생했습니다"
                          "관광지 목록을 불러오는 중 문제가 발생했습니다.")).

(** The integer [parseInt(s, 10)] reads: white space, a sign, and the digits
    up to the first character that is none; [None] stands for [NaN].  The
    Number [parseInt] returns is this integer when it is below 2^53. *)
Definition digit (a : ascii) : option Z :=
  let x := Z.of_N (N_of_ascii a) in
  if (48 <=? x) && (x <=? 57) then Some (x - 48) else None.

Fixpoint digits (acc : Z) (s : string) : Z :=
  match s with
  | EmptyString => acc
  | String a rest =>
      match digit a with
      | Some d => digits (10 * acc + d) rest
      | None => acc
      end
  end.

Definition unsigned (s : string) : option Z :=
  match s with
  | EmptyString => None
  | String a _ =>
      match digit a with
      | Some _ => Some (digits 0 s)
      | None => None
      end
  end.

Definition parseInt (s : string) : option Z :=
  match trimStart s with
  | String "-" rest => option_map Z.opp (unsigned rest)
  | String "+" rest => unsigned rest
  | rest => unsigned rest
  end.

(** [Math.max(1, parseInt(page || "1", 10))] (home page, line 133). *)
Definition pageNoOf (page : option string) : option Z :=
  option_map (Z.max 1)
    (parseInt (if falsy_string page then "1" else string_or_empty page)).

(* ===================================================================== *)
(** * Observations on the pages *)
(* ===================================================================== *)

(** The run calls [fetch]: its first event is the first attempt of a request
    to [ep], and that request carries [name=value]. *)
Definition firstRequestWith {A} (ep : Endpoint) (name value : string) (m : M A)
  : Prop :=
  exists query rest,
    trace m = EvFetch ep query 0 :: rest /\ In (name, value) query.

(** The run makes at most [n] calls of [fetch]. *)
Definition callsAtMost {A} (n : nat) (m : M A) : Prop :=
  (attempts (trace m) <= n)%nat.

(* ===================================================================== *)
(** * Observations on the console *)
(* ===================================================================== *)

(** The run writes nothing to the console: it holds calls of [fetch] and
    waits only. *)
Definition quiet {A} (m : M A) : Prop :=
  Forall (fun ev =>
            match ev with
            | EvFetch _ _ _ | EvSleep _ => True
            | _ => False
            end) (trace m).

(* ===================================================================== *)
(** * Properties *)
(* ===================================================================== *)

(** ** The monad *)

Lemma outcome_bind_ok {A B} (m : M A) (f : A -> M B) a :
  outcome m = Ok a -> outcome (bind m f) = outcome (f a).
Proof.
  destruct m as [r t]; simpl; intros ->.
  unfold bind. destruct (f a); reflexivity.
Qed.

Lemma outcome_bind_throw {A B} (m : M A) (f : A -> M B) e :
  outcome m = Throw e -> outcome (bind m f) = Throw e.
Proof. destruct m as [r t]; simpl; intros ->. reflexivity. Qed.

Lemma trace_bind_ok {A B} (m : M A) (f : A -> M B) a :
  outcome m = Ok a -> trace (bind m f) = (trace m ++ trace (f a))%list.
Proof.
  destruct m as [r t]; simpl; intros ->.
  unfold bind. destruct (f a); reflexivity.
Qed.

Lemma trace_bind_throw {A B} (m : M A) (f : A -> M B) e :
  outcome m = Throw e -> trace (bind m f) = trace m.
Proof. destruct m as [r t]; simpl; intros ->. reflexivity. Qed.

Lemma outcome_try_ok {A} (m : M A) h a :
  outcome m = Ok a -> outcome (try_catch m h) = Ok a.
Proof. destruct m as [r t]; simpl; intros ->. reflexivity. Qed.

Lemma outcome_try_throw {A} (m : M A) h e :
  outcome m = Throw e -> outcome (try_catch m h) = outcome (h e).
Proof.
  destruct m as [r t]; simpl; intros ->.
  unfold try_catch. destruct (h e); reflexivity.
Qed.

Lemma trace_try_ok {A} (m : M A) h a :
  outcome m = Ok a -> trace (try_catch m h) = trace m.
Proof. destruct m as [r t]; simpl; intros ->. reflexivity. Qed.

Lemma trace_try_throw {A} (m : M A) h e :
  outcome m = Throw e -> trace (try_catch m h) = (trace m ++ trace (h e))%list.
Proof.
  destruct m as [r t]; simpl; intros ->.
  unfold try_catch. destruct (h e); reflexivity.
Qed.

Lemma outcome_logError w e c : outcome (logError w e c) = Ok tt.
Proof.
  unfold logError. destruct (NODE_ENV w) as [env|]; [|reflexivity].
  destruct (String.eqb env "development"); reflexivity.
Qed.

Lemma attempts_app (t1 t2 : Trace) :
  attempts (t1 ++ t2)%list = (attempts t1 + attempts t2)%nat.
Proof.
  induction t1 as [|ev t1 IH]; [reflexivity|].
  destruct ev; simpl; rewrite IH; reflexivity.
Qed.

Lemma delays_app (t1 t2 : Trace) :
  delays (t1 ++ t2)%list = (delays t1 ++ delays t2)%list.
Proof.
  induction t1 as [|ev t1 IH]; [reflexivity|].
  destruct ev; simpl; rewrite IH; reflexivity.
Qed.

Lemma attempts_logError w e c : attempts (trace (logError w e c)) = 0%nat.
Proof.
  unfold logError. destruct (NODE_ENV w) as [env|]; [|reflexivity].
  destruct (String.eqb env "development"); reflexivity.
Qed.

Lemma delays_logError w e c : delays (trace (logError w e c)) = [].
Proof.
  unfold logError. destruct (NODE_ENV w) as [env|]; [|reflexivity].
  destruct (String.eqb env "development"); reflexivity.
Qed.

(** Logging an error and throwing it. *)
Lemma log_then_throw {A} w e c :
  outcome (logError w e c ;;; @throw A e) = Throw e /\
  attempts (trace (logError w e c ;;; @throw A e)) = 0%nat /\
  delays (trace (logError w e c ;;; @throw A e)) = [].
Proof.
  rewrite (outcome_bind_ok _ _ tt (outcome_logError w e c)).
  rewrite (trace_bind_ok _ _ tt (outcome_logError w e c)).
  rewrite attempts_app, delays_app, attempts_logError, delays_logError.
  repeat split.
Qed.

(** ** The envelope parser *)

(** C3.  An envelope whose [resultCode] is not ['0000'] makes
    [parseAPIResponse] throw a [TourAPIError] and return nothing.  The error
    is of type [API_KEY_INVALID] exactly when the code is one of
    [SERVICE_KEY_IS_NOT_REGISTERED], [SERVICE_KEY_IS_NOT_VALID] and
    [SERVICE_KEY_IS_NULL], and of type [API_ERROR] for every other code.  Its
    message holds the [resultCode] and the [resultMsg] of the envelope (the
    text [알 수 없는 에러] stands for a [resultMsg] that is absent or
    empty). *)
Theorem parseAPIResponse_error_envelope :
  forall (T : Type) (w : World) (apiResponse : TourAPIResponse T),
    resultCode (header apiResponse) <> "0000" ->
    exists e,
      outcome (parseAPIResponse w apiResponse) = Throw e /\
      instanceof_TourAPIError e = true /\
      (errorType_of e = Some API_KEY_INVALID <->
       In (resultCode (header apiResponse)) serviceKeyCodes) /\
      (~ In (resultCode (header apiResponse)) serviceKeyCodes ->
       errorType_of e = Some API_ERROR) /\
      error_message e =
        "API 에러: " ++
        string_or_empty (or_string (resultMsg (header apiResponse))
                                   (Some "알 수 없는 에러")) ++
        " (코드: " ++ resultCode (header apiResponse) ++ ")".
Proof.
  intros T w apiResponse Hcode.
  unfold parseAPIResponse.
  apply String.eqb_neq in Hcode. rewrite Hcode. cbn [negb].
  set (code := resultCode (header apiResponse)).
  set (e := TourAPIError _ _ _ _).
  exists e. split; [apply log_then_throw|].
  split; [reflexivity|].
  assert (Hin : In code serviceKeyCodes <->
                (String.eqb code "SERVICE_KEY_IS_NOT_REGISTERED" ||
                 String.eqb code "SERVICE_KEY_IS_NOT_VALID" ||
                 String.eqb code "SERVICE_KEY_IS_NULL") = true).
  { unfold serviceKeyCodes. simpl.
    rewrite !orb_true_iff, !String.eqb_eq.
    intuition congruence. }
  subst e. cbn [errorType_of error_message].
  destruct (String.eqb code "SERVICE_KEY_IS_NOT_REGISTERED" ||
            String.eqb code "SERVICE_KEY_IS_NOT_VALID" ||
            String.eqb code "SERVICE_KEY_IS_NULL") eqn:Hkey.
  - split; [tauto|]. split; [|reflexivity].
    intros Hn. exfalso. apply Hn, Hin. reflexivity.
  - split; [|split; reflexivity].
    split; intros H; [discriminate H|].
    apply Hin in H. discriminate H.
Qed.

Lemma parseAPIResponse_error_envelope_witness :
  exists e,
    outcome (parseAPIResponse
               (mkWorld (Some "key") None None (fun _ _ _ => TimesOut) 0)
               (@mkEnvelope JsObject
                  (mkHeader "SERVICE_KEY_IS_NOT_VALID" (Some "invalid key"))
                  None)) = Throw e /\
    errorType_of e = Some API_KEY_INVALID /\
    error_message e = "API 에러: invalid key (코드: SERVICE_KEY_IS_NOT_VALID)".
Proof.
  destruct (parseAPIResponse_error_envelope JsObject
              (mkWorld (Some "key") None None (fun _ _ _ => TimesOut) 0)
              (mkEnvelope (mkHeader "SERVICE_KEY_IS_NOT_VALID" (Some "invalid key"))
                          None))
    as (e & He & _ & Htype & _ & Hmsg).
  - simpl. discriminate.
  - exists e. split; [exact He|]. split; [|exact Hmsg].
    apply Htype. simpl. tauto.
Defined.

Lemma parse_0000 {T} (w : World) (apiResponse : TourAPIResponse T) :
  resultCode (header apiResponse) = "0000" ->
  parseAPIResponse w apiResponse =
    (Ok match body_field apiResponse Body.items with
        | None => []
        | Some (OneItem item) => [item]
        | Some (ItemArray item) => item
        end, []).
Proof.
  intros Hcode.
  unfold parseAPIResponse, body_field. rewrite Hcode. simpl.
  destruct (body apiResponse) as [b|]; [|reflexivity].
  destruct (Body.items b) as [[item|item]|]; reflexivity.
Qed.

(** C4.  An envelope whose [resultCode] is ['0000'] makes [parseAPIResponse]
    return, without an event: the empty array when the body or its [items] is
    absent, the array of the one object when [item] is a single object, and
    the array itself when [item] is an array. *)
Theorem parseAPIResponse_success_envelope :
  forall (T : Type) (w : World) (apiResponse : TourAPIResponse T),
    resultCode (header apiResponse) = "0000" ->
    parseAPIResponse w apiResponse =
      (Ok match body_field apiResponse Body.items with
          | None => []
          | Some (OneItem item) => [item]
          | Some (ItemArray item) => item
          end, []).
Proof.
  intros T w apiResponse Hcode.
  unfold parseAPIResponse, body_field.
  rewrite Hcode. cbn [String.eqb Ascii.eqb Bool.eqb negb].
  destruct (body apiResponse) as [b|].
  - destruct (Body.items b) as [[item|item]|]; reflexivity.
  - reflexivity.
Qed.

Lemma parseAPIResponse_success_envelope_witness :
  parseAPIResponse (mkWorld None None None (fun _ _ _ => TimesOut) 0)
    (mkEnvelope (mkHeader "0000" (Some "OK"))
       (Some (Body.mk (Some (OneItem [("contentid", "125266")])) None None (Some 1))))
  = (Ok [[("contentid", "125266")]], []).
Proof.
  apply (parseAPIResponse_success_envelope JsObject). reflexivity.
Defined.

(** ** The transport *)

Lemma bind_ret {A B} (a : A) (f : A -> M B) : bind (ret a) f = f a.
Proof. unfold bind, ret. destruct (f a); reflexivity. Qed.

Lemma outcome_emit {B} ev (k : M B) : outcome (emit ev ;;; k) = outcome k.
Proof. unfold bind, emit. destruct k; reflexivity. Qed.

Lemma trace_emit {B} ev (k : M B) : trace (emit ev ;;; k) = ev :: trace k.
Proof. unfold bind, emit. destruct k; reflexivity. Qed.

Ltac run_bind := rewrite ?bind_ret, ?outcome_emit, ?trace_emit; cbv beta.

Lemma attempt_ok w ep url n r :
  fetch w ep url n = Responds r -> ok r = true ->
  attempt w ep url n = (Ok r, [EvFetch ep url n]).
Proof.
  intros Hf Hok. unfold attempt. rewrite Hf. simpl. rewrite Hok. reflexivity.
Qed.

Lemma attempt_fails w ep url n :
  fails (fetch w ep url n) = true ->
  outcome (attempt w ep url n) = Throw (caught (fetch w ep url n)) /\
  attempts (trace (attempt w ep url n)) = 1%nat /\
  delays (trace (attempt w ep url n)) = [].
Proof.
  intros Hfail. unfold attempt.
  destruct (fetch w ep url n) as [r|e]; simpl in Hfail.
  - run_bind. rewrite Hfail. cbn [attempts delays].
    match goal with
    | |- context [logError w ?e ?c ;;; throw ?e] =>
        destruct (@log_then_throw (Response (ItemOf ep)) w e c) as (Ho & Ha & Hd)
    end.
    unfold caught. rewrite Ho, Ha, Hd. repeat split.
  - repeat split.
Qed.

Lemma retryable_fails {T} (o : FetchOutcome T) : retryable o = true -> fails o = true.
Proof. destruct o; simpl; auto. Qed.

Lemma retryable_not_abort {T} (o : FetchOutcome T) :
  retryable o = true -> isAbortError (caught o) = false.
Proof.
  destruct o as [r|e]; simpl; intros H; [reflexivity|].
  destruct (isAbortError e); [discriminate H|reflexivity].
Qed.

Lemma fetchWithRetry_success w ep url n r :
  fetch w ep url n = Responds r -> ok r = true ->
  fetchWithRetry w ep url n = (Ok r, [EvFetch ep url n]).
Proof.
  intros Hf Hok. rewrite fetchWithRetry_equation_1.
  rewrite (attempt_ok _ _ _ _ _ Hf Hok). reflexivity.
Qed.

Lemma fetchWithRetry_abort w ep url n e :
  fetch w ep url n = Rejects e -> isAbortError e = true ->
  outcome (fetchWithRetry w ep url n) = Throw (timeoutError e) /\
  attempts (trace (fetchWithRetry w ep url n)) = 1%nat /\
  delays (trace (fetchWithRetry w ep url n)) = [].
Proof.
  intros Hf Habort. rewrite fetchWithRetry_equation_1.
  assert (Hfail : fails (fetch w ep url n) = true) by (rewrite Hf; reflexivity).
  destruct (attempt_fails w ep url n Hfail) as (Ho & Ha & Hd).
  rewrite Hf in Ho; simpl in Ho.
  rewrite (outcome_try_throw _ _ _ Ho), (trace_try_throw _ _ _ Ho).
  cbv beta. rewrite Habort.
  rewrite attempts_app, delays_app, Ha, Hd.
  destruct (@log_then_throw (Response (ItemOf ep)) w (timeoutError e)
              (Some "fetchWithRetry - timeout")) as (Ho' & Ha' & Hd').
  rewrite Ho', Ha', Hd'. repeat split.
Qed.

Lemma fetchWithRetry_exhausted w ep url n :
  retryable (fetch w ep url n) = true -> (MAX_RETRIES <= n)%nat ->
  outcome (fetchWithRetry w ep url n) =
    Throw (maxRetryError (caught (fetch w ep url n)) n) /\
  attempts (trace (fetchWithRetry w ep url n)) = 1%nat /\
  delays (trace (fetchWithRetry w ep url n)) = [].
Proof.
  intros Hr Hn. rewrite fetchWithRetry_equation_1.
  destruct (attempt_fails w ep url n (retryable_fails _ Hr)) as (Ho & Ha & Hd).
  rewrite (outcome_try_throw _ _ _ Ho), (trace_try_throw _ _ _ Ho).
  cbv beta. rewrite (retryable_not_abort _ Hr).
  destruct (le_lt_dec MAX_RETRIES n) as [_|Hlt]; [|lia].
  rewrite attempts_app, delays_app, Ha, Hd.
  match goal with
  | |- context [logError w ?e ?c ;;; throw ?e] =>
      destruct (@log_then_throw (Response (ItemOf ep)) w e c) as (Ho' & Ha' & Hd')
  end.
  rewrite Ho', Ha', Hd'. repeat split.
Qed.

Lemma fetchWithRetry_retry w ep url n :
  retryable (fetch w ep url n) = true -> (n < MAX_RETRIES)%nat ->
  outcome (fetchWithRetry w ep url n) = outcome (fetchWithRetry w ep url (n + 1)) /\
  attempts (trace (fetchWithRetry w ep url n)) =
    S (attempts (trace (fetchWithRetry w ep url (n + 1)))) /\
  delays (trace (fetchWithRetry w ep url n)) =
    retryDelay n :: delays (trace (fetchWithRetry w ep url (n + 1))).
Proof.
  intros Hr Hn. rewrite (fetchWithRetry_equation_1 w ep url n).
  destruct (attempt_fails w ep url n (retryable_fails _ Hr)) as (Ho & Ha & Hd).
  rewrite (outcome_try_throw _ _ _ Ho), (trace_try_throw _ _ _ Ho).
  cbv beta. rewrite (retryable_not_abort _ Hr).
  destruct (le_lt_dec MAX_RETRIES n) as [Hle|_]; [lia|].
  rewrite attempts_app, delays_app, Ha, Hd.
  run_bind. repeat split.
Qed.

Lemma retryDelay_schedule n k :
  (n < MAX_RETRIES)%nat ->
  firstn (S k) (skipn n RETRY_DELAYS) =
  retryDelay n :: firstn k (skipn (S n) RETRY_DELAYS).
Proof.
  unfold MAX_RETRIES. intros Hn.
  destruct n as [|[|[|n]]]; try lia; reflexivity.
Qed.

(** After [k] retryable failures from attempt [n] on, the run goes on as the
    run from attempt [n + k]. *)
Lemma fetchWithRetry_from w ep url k : forall n,
  (n + k <= MAX_RETRIES)%nat ->
  (forall i, (i < k)%nat -> retryable (fetch w ep url (n + i)) = true) ->
  outcome (fetchWithRetry w ep url n) = outcome (fetchWithRetry w ep url (n + k)) /\
  attempts (trace (fetchWithRetry w ep url n)) =
    (k + attempts (trace (fetchWithRetry w ep url (n + k))))%nat /\
  delays (trace (fetchWithRetry w ep url n)) =
    (firstn k (skipn n RETRY_DELAYS) ++
     delays (trace (fetchWithRetry w ep url (n + k))))%list.
Proof.
  induction k as [|k IH]; intros n Hle Hretry.
  - rewrite Nat.add_0_r. repeat split.
  - assert (H0 : retryable (fetch w ep url n) = true).
    { rewrite <- (Nat.add_0_r n). apply Hretry. lia. }
    destruct (fetchWithRetry_retry w ep url n H0) as (Ho & Ha & Hd); [lia|].
    destruct (IH (n + 1)%nat) as (Ho' & Ha' & Hd'); [lia| |].
    { intros i Hi. replace (n + 1 + i)%nat with (n + S i)%nat by lia.
      apply Hretry. lia. }
    replace (n + 1 + k)%nat with (n + S k)%nat in * by lia.
    rewrite Ho, Ha, Hd, Ho', Ha', Hd'.
    rewrite retryDelay_schedule by lia.
    replace (n + 1)%nat with (S n) by lia.
    repeat split.
Qed.

(** C1, as the source has it.  Attempts that fail otherwise than by the
    timeout (a rejected [fetch], a response that is not [ok]) are retried, up
    to [MAX_RETRIES] times, after waits of 1000, 2000 and 4000 ms.  When the
    first [k] attempts fail that way ([k <= 3]):
    - if attempt [k] succeeds, its response is returned after [k + 1] attempts
      and the first [k] waits;
    - if attempt [k] runs into the timeout, the request ends at once with the
      timeout error, after [k + 1] attempts: a timeout is not retried;
    - if [k = 3] and attempt [k] fails too, the request ends with an error
      after exactly 4 attempts and the waits 1000, 2000, 4000. *)
Theorem fetchWithRetry_schedule :
  forall w ep url k,
    (k <= MAX_RETRIES)%nat ->
    (forall i, (i < k)%nat -> retryable (fetch w ep url i) = true) ->
    let run := fetchWithRetry w ep url 0 in
    (forall r, fetch w ep url k = Responds r -> ok r = true ->
       outcome run = Ok r /\
       attempts (trace run) = S k /\
       delays (trace run) = firstn k RETRY_DELAYS) /\
    (forall e, fetch w ep url k = Rejects e -> isAbortError e = true ->
       outcome run = Throw (timeoutError e) /\
       errorType_of (timeoutError e) = Some TIMEOUT_ERROR /\
       attempts (trace run) = S k /\
       delays (trace run) = firstn k RETRY_DELAYS) /\
    (k = MAX_RETRIES -> retryable (fetch w ep url k) = true ->
       outcome run = Throw (maxRetryError (caught (fetch w ep url k)) k) /\
       attempts (trace run) = 4%nat /\
       delays (trace run) = [1000; 2000; 4000]).
Proof.
  intros w ep url k Hk Hretry run.
  destruct (fetchWithRetry_from w ep url k 0%nat) as (Ho & Ha & Hd);
    [simpl; exact Hk | exact Hretry |].
  simpl in Ho, Ha, Hd. fold run in Ho, Ha, Hd.
  split; [|split].
  - intros r Hf Hok.
    rewrite (fetchWithRetry_success w ep url k r Hf Hok) in Ho, Ha, Hd.
    simpl in Ho, Ha, Hd.
    rewrite Ho, Ha, Hd, app_nil_r. repeat split. lia.
  - intros e Hf Habort.
    destruct (fetchWithRetry_abort w ep url k e Hf Habort) as (Ho' & Ha' & Hd').
    rewrite Ho' in Ho. rewrite Ha' in Ha. rewrite Hd' in Hd.
    rewrite Ho, Ha, Hd, app_nil_r. repeat split. lia.
  - intros Hmax Hr.
    destruct (fetchWithRetry_exhausted w ep url k Hr) as (Ho' & Ha' & Hd');
      [lia|].
    rewrite Ho' in Ho. rewrite Ha' in Ha. rewrite Hd' in Hd.
    rewrite Ho, Ha, Hd, app_nil_r. subst k. repeat split.
Qed.

Lemma fetchWithRetry_schedule_witness :
  outcome (fetchWithRetry failsTwice areaBasedList2 [] 0) = Ok (emptyResponse 200 "OK") /\
  attempts (trace (fetchWithRetry failsTwice areaBasedList2 [] 0)) = 3%nat /\
  delays (trace (fetchWithRetry failsTwice areaBasedList2 [] 0)) = [1000; 2000].
Proof.
  refine (proj1 (fetchWithRetry_schedule failsTwice areaBasedList2 [] 2 _ _)
                (emptyResponse 200 "OK") eq_refl eq_refl).
  - unfold MAX_RETRIES. lia.
  - intros i Hi. destruct i as [|[|i]]; [reflexivity|reflexivity|lia].
Defined.

(** C1, as it is worded, does not hold: in [timeoutThenOk] the first attempt
    times out and the second would succeed, yet the request ends with the
    timeout error after one attempt. *)
Lemma retries_after_any_failure_fails : ~ retries_after_any_failure.
Proof.
  intros H.
  specialize (H timeoutThenOk areaBasedList2 [] 1%nat (emptyResponse 200 "OK")).
  assert (Hrun : outcome (fetchWithRetry timeoutThenOk areaBasedList2 [] 0) =
                 Throw (timeoutError abortError)) by (vm_compute; reflexivity).
  rewrite Hrun in H.
  assert (Hok : @Throw (Response (ItemOf areaBasedList2)) (timeoutError abortError) =
                Ok (emptyResponse 200 "OK")).
  { apply H.
    - unfold MAX_RETRIES. lia.
    - intros i Hi. destruct i; [reflexivity|lia].
    - reflexivity.
    - reflexivity. }
  discriminate Hok.
Qed.

(** C2.  When all four attempts fail otherwise than by the timeout, the error
    that reaches the caller is the one built at lines 284-289: it has no
    status code, its type is [NETWORK_ERROR] or [UNKNOWN_ERROR] and never
    [HTTP_ERROR], and the error of the last attempt is kept as its
    [originalError] only.  A [fetch] rejected with a [TypeError] surfaces as
    [NETWORK_ERROR]; a response with a status outside 200-299 whose message
    does not contain [fetch], [network] or [Network] surfaces as
    [UNKNOWN_ERROR]. *)
Theorem fetchWithRetry_exhausted_error :
  forall w ep url,
    (forall i, (i <= MAX_RETRIES)%nat -> retryable (fetch w ep url i) = true) ->
    let last := caught (fetch w ep url MAX_RETRIES) in
    exists e,
      outcome (fetchWithRetry w ep url 0) = Throw e /\
      statusCode_of e = None /\
      errorType_of e <> Some HTTP_ERROR /\
      originalError_of e = Some (as_Error last) /\
      (instanceof_TypeError last = true -> errorType_of e = Some NETWORK_ERROR) /\
      (isNetworkError last = false -> errorType_of e = Some UNKNOWN_ERROR).
Proof.
  intros w ep url Hretry last.
  destruct (fetchWithRetry_from w ep url MAX_RETRIES 0%nat) as (Ho & _).
  { simpl. lia. }
  { intros i Hi. apply Hretry. simpl. lia. }
  destruct (fetchWithRetry_exhausted w ep url MAX_RETRIES) as (Ho' & _).
  { apply Hretry. lia. }
  { lia. }
  simpl in Ho. rewrite Ho' in Ho. fold last in Ho.
  exists (maxRetryError last MAX_RETRIES). split; [exact Ho|].
  unfold maxRetryError. cbn [statusCode_of errorType_of originalError_of].
  split; [reflexivity|]. split.
  - destruct (isNetworkError last); intros H; discriminate H.
  - split; [reflexivity|]. split.
    + intros Ht. unfold isNetworkError. rewrite Ht. reflexivity.
    + intros Hn. rewrite Hn. reflexivity.
Qed.

Lemma fetchWithRetry_exhausted_error_witness :
  exists e,
    outcome (fetchWithRetry alwaysHttp500 areaBasedList2 [] 0) = Throw e /\
    statusCode_of e = None /\
    errorType_of e = Some UNKNOWN_ERROR /\
    originalError_of e =
      Some (TourAPIError "HTTP 500: Internal Server Error" (Some 500) None HTTP_ERROR).
Proof.
  destruct (fetchWithRetry_exhausted_error alwaysHttp500 areaBasedList2 [])
    as (e & Ho & Hs & _ & Horig & _ & Hu).
  - intros i _. reflexivity.
  - exists e. split; [exact Ho|]. split; [exact Hs|]. split.
    + apply Hu. vm_compute. reflexivity.
    + exact Horig.
Defined.

(** The scenario of four failures in a row: four attempts, and the waits of
    1, 2 and 4 seconds between them. *)
Example fetchWithRetry_alwaysHttp500 :
  attempts (trace (fetchWithRetry alwaysHttp500 areaBasedList2 [] 0)) = 4%nat /\
  delays (trace (fetchWithRetry alwaysHttp500 areaBasedList2 [] 0)) =
    [1000; 2000; 4000].
Proof. split; vm_compute; reflexivity. Qed.

(** ** Validation of the arguments *)

Lemma ws2_first a b : ws2 a b = true -> ws1 a = false.
Proof.
  unfold ws2, ws1. intros H.
  apply andb_prop in H. destruct H as [Ha _].
  apply N.eqb_eq in Ha. rewrite Ha. reflexivity.
Qed.

Lemma ws3_first a b c : ws3 a b c = true -> ws1 a = false /\ ws2 a b = false.
Proof.
  unfold ws3, ws2, ws1.
  generalize (byte_of a) (byte_of b) (byte_of c). intros x y z H.
  destruct (N.eqb_spec x 225) as [->|_]; [split; reflexivity|].
  destruct (N.eqb_spec x 226) as [->|_]; [split; reflexivity|].
  destruct (N.eqb_spec x 227) as [->|_]; [split; reflexivity|].
  destruct (N.eqb_spec x 239) as [->|_]; [split; reflexivity|].
  discriminate H.
Qed.

Lemma strip_WhiteSpace s : WhiteSpace s -> strip false s = EmptyString.
Proof.
  induction 1 as [|a s Ha _ IH|a b s Hab _ IH|a b c s Habc _ IH].
  - reflexivity.
  - simpl. rewrite Ha. exact IH.
  - cbn [strip]. rewrite (ws2_first _ _ Hab), Hab. exact IH.
  - destruct (ws3_first _ _ _ Habc) as [H1 H2].
    cbn [strip]. rewrite H1, H2, Habc. exact IH.
Qed.

Lemma trim_WhiteSpace s : WhiteSpace s -> trim s = EmptyString.
Proof.
  intros H. unfold trim, trimStart. rewrite (strip_WhiteSpace s H). reflexivity.
Qed.

Lemma blank_missing_or_blank value : missing_or_blank value -> blank value = true.
Proof.
  destruct value as [s|]; simpl; intros H; [|reflexivity].
  rewrite (trim_WhiteSpace s H). apply orb_true_r.
Qed.

(** What the guard of an operation does once the argument is blank. *)
Lemma validation_throw {A} w message context :
  let m := (logError w (validationError message) context ;;;
            @throw A (validationError message)) in
  throwsType m VALIDATION_ERROR /\ attempts (trace m) = 0%nat.
Proof.
  intros m.
  destruct (@log_then_throw A w (validationError message) context) as (Ho & Ha & _).
  split; [|exact Ha].
  exists (validationError message). split; [exact Ho|reflexivity].
Qed.

(** C5.  For a keyword that is missing, empty or made of white space only,
    [searchKeyword] throws an error of type [VALIDATION_ERROR], and the run
    holds no call of [fetch]. *)
Theorem searchKeyword_blank_keyword :
  forall w params,
    missing_or_blank (SearchKeywordParams.keyword params) ->
    throwsType (searchKeyword w params) VALIDATION_ERROR /\
    attempts (trace (searchKeyword w params)) = 0%nat.
Proof.
  intros w params H. unfold searchKeyword.
  rewrite (blank_missing_or_blank _ H).
  apply validation_throw.
Qed.

Lemma searchKeyword_blank_keyword_witness :
  throwsType (searchKeyword noRecords
                (SearchKeywordParams.mk (Some "   ") None None None None))
             VALIDATION_ERROR /\
  attempts (trace (searchKeyword noRecords
                     (SearchKeywordParams.mk (Some "   ") None None None None))) = 0%nat.
Proof.
  apply searchKeyword_blank_keyword. simpl.
  repeat (apply WhiteSpace_1; [reflexivity|]). apply WhiteSpace_nil.
Defined.

(** ** Single-entity lookups *)

Lemma getCommonParams_ok w key :
  outcome (getServiceKey w) = Ok key ->
  outcome (getCommonParams w) =
    Ok [ ("serviceKey", Some (PStr key));
         ("MobileOS", Some (PStr DEFAULT_MOBILE_OS));
         ("MobileApp", Some (PStr DEFAULT_MOBILE_APP));
         ("_type", Some (PStr DEFAULT_TYPE)) ].
Proof.
  intros H. unfold getCommonParams.
  rewrite (outcome_bind_ok _ _ key H). reflexivity.
Qed.

Lemma outcome_rethrow_TourAPIError {A} message e :
  instanceof_TourAPIError e = true ->
  outcome (@rethrow A message e) = Throw e.
Proof. intros H. unfold rethrow. rewrite H. reflexivity. Qed.

(** The body of the [try] block of a lookup whose upstream holds no record. *)
Lemma lookup_body_not_found w ep url (notFound : string)
  (k : list (ItemOf ep) -> M ItemResponse) :
  answersNoRecord w ep url ->
  outcome (k []) = Throw (TourAPIError_default notFound) ->
  outcome (response <- fetchWithRetry w ep url 0 ;;
           data <- settle (json response) ;;
           items <- parseAPIResponse w data ;;
           k items) = Throw (TourAPIError_default notFound).
Proof.
  intros (response & data & Hf & Hj & Hc & Hitems) Hk.
  rewrite (outcome_bind_ok _ _ response Hf).
  unfold settle. rewrite Hj.
  rewrite (outcome_bind_ok (Ok data, []) _ data eq_refl).
  rewrite (parse_0000 w data Hc).
  match goal with
  | |- outcome (bind (Ok ?l, []) _) = _ =>
      rewrite (outcome_bind_ok (Ok l, []) _ l eq_refl)
  end.
  destruct (body_field data Body.items) as [[x|[|x xs]]|];
    try contradiction; exact Hk.
Qed.

Ltac lookup_not_found Hkey Hblank Hanswer :=
  rewrite ?Hblank;
  rewrite (outcome_bind_ok _ _ _ (getCommonParams_ok _ _ Hkey));
  cbv beta zeta;
  match goal with
  | |- outcome (try_catch ?m ?h) = Throw ?e =>
      assert (Hbody : outcome m = Throw e)
        by (apply lookup_body_not_found; [exact Hanswer|reflexivity]);
      rewrite (outcome_try_throw _ _ _ Hbody);
      apply outcome_rethrow_TourAPIError; reflexivity
  end.

(** C6, as the source has it.  [getDetailCommon], [getDetailIntro] and
    [getDetailPetTour] throw an error of type [VALIDATION_ERROR], before any
    call of [fetch], when a required identifier is missing, empty or made of
    white space; and when the upstream answers with no record they throw the
    [TourAPIError] built from the message alone, whose type is the default
    [UNKNOWN_ERROR]. *)
Theorem single_lookup_errors :
  forall w,
    (forall params,
       missing_or_blank (DetailParams.contentId params) ->
       throwsType (getDetailCommon w params) VALIDATION_ERROR /\
       attempts (trace (getDetailCommon w params)) = 0%nat) /\
    (forall params,
       missing_or_blank (DetailIntroParams.contentId params) \/
       missing_or_blank (DetailIntroParams.contentTypeId params) ->
       throwsType (getDetailIntro w params) VALIDATION_ERROR /\
       attempts (trace (getDetailIntro w params)) = 0%nat) /\
    (forall params,
       missing_or_blank (DetailParams.contentId params) ->
       throwsType (getDetailPetTour w params) VALIDATION_ERROR /\
       attempts (trace (getDetailPetTour w params)) = 0%nat) /\
    (forall key contentId,
       outcome (getServiceKey w) = Ok key ->
       blank (Some contentId) = false ->
       answersNoRecord w detailCommon2
         (commonQuery key ++ [("contentId", trim contentId)])%list ->
       outcome (getDetailCommon w (DetailParams.mk (Some contentId))) =
         Throw (TourAPIError "상세 정보를 찾을 수 없습니다." None None UNKNOWN_ERROR)) /\
    (forall key contentId contentTypeId,
       outcome (getServiceKey w) = Ok key ->
       blank (Some contentId) = false ->
       blank (Some contentTypeId) = false ->
       answersNoRecord w detailIntro2
         (commonQuery key ++ [("contentId", trim contentId);
                              ("contentTypeId", trim contentTypeId)])%list ->
       outcome (getDetailIntro w
                  (DetailIntroParams.mk (Some contentId) (Some contentTypeId))) =
         Throw (TourAPIError "소개 정보를 찾을 수 없습니다." None None UNKNOWN_ERROR)) /\
    (forall key contentId,
       outcome (getServiceKey w) = Ok key ->
       blank (Some contentId) = false ->
       answersNoRecord w detailPetTour2
         (commonQuery key ++ [("contentId", trim contentId)])%list ->
       outcome (getDetailPetTour w (DetailParams.mk (Some contentId))) =
         Throw (TourAPIError "반려동물 정보를 찾을 수 없습니다." None None UNKNOWN_ERROR)).
Proof.
  intros w. split; [|split; [|split; [|split; [|split]]]].
  - intros params H. unfold getDetailCommon.
    rewrite (blank_missing_or_blank _ H). apply validation_throw.
  - intros params [H|H]; unfold getDetailIntro.
    + rewrite (blank_missing_or_blank _ H). apply validation_throw.
    + rewrite (blank_missing_or_blank _ H).
      destruct (blank (DetailIntroParams.contentId params)); apply validation_throw.
  - intros params H. unfold getDetailPetTour.
    rewrite (blank_missing_or_blank _ H). apply validation_throw.
  - intros key contentId Hkey Hblank Hanswer.
    unfold getDetailCommon. cbn [DetailParams.contentId].
    lookup_not_found Hkey Hblank Hanswer.
  - intros key contentId contentTypeId Hkey Hblank Hblank' Hanswer.
    unfold getDetailIntro.
    cbn [DetailIntroParams.contentId DetailIntroParams.contentTypeId].
    rewrite Hblank'.
    lookup_not_found Hkey Hblank Hanswer.
  - intros key contentId Hkey Hblank Hanswer.
    unfold getDetailPetTour. cbn [DetailParams.contentId].
    lookup_not_found Hkey Hblank Hanswer.
Qed.

Lemma noRecords_answersNoRecord ep url : answersNoRecord noRecords ep url.
Proof.
  exists (emptyResponse 200 "OK").
  exists (mkEnvelope (mkHeader "0000" (Some "OK"))
                     (Some (Body.mk None None None (Some 0)))).
  split; [|repeat split].
  rewrite (fetchWithRetry_success noRecords ep url 0 (emptyResponse 200 "OK"));
    reflexivity.
Qed.

Lemma single_lookup_errors_witness :
  throwsType (getDetailIntro noRecords (DetailIntroParams.mk (Some "125266") (Some " ")))
             VALIDATION_ERROR /\
  outcome (getDetailPetTour noRecords (DetailParams.mk (Some "125266"))) =
    Throw (TourAPIError "반려동물 정보를 찾을 수 없습니다." None None UNKNOWN_ERROR).
Proof.
  destruct (single_lookup_errors noRecords) as (_ & Hintro & _ & _ & _ & Hpet).
  split.
  - apply Hintro. right. simpl.
    apply WhiteSpace_1; [reflexivity|apply WhiteSpace_nil].
  - apply (Hpet "key").
    + reflexivity.
    + reflexivity.
    + apply noRecords_answersNoRecord.
Defined.

(** C6, as it is worded, does not hold: in [noRecords] the upstream answers
    the lookup of [125266] with no record, and the error [getDetailCommon]
    throws is not of type [API_ERROR]. *)
Lemma not_found_is_not_API_ERROR :
  answersNoRecord noRecords detailCommon2
    (commonQuery "key" ++ [("contentId", "125266")])%list /\
  ~ throwsType (getDetailCommon noRecords (DetailParams.mk (Some "125266")))
               API_ERROR.
Proof.
  split; [apply noRecords_answersNoRecord|].
  intros (e & He & Ht).
  assert (Hrun : outcome (getDetailCommon noRecords (DetailParams.mk (Some "125266"))) =
                 Throw (TourAPIError "상세 정보를 찾을 수 없습니다." None None UNKNOWN_ERROR))
    by (vm_compute; reflexivity).
  rewrite Hrun in He. injection He as <-. discriminate Ht.
Qed.

(** ** Page parameters *)

Lemma or_number_omit0 o d : or_number (omit0 o) d = or_number o d.
Proof.
  destruct o as [n|]; [|reflexivity].
  simpl. destruct (n =? 0) eqn:E; simpl; rewrite ?E; reflexivity.
Qed.

Section RequestsWith.
Variables name value : string.

Lemma requestsWith_bind {A B} (m : M A) (f : A -> M B) :
  requestsWith name value m -> (forall a, requestsWith name value (f a)) ->
  requestsWith name value (bind m f).
Proof.
  unfold requestsWith. destruct m as [[a|e] t]; simpl; intros Hm Hf; [|exact Hm].
  specialize (Hf a). unfold bind. destruct (f a) as [r t']. simpl in *.
  apply Forall_app. split; assumption.
Qed.

Lemma requestsWith_try {A} (m : M A) (h : Thrown -> M A) :
  requestsWith name value m -> (forall e, requestsWith name value (h e)) ->
  requestsWith name value (try_catch m h).
Proof.
  unfold requestsWith. destruct m as [[a|e] t]; simpl; intros Hm Hh; [exact Hm|].
  specialize (Hh e). unfold try_catch. destruct (h e) as [r t']. simpl in *.
  apply Forall_app. split; assumption.
Qed.

Lemma requestsWith_silent {A} (m : M A) :
  trace m = [] -> requestsWith name value m.
Proof. unfold requestsWith. intros ->. constructor. Qed.

Lemma requestsWith_logError w e c : requestsWith name value (logError w e c).
Proof.
  unfold requestsWith, logError. destruct (NODE_ENV w) as [env|]; [|constructor].
  destruct (String.eqb env "development"); repeat constructor.
Qed.

Lemma requestsWith_log_throw {A} w e c :
  requestsWith name value (logError w e c ;;; @throw A e).
Proof.
  apply requestsWith_bind; [apply requestsWith_logError|].
  intros _. apply requestsWith_silent. reflexivity.
Qed.

Lemma requestsWith_rethrow {A} message e :
  requestsWith name value (@rethrow A message e).
Proof.
  apply requestsWith_silent. unfold rethrow.
  destruct (instanceof_TourAPIError e); reflexivity.
Qed.

Lemma requestsWith_parse {T} w (data : TourAPIResponse T) :
  requestsWith name value (parseAPIResponse w data).
Proof.
  unfold parseAPIResponse.
  destruct (negb (String.eqb (resultCode (header data)) "0000")).
  - apply requestsWith_log_throw.
  - apply requestsWith_silent.
    destruct (body data) as [b|]; [|reflexivity].
    destruct (Body.items b) as [[x|xs]|]; reflexivity.
Qed.

Lemma requestsWith_getCommonParams w :
  requestsWith name value (getCommonParams w).
Proof.
  unfold getCommonParams, getServiceKey.
  apply requestsWith_bind.
  - destruct (falsy_string _).
    + apply requestsWith_log_throw.
    + apply requestsWith_silent. reflexivity.
  - intros key. apply requestsWith_silent. reflexivity.
Qed.

Lemma requestsWith_fetchWithRetry w ep url n :
  In (name, value) url ->
  requestsWith name value (fetchWithRetry w ep url n).
Proof.
  intros Hin. revert w ep url n Hin.
  apply (fetchWithRetry_elim
           (fun w ep url n run => In (name, value) url -> requestsWith name value run)).
  intros w ep url n IH Hin.
  apply requestsWith_try.
  - unfold attempt. apply requestsWith_bind.
    + unfold requestsWith. simpl. repeat constructor. exact Hin.
    + intros _. apply requestsWith_bind.
      * apply requestsWith_silent. destruct (fetch w ep url n); reflexivity.
      * intros response. destruct (negb (ok response)).
        -- apply requestsWith_log_throw.
        -- apply requestsWith_silent. reflexivity.
  - intros error. destruct (isAbortError error).
    + apply requestsWith_log_throw.
    + destruct (le_lt_dec MAX_RETRIES n) as [Hle|Hlt].
      * apply requestsWith_log_throw.
      * apply requestsWith_bind.
        -- unfold requestsWith. simpl. repeat constructor.
        -- intros u. apply (IH error Hlt u Hin).
Qed.

(** The shape shared by the [try] blocks of the operations. *)
Lemma requestsWith_request {A} w ep url
  (k : TourAPIResponse (ItemOf ep) -> list (ItemOf ep) -> M A) message :
  In (name, value) url ->
  (forall data items, trace (k data items) = []) ->
  requestsWith name value
    (try_catch
       (response <- fetchWithRetry w ep url 0 ;;
        data <- settle (json response) ;;
        items <- parseAPIResponse w data ;;
        k data items)
       (rethrow message)).
Proof.
  intros Hin Hk. apply requestsWith_try.
  - apply requestsWith_bind; [apply requestsWith_fetchWithRetry; exact Hin|].
    intros response. apply requestsWith_bind.
    + apply requestsWith_silent. reflexivity.
    + intros data. apply requestsWith_bind; [apply requestsWith_parse|].
      intros items. apply requestsWith_silent. apply Hk.
  - intros e. apply requestsWith_rethrow.
Qed.

End RequestsWith.

Lemma In_buildQueryString key v (common rest : Params) :
  In (key, Some v) rest ->
  In (key, String_of_param v) (buildQueryString (common ++ rest)%list).
Proof.
  intros Hin. unfold buildQueryString. apply in_flat_map.
  exists (key, Some v). split.
  - apply in_or_app. right. exact Hin.
  - simpl. left. reflexivity.
Qed.

Ltac page_default H :=
  apply requestsWith_bind; [apply requestsWith_getCommonParams|];
  intros common; cbv zeta;
  apply requestsWith_request; [|intros; reflexivity];
  first [ apply (In_buildQueryString "numOfRows" (PNum 10))
        | apply (In_buildQueryString "pageNo" (PNum 1)) ];
  rewrite H; simpl; tauto.

(** The one request of a listing called with [numOfRows: 0, pageNo: 0]. *)
Example getAreaBasedList_zero_rows :
  trace (getAreaBasedList noRecords
           (AreaBasedListParams.mk (Some "1") None (Some 0) (Some 0))) =
  [ EvFetch areaBasedList2
      [ ("serviceKey", "key"); ("MobileOS", "ETC"); ("MobileApp", "MyTrip");
        ("_type", "json"); ("areaCode", "1"); ("numOfRows", "10");
        ("pageNo", "1") ] 0 ].
Proof. vm_compute. reflexivity. Qed.

(** ** Statistics *)

Lemma getServiceKey_throws w e :
  outcome (getServiceKey w) = Throw e -> instanceof_TourAPIError e = true.
Proof.
  unfold getServiceKey. destruct (falsy_string _).
  - match goal with
    | |- context [logError w ?err ?c ;;; throw ?err] =>
        destruct (@log_then_throw string w err c) as (Ho & _)
    end.
    rewrite Ho. intros [= <-]. reflexivity.
  - discriminate.
Qed.

Lemma getCommonParams_throws w e :
  outcome (getCommonParams w) = Throw e -> instanceof_TourAPIError e = true.
Proof.
  unfold getCommonParams.
  destruct (getServiceKey w) as [[key|e0] t] eqn:E; simpl.
  - discriminate.
  - intros [= <-]. apply (getServiceKey_throws w). rewrite E. reflexivity.
Qed.

Lemma try_rethrow_throws {A} (m : M A) message e :
  outcome (try_catch m (rethrow message)) = Throw e ->
  instanceof_TourAPIError e = true.
Proof.
  destruct m as [[a|e0] t]; simpl; [discriminate|].
  unfold rethrow. destruct (instanceof_TourAPIError e0) eqn:E; simpl.
  - intros [= <-]. exact E.
  - intros [= <-]. reflexivity.
Qed.

Lemma bind_try_rethrow_throws {A B} (m : M A) (f : A -> M B) message e :
  (forall e0, outcome m = Throw e0 -> instanceof_TourAPIError e0 = true) ->
  outcome (a <- m ;; try_catch (f a) (rethrow message)) = Throw e ->
  instanceof_TourAPIError e = true.
Proof.
  intros Hm. destruct m as [[a|e0] t]; simpl.
  - destruct (try_catch (f a) (rethrow message)) as [r t'] eqn:E. simpl.
    intros ->. apply (try_rethrow_throws (f a) message). rewrite E. reflexivity.
  - intros [= <-]. apply Hm. reflexivity.
Qed.

Lemma getAreaCode_throws w p e :
  outcome (getAreaCode w p) = Throw e -> instanceof_TourAPIError e = true.
Proof.
  unfold getAreaCode. apply bind_try_rethrow_throws.
  apply getCommonParams_throws.
Qed.

Lemma regionCallback_ok w a response :
  outcome (getAreaBasedList w (regionParams a)) = Ok response ->
  outcome (regionCallback w a) =
    Ok (Some (RegionStats.mk (AreaCode.code a) (AreaCode.name a)
                             (TourListResponse.totalCount response))).
Proof.
  intros H. unfold regionCallback. fold (regionParams a).
  apply outcome_try_ok. rewrite (outcome_bind_ok _ _ response H). reflexivity.
Qed.

Lemma regionCallback_throw w a e :
  outcome (getAreaBasedList w (regionParams a)) = Throw e ->
  outcome (regionCallback w a) = Ok None /\
  In (regionFailureLog a e) (trace (regionCallback w a)).
Proof.
  intros H. unfold regionCallback. fold (regionParams a).
  set (body := response <- getAreaBasedList w (regionParams a) ;; _).
  assert (Hbody : outcome body = Throw e) by (apply outcome_bind_throw; exact H).
  rewrite (outcome_try_throw _ _ e Hbody), (trace_try_throw _ _ e Hbody).
  split; [reflexivity|].
  apply in_or_app. right. simpl. left. reflexivity.
Qed.

Lemma trace_allSettled_ret {A B} (promises : list (M A))
  (g : list (Result A) -> B) :
  trace (results <- allSettled promises ;; ret (g results)) =
  List.concat (map trace promises).
Proof. unfold allSettled, bind, ret. simpl. apply app_nil_r. Qed.

Lemma outcome_allSettled_ret {A B} (promises : list (M A))
  (g : list (Result A) -> B) :
  outcome (results <- allSettled promises ;; ret (g results)) =
  Ok (g (map outcome promises)).
Proof. reflexivity. Qed.

Lemma successful_cons {A} (r : Result (option A)) rs :
  successful (r :: rs) =
  match r with
  | Ok (Some stat) => stat :: successful rs
  | _ => successful rs
  end.
Proof. unfold successful. destruct r as [[stat|]|e]; reflexivity. Qed.

Lemma successful_regions w areaCodes :
  successful (map outcome (map (regionCallback w) areaCodes)) =
  regionStatsOf w areaCodes.
Proof.
  induction areaCodes as [|a rest IH]; [reflexivity|].
  simpl map. rewrite successful_cons. unfold regionStatsOf. simpl flat_map.
  fold (regionStatsOf w rest). rewrite <- IH.
  destruct (outcome (getAreaBasedList w (regionParams a))) as [response|e] eqn:E.
  - rewrite (regionCallback_ok w a response E). reflexivity.
  - destruct (regionCallback_throw w a e E) as [-> _]. reflexivity.
Qed.

(** C7.  [getRegionStats] fails exactly with the error of the area-code
    lookup when that lookup fails.  When the lookup returns the area codes,
    [getRegionStats] returns: its result holds the statistics of the regions
    whose listing call succeeded and leaves the others out, and the failure of
    a region is written to the console. *)
Theorem getRegionStats_partial_failure :
  forall w,
    let lookup := getAreaCode w (AreaCodeParams.mk (Some 100) (Some 1)) in
    (forall e, outcome lookup = Throw e -> outcome (getRegionStats w) = Throw e) /\
    (forall areaCodes,
       outcome lookup = Ok areaCodes ->
       outcome (getRegionStats w) = Ok (regionStatsOf w areaCodes) /\
       (forall a e,
          In a areaCodes ->
          outcome (getAreaBasedList w (regionParams a)) = Throw e ->
          In (regionFailureLog a e) (trace (getRegionStats w)))).
Proof.
  intros w lookup. split.
  - intros e He. unfold getRegionStats. fold lookup.
    pose proof (getAreaCode_throws w _ e He) as Hinst.
    set (body := areaCodes <- lookup ;; _).
    assert (Hbody : outcome body = Throw e) by (apply outcome_bind_throw; exact He).
    rewrite (outcome_try_throw _ _ e Hbody).
    apply outcome_rethrow_TourAPIError. exact Hinst.
  - intros areaCodes Hok. unfold getRegionStats. fold lookup.
    set (body := areaCodes <- lookup ;; _).
    destruct areaCodes as [|a0 rest].
    + split; [|intros a e []].
      apply outcome_try_ok. unfold body.
      rewrite (outcome_bind_ok _ _ [] Hok). reflexivity.
    + assert (Hbody : outcome body = Ok (regionStatsOf w (a0 :: rest))).
      { unfold body. rewrite (outcome_bind_ok _ _ (a0 :: rest) Hok).
        cbn [List.length Nat.eqb]. unfold allSettled.
        rewrite <- successful_regions. reflexivity. }
      split; [apply outcome_try_ok; exact Hbody|].
      intros a e Hin Hfail.
      rewrite (trace_try_ok _ _ _ Hbody). unfold body.
      rewrite (trace_bind_ok _ _ (a0 :: rest) Hok).
      apply in_or_app. right.
      cbn [List.length Nat.eqb]. rewrite trace_allSettled_ret. apply in_concat.
      exists (trace (regionCallback w a)). split.
      * rewrite map_map. apply in_map_iff. exists a. split; [reflexivity|exact Hin].
      * apply (regionCallback_throw w a e Hfail).
Qed.

Lemma typeCallback_ok w id response :
  outcome (getAreaBasedList w (typeParams id)) = Ok response ->
  outcome (typeCallback w id) =
    Ok (Some (TypeStats.mk id (typeName id)
                           (TourListResponse.totalCount response)
                           (S754_zero false))) /\
  trace (typeCallback w id) = typeQueryTrace w id.
Proof.
  intros H. unfold typeCallback, typeQueryTrace. fold (typeParams id).
  set (body := response <- getAreaBasedList w (typeParams id) ;; _).
  assert (Hbody : outcome body =
                  Ok (Some (TypeStats.mk id (typeName id)
                              (TourListResponse.totalCount response)
                              (S754_zero false)))).
  { unfold body. rewrite (outcome_bind_ok _ _ response H). reflexivity. }
  rewrite (outcome_try_ok _ _ _ Hbody), (trace_try_ok _ _ _ Hbody).
  split; [reflexivity|].
  unfold body. rewrite (trace_bind_ok _ _ response H), H. reflexivity.
Qed.

Lemma typeCallback_throw w id e :
  outcome (getAreaBasedList w (typeParams id)) = Throw e ->
  outcome (typeCallback w id) = Ok None /\
  trace (typeCallback w id) = typeQueryTrace w id.
Proof.
  intros H. unfold typeCallback, typeQueryTrace. fold (typeParams id).
  set (body := response <- getAreaBasedList w (typeParams id) ;; _).
  assert (Hbody : outcome body = Throw e) by (apply outcome_bind_throw; exact H).
  rewrite (outcome_try_throw _ _ e Hbody), (trace_try_throw _ _ e Hbody).
  split; [reflexivity|].
  unfold body. rewrite (trace_bind_throw _ _ e H), H. reflexivity.
Qed.

Lemma trace_typeCallback w id : trace (typeCallback w id) = typeQueryTrace w id.
Proof.
  destruct (outcome (getAreaBasedList w (typeParams id))) as [response|e] eqn:E.
  - apply (typeCallback_ok w id response E).
  - apply (typeCallback_throw w id e E).
Qed.

(** The successful results of the type callbacks: the counted types, with the
    percentage still at 0. *)
Lemma successful_types w ids :
  successful (map outcome (map (typeCallback w) ids)) =
  map (fun c => TypeStats.mk (fst c) (typeName (fst c)) (snd c) (S754_zero false))
      (typeCountsOf w ids).
Proof.
  induction ids as [|id rest IH]; [reflexivity|].
  simpl map at 2. simpl map at 1. rewrite successful_cons, IH.
  unfold typeCountsOf. simpl flat_map. fold (typeCountsOf w rest).
  destruct (outcome (getAreaBasedList w (typeParams id))) as [response|e] eqn:E.
  - destruct (typeCallback_ok w id response E) as [-> _]. reflexivity.
  - destruct (typeCallback_throw w id e E) as [-> _]. reflexivity.
Qed.

Lemma fold_left_counts stats acc :
  fold_left (fun sum stat => js_add sum (TypeStats.count stat)) stats acc =
  fold_left js_add (map TypeStats.count stats) acc.
Proof.
  revert acc. induction stats as [|s rest IH]; intros acc; simpl;
    [reflexivity|apply IH].
Qed.

Lemma sumCounts_numberSum stats :
  sumCounts stats = numberSum (map TypeStats.count stats).
Proof. apply fold_left_counts. Qed.



(** The example of the specification: 500 records of 1200 are 41.67 percent,
    100 of 1200 are 8.33 percent. *)
Example percentageOf_500_1200 :
  percentageOf 500 1200 = decimal2 4167 /\ percentageOf 100 1200 = decimal2 833.
Proof. split; vm_compute; reflexivity. Qed.

(** ** Sorting by count *)

Section SortByKey.
Variable A : Type.
Variable key : A -> Z.

#[local] Abbreviation cmp := (byKeyDesc key).

Lemma insert_Permutation x l : Permutation (x :: l) (insert cmp x l).
Proof.
  induction l as [|y rest IH]; simpl; [apply Permutation_refl|].
  destruct (cmp x y <=? 0); [apply Permutation_refl|].
  eapply perm_trans; [apply perm_swap|]. apply perm_skip. exact IH.
Qed.

Lemma sort_Permutation l : Permutation l (sort cmp l).
Proof.
  induction l as [|x rest IH]; simpl; [apply perm_nil|].
  eapply perm_trans; [apply perm_skip; exact IH|]. apply insert_Permutation.
Qed.

Lemma insert_descending x l :
  descending key l -> descending key (insert cmp x l).
Proof.
  unfold descending.
  induction l as [|y rest IH]; intros Hs; simpl.
  - constructor; constructor.
  - inversion Hs as [|? ? Hrest Hy]; subst.
    destruct (cmp x y <=? 0) eqn:E; unfold byKeyDesc in E.
    + apply Z.leb_le in E. constructor; [exact Hs|].
      constructor; [lia|].
      eapply Forall_impl; [|exact Hy]. simpl. intros z Hz. lia.
    + apply Z.leb_gt in E. constructor; [apply IH; exact Hrest|].
      eapply Permutation_Forall; [apply insert_Permutation|].
      constructor; [lia|exact Hy].
Qed.

Lemma sort_descending l : descending key (sort cmp l).
Proof.
  induction l as [|x rest IH]; simpl; [constructor|].
  apply insert_descending. exact IH.
Qed.

Lemma descending_app_l l1 l2 :
  descending key (l1 ++ l2)%list -> descending key l1.
Proof.
  unfold descending.
  induction l1 as [|a rest IH]; intros Hs; [constructor|].
  simpl in Hs. inversion Hs as [|? ? Hrest Ha]; subst.
  constructor; [apply IH; exact Hrest|].
  apply Forall_app in Ha. apply Ha.
Qed.

Lemma descending_firstn n l : descending key l -> descending key (firstn n l).
Proof.
  intros Hs. apply (descending_app_l _ (skipn n l)).
  rewrite firstn_skipn. exact Hs.
Qed.

Lemma descending_app_cross l1 l2 :
  descending key (l1 ++ l2)%list ->
  forall x y, In x l1 -> In y l2 -> key y <= key x.
Proof.
  unfold descending.
  induction l1 as [|a rest IH]; intros Hs x y Hx Hy; [destruct Hx|].
  simpl in Hs. inversion Hs as [|? ? Hrest Ha]; subst.
  destruct Hx as [->|Hx].
  - rewrite Forall_forall in Ha. apply Ha. apply in_or_app. right. exact Hy.
  - apply (IH Hrest x y Hx Hy).
Qed.

(** [array.sort(by key, descending).slice(0, n)]: the first [n] of the array
    in descending order, and nothing left behind is above one of them. *)
Lemma top_spec n l :
  let top := slice0 n (sort cmp l) in
  descending key top /\
  List.length top = Nat.min n (List.length l) /\
  exists rest,
    Permutation l (top ++ rest)%list /\
    forall x y, In x top -> In y rest -> key y <= key x.
Proof.
  intros top. unfold top, slice0. split; [|split].
  - apply descending_firstn, sort_descending.
  - rewrite length_firstn.
    rewrite <- (Permutation_length (sort_Permutation l)). reflexivity.
  - exists (skipn n (sort cmp l)). split.
    + rewrite firstn_skipn. apply sort_Permutation.
    + apply descending_app_cross. rewrite firstn_skipn. apply sort_descending.
Qed.

End SortByKey.

(** ** The summary *)

Lemma all2_ok {A B} (a : M A) (b : M B) x y :
  outcome a = Ok x -> outcome b = Ok y -> outcome (all2 a b) = Ok (x, y).
Proof.
  destruct a as [ra ta], b as [rb tb]. simpl. intros -> ->. reflexivity.
Qed.

(** The scenario of the specification: content type 39 holds 500 records and
    each of the seven others 100; the percentages are 41.67 and 8.33. *)
Example getTypeStats_sampleUpstream :
  outcome (getTypeStats sampleUpstream) =
  Ok (map (fun c => TypeStats.mk (fst c) (typeName (fst c)) (snd c)
                                 (decimal2 (if snd c =? 500 then 4167 else 833)))
          [ ("12", 100); ("14", 100); ("15", 100); ("25", 100);
            ("28", 100); ("32", 100); ("38", 100); ("39", 500) ]).
Proof. vm_compute. reflexivity. Qed.

Example getRegionStats_sampleUpstream :
  outcome (getRegionStats sampleUpstream) =
  Ok [ RegionStats.mk "1" "서울" 150; RegionStats.mk "6" "부산" 90;
       RegionStats.mk "31" "경기도" 300; RegionStats.mk "39" "제주도" 20 ].
Proof. vm_compute. reflexivity. Qed.

(* ===================================================================== *)
(** * Further properties of the client *)
(* ===================================================================== *)

(** ** Every run of the transport *)

Lemma outcome_cases {T} (o : FetchOutcome T) :
  (exists r, o = Responds r /\ ok r = true) \/
  (exists e, o = Rejects e /\ isAbortError e = true) \/
  retryable o = true.
Proof.
  destruct o as [r|e]; simpl.
  - destruct (ok r) eqn:E;
      [left; exists r; split; [reflexivity|exact E]|right; right; reflexivity].
  - destruct (isAbortError e) eqn:E;
      [right; left; exists e; split; [reflexivity|exact E]|right; right; reflexivity].
Qed.

(** How a run that starts at attempt [n] ends: at the first attempt [k] that
    succeeds or times out, or at attempt 3. *)
Inductive RunEnd (w : World) (ep : Endpoint) (url : Query) (k : nat)
  : Result (Response (ItemOf ep)) -> Prop :=
| RunEnd_ok r :
    fetch w ep url k = Responds r -> ok r = true -> RunEnd w ep url k (Ok r)
| RunEnd_timeout e :
    fetch w ep url k = Rejects e -> isAbortError e = true ->
    RunEnd w ep url k (Throw (timeoutError e))
| RunEnd_exhausted :
    k = MAX_RETRIES -> retryable (fetch w ep url k) = true ->
    RunEnd w ep url k
      (Throw (maxRetryError (caught (fetch w ep url k)) k)).

Lemma fetchWithRetry_run w ep url : forall d n,
  (n + d = MAX_RETRIES)%nat ->
  exists k,
    (n <= k <= MAX_RETRIES)%nat /\
    (forall i, (n <= i < k)%nat -> retryable (fetch w ep url i) = true) /\
    RunEnd w ep url k (outcome (fetchWithRetry w ep url n)) /\
    attempts (trace (fetchWithRetry w ep url n)) = S (k - n) /\
    delays (trace (fetchWithRetry w ep url n)) =
      firstn (k - n) (skipn n RETRY_DELAYS).
Proof.
  induction d as [|d IH]; intros n Hn.
  - exists n. rewrite Nat.sub_diag.
    split; [lia|]. split; [intros i Hi; lia|].
    destruct (outcome_cases (fetch w ep url n)) as [(r & Hf & Hok)|[(e & Hf & Ha)|Hr]].
    + rewrite (fetchWithRetry_success w ep url n r Hf Hok). simpl.
      split; [apply (RunEnd_ok _ _ _ _ r Hf Hok)|split; reflexivity].
    + destruct (fetchWithRetry_abort w ep url n e Hf Ha) as (Ho & Hat & Hd).
      rewrite Ho, Hat, Hd.
      split; [apply (RunEnd_timeout _ _ _ _ e Hf Ha)|split; reflexivity].
    + destruct (fetchWithRetry_exhausted w ep url n Hr) as (Ho & Hat & Hd); [lia|].
      rewrite Ho, Hat, Hd.
      split; [apply RunEnd_exhausted; [lia|exact Hr]|split; reflexivity].
  - destruct (outcome_cases (fetch w ep url n)) as [(r & Hf & Hok)|[(e & Hf & Ha)|Hr]].
    + exists n. rewrite Nat.sub_diag.
      split; [lia|]. split; [intros i Hi; lia|].
      rewrite (fetchWithRetry_success w ep url n r Hf Hok). simpl.
      split; [apply (RunEnd_ok _ _ _ _ r Hf Hok)|split; reflexivity].
    + exists n. rewrite Nat.sub_diag.
      split; [lia|]. split; [intros i Hi; lia|].
      destruct (fetchWithRetry_abort w ep url n e Hf Ha) as (Ho & Hat & Hd).
      rewrite Ho, Hat, Hd.
      split; [apply (RunEnd_timeout _ _ _ _ e Hf Ha)|split; reflexivity].
    + destruct (fetchWithRetry_retry w ep url n Hr) as (Ho & Hat & Hd); [lia|].
      destruct (IH (n + 1)%nat) as (k & Hk & Hbefore & Hend & Hat' & Hd'); [lia|].
      exists k. split; [lia|]. split.
      { intros i Hi. destruct (Nat.eq_dec i n) as [->|Hne]; [exact Hr|].
        apply Hbefore. lia. }
      rewrite Ho, Hat, Hd, Hat', Hd'.
      split; [exact Hend|].
      replace (k - n)%nat with (S (k - (n + 1))) by lia.
      split; [reflexivity|].
      rewrite retryDelay_schedule by lia.
      replace (n + 1)%nat with (S n) by lia. reflexivity.
Qed.

(** X1.  Whatever the upstream does, a request makes between one and four
    calls of [fetch], and the waits between them are the first waits of the
    schedule 1000, 2000, 4000 ms, one less than the calls. *)
Theorem fetchWithRetry_bounded :
  forall w ep url,
    let t := trace (fetchWithRetry w ep url 0) in
    (1 <= attempts t <= 4)%nat /\
    delays t = firstn (attempts t - 1) RETRY_DELAYS /\
    total (delays t) <= 7000.
Proof.
  intros w ep url t.
  destruct (fetchWithRetry_run w ep url MAX_RETRIES 0%nat eq_refl)
    as (k & Hk & _ & _ & Ha & Hd).
  fold t in Ha, Hd. rewrite Nat.sub_0_r in Ha, Hd. simpl skipn in Hd.
  unfold MAX_RETRIES in Hk.
  split; [lia|]. rewrite Ha, Hd. simpl Nat.sub. rewrite Nat.sub_0_r.
  split; [reflexivity|].
  destruct k as [|[|[|[|k]]]]; try lia; vm_compute; discriminate.
Qed.

(** X2.  A response the transport returns is a response of one of its
    attempts, its status is in 200-299, and every attempt before it failed
    otherwise than by the timeout. *)
Theorem fetchWithRetry_returns_ok_response :
  forall w ep url r,
    outcome (fetchWithRetry w ep url 0) = Ok r ->
    ok r = true /\
    exists k,
      (k <= MAX_RETRIES)%nat /\
      fetch w ep url k = Responds r /\
      (forall i, (i < k)%nat -> retryable (fetch w ep url i) = true) /\
      attempts (trace (fetchWithRetry w ep url 0)) = S k.
Proof.
  intros w ep url r Hrun.
  destruct (fetchWithRetry_run w ep url MAX_RETRIES 0%nat eq_refl)
    as (k & Hk & Hbefore & Hend & Ha & _).
  rewrite Hrun in Hend. rewrite Nat.sub_0_r in Ha.
  inversion Hend as [r' Hf Hok Heq| |]; subst.
  split; [exact Hok|].
  exists k. split; [lia|]. split; [exact Hf|]. split; [|exact Ha].
  intros i Hi. apply Hbefore. lia.
Qed.

Lemma fetchWithRetry_returns_ok_response_witness :
  ok (emptyResponse (T := ItemOf areaBasedList2) 200 "OK") = true /\
  exists k,
    (k <= MAX_RETRIES)%nat /\
    fetch failsTwice areaBasedList2 [] k = Responds (emptyResponse 200 "OK") /\
    (forall i, (i < k)%nat -> retryable (fetch failsTwice areaBasedList2 [] i) = true) /\
    attempts (trace (fetchWithRetry failsTwice areaBasedList2 [] 0)) = S k.
Proof.
  apply (fetchWithRetry_returns_ok_response failsTwice areaBasedList2 []).
  vm_compute. reflexivity.
Defined.

Lemma RunEnd_throw_typed w ep url k e :
  RunEnd w ep url k (Throw e) ->
  (errorType_of e = Some TIMEOUT_ERROR /\ statusCode_of e = Some 408) \/
  ((errorType_of e = Some NETWORK_ERROR \/ errorType_of e = Some UNKNOWN_ERROR) /\
   statusCode_of e = None /\ k = MAX_RETRIES).
Proof.
  intros H. inversion H as [|e0 Hf Ha Heq|Hk Hr Heq]; subst.
  - left. split; reflexivity.
  - right. unfold maxRetryError. simpl.
    destruct (isNetworkError _); repeat split; auto.
Qed.

(** X3.  An error the transport throws is a [TourAPIError] that is either the
    timeout error, with status 408, or the error of the exhausted retries, of
    type [NETWORK_ERROR] or [UNKNOWN_ERROR], without a status and thrown after
    four attempts.  No other type leaves the transport: the [HTTP_ERROR] and
    [API_KEY_INVALID] built for a response that is not [ok] never do. *)
Theorem fetchWithRetry_throws_typed :
  forall w ep url e,
    outcome (fetchWithRetry w ep url 0) = Throw e ->
    instanceof_TourAPIError e = true /\
    ((errorType_of e = Some TIMEOUT_ERROR /\ statusCode_of e = Some 408) \/
     ((errorType_of e = Some NETWORK_ERROR \/ errorType_of e = Some UNKNOWN_ERROR) /\
      statusCode_of e = None /\
      attempts (trace (fetchWithRetry w ep url 0)) = 4%nat)).
Proof.
  intros w ep url e Hrun.
  destruct (fetchWithRetry_run w ep url MAX_RETRIES 0%nat eq_refl)
    as (k & Hk & _ & Hend & Ha & _).
  rewrite Hrun in Hend. rewrite Nat.sub_0_r in Ha.
  destruct (RunEnd_throw_typed _ _ _ _ _ Hend) as [[Ht Hs]|(Ht & Hs & Hk3)].
  - split; [destruct e; try discriminate Ht; reflexivity|].
    left. split; assumption.
  - split; [destruct e; destruct Ht as [Ht|Ht]; try discriminate Ht; reflexivity|].
    right. split; [exact Ht|]. split; [exact Hs|].
    rewrite Ha, Hk3. reflexivity.
Qed.

Lemma fetchWithRetry_throws_typed_witness :
  instanceof_TourAPIError (timeoutError abortError) = true /\
  ((errorType_of (timeoutError abortError) = Some TIMEOUT_ERROR /\
    statusCode_of (timeoutError abortError) = Some 408) \/
   ((errorType_of (timeoutError abortError) = Some NETWORK_ERROR \/
     errorType_of (timeoutError abortError) = Some UNKNOWN_ERROR) /\
    statusCode_of (timeoutError abortError) = None /\
    attempts (trace (fetchWithRetry timeoutThenOk areaBasedList2 [] 0)) = 4%nat)).
Proof.
  apply (fetchWithRetry_throws_typed timeoutThenOk areaBasedList2 []).
  vm_compute. reflexivity.
Defined.

(** ** The service key *)

Lemma getServiceKey_configured w key :
  serviceKeyOf w = Some key -> getServiceKey w = (Ok key, []).
Proof.
  unfold serviceKeyOf, getServiceKey, or_string.
  destruct (NEXT_PUBLIC_TOUR_API_KEY w) as [[|c s]|];
    destruct (TOUR_API_KEY w) as [[|c' s']|]; simpl;
    intros H; try discriminate H; injection H as <-; reflexivity.
Qed.

Lemma getServiceKey_missing w :
  serviceKeyOf w = None ->
  exists e,
    errorType_of e = Some API_KEY_MISSING /\
    getServiceKey w = (logError w e (Some "getServiceKey") ;;; throw e).
Proof.
  unfold serviceKeyOf, getServiceKey, or_string.
  destruct (NEXT_PUBLIC_TOUR_API_KEY w) as [[|c s]|];
    destruct (TOUR_API_KEY w) as [[|c' s']|]; simpl;
    intros H; try discriminate H; eexists; (split; [|reflexivity]); reflexivity.
Qed.

Lemma getCommonParams_configured w key :
  serviceKeyOf w = Some key ->
  getCommonParams w =
    ret [ ("serviceKey", Some (PStr key));
          ("MobileOS", Some (PStr DEFAULT_MOBILE_OS));
          ("MobileApp", Some (PStr DEFAULT_MOBILE_APP));
          ("_type", Some (PStr DEFAULT_TYPE)) ].
Proof.
  intros H. unfold getCommonParams. rewrite (getServiceKey_configured w key H).
  reflexivity.
Qed.

Lemma getCommonParams_missing w :
  serviceKeyOf w = None ->
  throwsType (getCommonParams w) API_KEY_MISSING /\
  attempts (trace (getCommonParams w)) = 0%nat.
Proof.
  intros H. destruct (getServiceKey_missing w H) as (e & Ht & Hrun).
  unfold getCommonParams. rewrite Hrun.
  destruct (@log_then_throw string w e (Some "getServiceKey")) as (Ho & Ha & _).
  split.
  - exists e. split; [|exact Ht]. apply outcome_bind_throw. exact Ho.
  - rewrite (trace_bind_throw _ _ e Ho). exact Ha.
Qed.

(** An operation, once its arguments are validated, without a service key. *)
Lemma dispatch_missing_key {A} w (rest : Params -> M A) :
  serviceKeyOf w = None ->
  throwsType (common <- getCommonParams w ;; rest common) API_KEY_MISSING /\
  attempts (trace (common <- getCommonParams w ;; rest common)) = 0%nat.
Proof.
  intros H. destruct (getCommonParams_missing w H) as ((e & Ho & Ht) & Ha).
  split.
  - exists e. split; [apply outcome_bind_throw; exact Ho|exact Ht].
  - rewrite (trace_bind_throw _ _ e Ho). exact Ha.
Qed.

(** X4.  Without a service key ([NEXT_PUBLIC_TOUR_API_KEY] and [TOUR_API_KEY]
    both unset or empty) every operation fails before any call of [fetch]:
    with [API_KEY_MISSING], or with [VALIDATION_ERROR] when a required
    argument is blank, the arguments being checked first. *)
Theorem operations_without_service_key :
  forall w,
    serviceKeyOf w = None ->
    (forall p, throwsType (getAreaCode w p) API_KEY_MISSING /\
               attempts (trace (getAreaCode w p)) = 0%nat) /\
    (forall p, throwsType (getAreaBasedList w p) API_KEY_MISSING /\
               attempts (trace (getAreaBasedList w p)) = 0%nat) /\
    (forall p, throwsType (searchKeyword w p)
                 (if blank (SearchKeywordParams.keyword p)
                  then VALIDATION_ERROR else API_KEY_MISSING) /\
               attempts (trace (searchKeyword w p)) = 0%nat) /\
    (forall p, throwsType (getDetailCommon w p)
                 (if blank (DetailParams.contentId p)
                  then VALIDATION_ERROR else API_KEY_MISSING) /\
               attempts (trace (getDetailCommon w p)) = 0%nat) /\
    (forall p, throwsType (getDetailIntro w p)
                 (if blank (DetailIntroParams.contentId p) ||
                     blank (DetailIntroParams.contentTypeId p)
                  then VALIDATION_ERROR else API_KEY_MISSING) /\
               attempts (trace (getDetailIntro w p)) = 0%nat) /\
    (forall p, throwsType (getDetailImage w p)
                 (if blank (DetailImageParams.contentId p)
                  then VALIDATION_ERROR else API_KEY_MISSING) /\
               attempts (trace (getDetailImage w p)) = 0%nat) /\
    (forall p, throwsType (getDetailPetTour w p)
                 (if blank (DetailParams.contentId p)
                  then VALIDATION_ERROR else API_KEY_MISSING) /\
               attempts (trace (getDetailPetTour w p)) = 0%nat).
Proof.
  intros w Hkey.
  split; [|split; [|split; [|split; [|split; [|split]]]]]; intros p.
  - unfold getAreaCode. apply (dispatch_missing_key w _ Hkey).
  - unfold getAreaBasedList. apply (dispatch_missing_key w _ Hkey).
  - unfold searchKeyword. destruct (blank (SearchKeywordParams.keyword p)).
    + apply validation_throw.
    + apply (dispatch_missing_key w _ Hkey).
  - unfold getDetailCommon. destruct (blank (DetailParams.contentId p)).
    + apply validation_throw.
    + apply (dispatch_missing_key w _ Hkey).
  - unfold getDetailIntro. destruct (blank (DetailIntroParams.contentId p)); simpl.
    + apply validation_throw.
    + destruct (blank (DetailIntroParams.contentTypeId p)).
      * apply validation_throw.
      * apply (dispatch_missing_key w _ Hkey).
  - unfold getDetailImage. destruct (blank (DetailImageParams.contentId p)).
    + apply validation_throw.
    + apply (dispatch_missing_key w _ Hkey).
  - unfold getDetailPetTour. destruct (blank (DetailParams.contentId p)).
    + apply validation_throw.
    + apply (dispatch_missing_key w _ Hkey).
Qed.

Lemma operations_without_service_key_witness :
  throwsType (getAreaBasedList noKey (AreaBasedListParams.mk (Some "1") None None None))
             API_KEY_MISSING /\
  attempts (trace (getAreaBasedList noKey
                     (AreaBasedListParams.mk (Some "1") None None None))) = 0%nat.
Proof.
  destruct (operations_without_service_key noKey eq_refl) as (_ & H & _).
  apply H.
Defined.

Lemma In_buildQueryString_any key v (params : Params) :
  In (key, Some v) params ->
  In (key, String_of_param v) (buildQueryString params).
Proof.
  intros Hin. unfold buildQueryString. apply in_flat_map.
  exists (key, Some v). split; [exact Hin|]. simpl. left. reflexivity.
Qed.

Lemma requestsWith_after_common {A} name value w key (rest : Params -> M A) :
  serviceKeyOf w = Some key ->
  requestsWith name value
    (rest [ ("serviceKey", Some (PStr key));
            ("MobileOS", Some (PStr DEFAULT_MOBILE_OS));
            ("MobileApp", Some (PStr DEFAULT_MOBILE_APP));
            ("_type", Some (PStr DEFAULT_TYPE)) ]) ->
  requestsWith name value (common <- getCommonParams w ;; rest common).
Proof.
  intros Hkey Hrest. rewrite (getCommonParams_configured w key Hkey).
  rewrite bind_ret. exact Hrest.
Qed.

Lemma trace_firstOrThrow notFound items : trace (firstOrThrow notFound items) = [].
Proof. unfold firstOrThrow. destruct (nth_error items 0); reflexivity. Qed.

Ltac common_entry Hkey v :=
  apply (requestsWith_after_common _ _ _ _ _ Hkey); cbv zeta;
  apply requestsWith_request;
    [|intros; first [reflexivity | apply trace_firstOrThrow]];
  apply (In_buildQueryString_any _ (PStr v));
  apply in_or_app; left; simpl; tauto.

Ltac common_entries Hkey key :=
  split; [common_entry Hkey key|];
  split; [common_entry Hkey DEFAULT_MOBILE_OS|];
  split; [common_entry Hkey DEFAULT_MOBILE_APP|common_entry Hkey DEFAULT_TYPE].

Lemma carriesCommon_log_throw {A} key w e c :
  carriesCommon key (logError w e c ;;; @throw A e).
Proof. repeat split; apply requestsWith_log_throw. Qed.

(** X5.  When a service key is configured, [NEXT_PUBLIC_TOUR_API_KEY] first
    and [TOUR_API_KEY] when the first is unset or empty, every request of
    every operation carries [serviceKey] with that key, [MobileOS=ETC],
    [MobileApp=MyTrip] and [_type=json]. *)
Theorem operations_carry_common_parameters :
  forall w key,
    serviceKeyOf w = Some key ->
    (forall p, carriesCommon key (getAreaCode w p)) /\
    (forall p, carriesCommon key (getAreaBasedList w p)) /\
    (forall p, carriesCommon key (searchKeyword w p)) /\
    (forall p, carriesCommon key (getDetailCommon w p)) /\
    (forall p, carriesCommon key (getDetailIntro w p)) /\
    (forall p, carriesCommon key (getDetailImage w p)) /\
    (forall p, carriesCommon key (getDetailPetTour w p)).
Proof.
  intros w key Hkey.
  split; [|split; [|split; [|split; [|split; [|split]]]]]; intros p.
  - unfold getAreaCode. common_entries Hkey key.
  - unfold getAreaBasedList. common_entries Hkey key.
  - unfold searchKeyword. destruct (blank (SearchKeywordParams.keyword p)).
    + apply carriesCommon_log_throw.
    + common_entries Hkey key.
  - unfold getDetailCommon. destruct (blank (DetailParams.contentId p)).
    + apply carriesCommon_log_throw.
    + common_entries Hkey key.
  - unfold getDetailIntro. destruct (blank (DetailIntroParams.contentId p)).
    + apply carriesCommon_log_throw.
    + destruct (blank (DetailIntroParams.contentTypeId p)).
      * apply carriesCommon_log_throw.
      * common_entries Hkey key.
  - unfold getDetailImage. destruct (blank (DetailImageParams.contentId p)).
    + apply carriesCommon_log_throw.
    + common_entries Hkey key.
  - unfold getDetailPetTour. destruct (blank (DetailParams.contentId p)).
    + apply carriesCommon_log_throw.
    + common_entries Hkey key.
Qed.

Lemma operations_carry_common_parameters_witness :
  carriesCommon "key"
    (getDetailImage htmlBody (DetailImageParams.mk (Some "125266") None None)).
Proof.
  destruct (operations_carry_common_parameters htmlBody "key" eq_refl)
    as (_ & _ & _ & _ & _ & H & _).
  apply H.
Defined.

(** ** What the operations throw *)

Lemma validation_instance {A} w message context e :
  outcome (logError w (validationError message) context ;;;
           @throw A (validationError message)) = Throw e ->
  e = validationError message.
Proof.
  destruct (@log_then_throw A w (validationError message) context) as (Ho & _).
  rewrite Ho. intros [= <-]. reflexivity.
Qed.

Ltac only_TourAPIError :=
  first
    [ apply bind_try_rethrow_throws; apply getCommonParams_throws
    | let H := fresh in
      intros H; apply validation_instance in H; subst; reflexivity ].

(** X6.  Whatever the upstream does, a value thrown by an operation of the
    client or by a function of the statistics is a [TourAPIError]: a built-in
    error never reaches the caller unwrapped. *)
Theorem operations_throw_TourAPIError :
  forall w e,
    (forall p, outcome (getAreaCode w p) = Throw e ->
               instanceof_TourAPIError e = true) /\
    (forall p, outcome (getAreaBasedList w p) = Throw e ->
               instanceof_TourAPIError e = true) /\
    (forall p, outcome (searchKeyword w p) = Throw e ->
               instanceof_TourAPIError e = true) /\
    (forall p, outcome (getDetailCommon w p) = Throw e ->
               instanceof_TourAPIError e = true) /\
    (forall p, outcome (getDetailIntro w p) = Throw e ->
               instanceof_TourAPIError e = true) /\
    (forall p, outcome (getDetailImage w p) = Throw e ->
               instanceof_TourAPIError e = true) /\
    (forall p, outcome (getDetailPetTour w p) = Throw e ->
               instanceof_TourAPIError e = true) /\
    (outcome (getRegionStats w) = Throw e -> instanceof_TourAPIError e = true) /\
    (outcome (getTypeStats w) = Throw e -> instanceof_TourAPIError e = true) /\
    (outcome (getStatsSummary w) = Throw e -> instanceof_TourAPIError e = true).
Proof.
  intros w e.
  split; [|split; [|split; [|split; [|split; [|split; [|split; [|split; [|split]]]]]]]].
  - intros p. unfold getAreaCode. only_TourAPIError.
  - intros p. unfold getAreaBasedList. only_TourAPIError.
  - intros p. unfold searchKeyword.
    destruct (blank (SearchKeywordParams.keyword p)); only_TourAPIError.
  - intros p. unfold getDetailCommon.
    destruct (blank (DetailParams.contentId p)); only_TourAPIError.
  - intros p. unfold getDetailIntro.
    destruct (blank (DetailIntroParams.contentId p)); [only_TourAPIError|].
    destruct (blank (DetailIntroParams.contentTypeId p)); only_TourAPIError.
  - intros p. unfold getDetailImage.
    destruct (blank (DetailImageParams.contentId p)); only_TourAPIError.
  - intros p. unfold getDetailPetTour.
    destruct (blank (DetailParams.contentId p)); only_TourAPIError.
  - unfold getRegionStats. apply try_rethrow_throws.
  - unfold getTypeStats. apply try_rethrow_throws.
  - unfold getStatsSummary. apply try_rethrow_throws.
Qed.

Lemma operations_throw_TourAPIError_witness :
  instanceof_TourAPIError
    (TourAPIError "이미지 목록 조회 중 에러가 발생했습니다." None
       (Some (NativeError SyntaxErrorClass "SyntaxError"
                "Unexpected token < in JSON at position 0"))
       UNKNOWN_ERROR) = true.
Proof.
  destruct (operations_throw_TourAPIError htmlBody
              (TourAPIError "이미지 목록 조회 중 에러가 발생했습니다." None
                 (Some (NativeError SyntaxErrorClass "SyntaxError"
                          "Unexpected token < in JSON at position 0"))
                 UNKNOWN_ERROR))
    as (_ & _ & _ & _ & _ & H & _).
  apply (H (DetailImageParams.mk (Some "125266") None None)).
  vm_compute. reflexivity.
Defined.

Section ThrowsOnly.

Lemma throwsOnly_bind {A B} (P : Thrown -> Prop) (m : M A) (f : A -> M B) :
  throwsOnly P m ->
  (forall a, outcome m = Ok a -> throwsOnly P (f a)) ->
  throwsOnly P (bind m f).
Proof.
  unfold throwsOnly. destruct m as [[a|e0] t]; simpl; intros Hm Hf e.
  - specialize (Hf a eq_refl e). destruct (f a) as [r t']. simpl in *. exact Hf.
  - intros [= <-]. apply Hm. reflexivity.
Qed.

Lemma throwsOnly_try {A} (P Q : Thrown -> Prop) (m : M A) (h : Thrown -> M A) :
  throwsOnly Q m ->
  (forall e, Q e -> throwsOnly P (h e)) ->
  throwsOnly P (try_catch m h).
Proof.
  unfold throwsOnly. destruct m as [[a|e0] t]; simpl; intros Hm Hh e.
  - discriminate.
  - specialize (Hh e0 (Hm e0 eq_refl) e). destruct (h e0) as [r t']. simpl in *.
    exact Hh.
Qed.

Lemma throwsOnly_ok {A} (P : Thrown -> Prop) (m : M A) a :
  outcome m = Ok a -> throwsOnly P m.
Proof. intros H e He. rewrite H in He. discriminate He. Qed.

Lemma throwsOnly_log_throw {A} (P : Thrown -> Prop) w e c :
  P e -> throwsOnly P (logError w e c ;;; @throw A e).
Proof.
  intros HP e' He'. destruct (@log_then_throw A w e c) as (Ho & _).
  rewrite Ho in He'. injection He' as <-. exact HP.
Qed.

Lemma throwsOnly_weaken {A} (P Q : Thrown -> Prop) (m : M A) :
  (forall e, P e -> Q e) -> throwsOnly P m -> throwsOnly Q m.
Proof. intros HPQ Hm e He. apply HPQ, Hm, He. Qed.

End ThrowsOnly.

Lemma typedAmong_incl types types' e :
  incl types types' -> typedAmong types e -> typedAmong types' e.
Proof. intros Hi (t & Ht & Hin). exists t. split; [exact Ht|apply Hi, Hin]. Qed.

Lemma typedAmong_intro types message status original t :
  In t types -> typedAmong types (TourAPIError message status original t).
Proof. intros H. exists t. split; [reflexivity|exact H]. Qed.

Lemma typedAmong_instance types e :
  typedAmong types e -> instanceof_TourAPIError e = true.
Proof. intros (t & Ht & _). destruct e; try discriminate Ht. reflexivity. Qed.

Lemma throwsOnly_fetchWithRetry w ep url :
  throwsOnly (typedAmong transportTypes) (fetchWithRetry w ep url 0).
Proof.
  intros e Hrun.
  destruct (fetchWithRetry_run w ep url MAX_RETRIES 0%nat eq_refl)
    as (k & _ & _ & Hend & _).
  rewrite Hrun in Hend.
  destruct (RunEnd_throw_typed _ _ _ _ _ Hend) as [[Ht _]|([Ht|Ht] & _)];
    eexists; (split; [exact Ht|]); unfold transportTypes; simpl; tauto.
Qed.

Lemma fetchWithRetry_response_of_attempt w ep url r :
  outcome (fetchWithRetry w ep url 0) = Ok r ->
  exists k, fetch w ep url k = Responds r.
Proof.
  intros Hrun.
  destruct (fetchWithRetry_run w ep url MAX_RETRIES 0%nat eq_refl)
    as (k & _ & _ & Hend & _).
  rewrite Hrun in Hend. inversion Hend; subst. exists k. assumption.
Qed.

Lemma throwsOnly_parse {T} w (data : TourAPIResponse T) :
  throwsOnly (typedAmong [API_KEY_INVALID; API_ERROR]) (parseAPIResponse w data).
Proof.
  unfold parseAPIResponse.
  destruct (negb (String.eqb (resultCode (header data)) "0000")).
  - apply throwsOnly_log_throw. apply typedAmong_intro.
    destruct (_ || _); simpl; tauto.
  - destruct (body data) as [b|]; [|apply (throwsOnly_ok _ _ []); reflexivity].
    destruct (Body.items b) as [[x|xs]|]; eapply throwsOnly_ok; reflexivity.
Qed.

Lemma throwsOnly_getCommonParams w :
  throwsOnly (typedAmong [API_KEY_MISSING]) (getCommonParams w).
Proof.
  unfold getCommonParams, getServiceKey. apply throwsOnly_bind.
  - destruct (falsy_string _).
    + apply throwsOnly_log_throw. apply typedAmong_intro. simpl. tauto.
    + eapply throwsOnly_ok. reflexivity.
  - intros key _. eapply throwsOnly_ok. reflexivity.
Qed.

(** The types an operation can end with once its arguments are accepted and
    the key is read. *)
Lemma request_throws_typed {A} w ep url
  (k : TourAPIResponse (ItemOf ep) -> list (ItemOf ep) -> M A) message :
  nativeJson w ->
  (forall data items, throwsOnly (typedAmong [UNKNOWN_ERROR]) (k data items)) ->
  throwsOnly
    (typedAmong [TIMEOUT_ERROR; NETWORK_ERROR; UNKNOWN_ERROR;
                 API_KEY_INVALID; API_ERROR])
    (try_catch
       (response <- fetchWithRetry w ep url 0 ;;
        data <- settle (json response) ;;
        items <- parseAPIResponse w data ;;
        k data items)
       (rethrow message)).
Proof.
  intros Hjson Hk.
  set (types := [TIMEOUT_ERROR; NETWORK_ERROR; UNKNOWN_ERROR;
                 API_KEY_INVALID; API_ERROR]).
  apply (throwsOnly_try _ (typedAmongOrForeign types)).
  - apply throwsOnly_bind.
    + eapply throwsOnly_weaken; [|apply throwsOnly_fetchWithRetry].
      intros e He. right. revert He. apply typedAmong_incl.
      unfold transportTypes, types. intros t Ht. simpl in *. tauto.
    + intros response Hresponse. apply throwsOnly_bind.
      * intros e He. left.
        destruct (fetchWithRetry_response_of_attempt w ep url response Hresponse)
          as (n & Hn).
        apply (Hjson ep url n response e Hn). exact He.
      * intros data _. apply throwsOnly_bind.
        -- eapply throwsOnly_weaken; [|apply throwsOnly_parse].
           intros e He. right. revert He. apply typedAmong_incl.
           unfold types. intros t Ht. simpl in *. tauto.
        -- intros items _. eapply throwsOnly_weaken; [|apply Hk].
           intros e He. right. revert He. apply typedAmong_incl.
           unfold types. intros t Ht. simpl in *. tauto.
  - intros e He e' He'. unfold rethrow in He'.
    destruct (instanceof_TourAPIError e) eqn:Hi.
    + injection He' as <-. destruct He as [He|He]; [congruence|exact He].
    + injection He' as <-. apply typedAmong_intro. unfold types. simpl. tauto.
Qed.

Lemma dispatch_throws_typed {A} w ep (mkUrl : Params -> Query)
  (k : TourAPIResponse (ItemOf ep) -> list (ItemOf ep) -> M A) message :
  nativeJson w ->
  (forall data items, throwsOnly (typedAmong [UNKNOWN_ERROR]) (k data items)) ->
  throwsOnly
    (typedAmong [API_KEY_MISSING; TIMEOUT_ERROR; NETWORK_ERROR; UNKNOWN_ERROR;
                 API_KEY_INVALID; API_ERROR])
    (common <- getCommonParams w ;;
     try_catch
       (response <- fetchWithRetry w ep (mkUrl common) 0 ;;
        data <- settle (json response) ;;
        items <- parseAPIResponse w data ;;
        k data items)
       (rethrow message)).
Proof.
  intros Hjson Hk. apply throwsOnly_bind.
  - eapply throwsOnly_weaken; [|apply throwsOnly_getCommonParams].
    intros e. apply typedAmong_incl. intros t Ht. simpl in *. tauto.
  - intros common _.
    eapply throwsOnly_weaken; [|apply (request_throws_typed w ep _ k message Hjson Hk)].
    intros e. apply typedAmong_incl. intros t Ht. simpl in *. tauto.
Qed.

Lemma firstOrThrow_throws notFound items :
  throwsOnly (typedAmong [UNKNOWN_ERROR]) (firstOrThrow notFound items).
Proof.
  unfold firstOrThrow. destruct (nth_error items 0).
  - eapply throwsOnly_ok. reflexivity.
  - intros e [= <-]. apply typedAmong_intro. simpl. tauto.
Qed.

(** ** White space and [trim] *)

Lemma append_nil_r (s : string) : (s ++ "")%string = s.
Proof. induction s as [|a s IH]; simpl; [reflexivity|rewrite IH; reflexivity]. Qed.

Lemma append_assoc (s1 s2 s3 : string) :
  ((s1 ++ s2) ++ s3)%string = (s1 ++ (s2 ++ s3))%string.
Proof. induction s1 as [|a s1 IH]; simpl; [reflexivity|rewrite IH; reflexivity]. Qed.

Lemma length_append (s1 s2 : string) :
  String.length (s1 ++ s2)%string = (String.length s1 + String.length s2)%nat.
Proof. induction s1 as [|a s1 IH]; simpl; [reflexivity|rewrite IH; reflexivity]. Qed.

Lemma list_ascii_of_string_append (s1 s2 : string) :
  list_ascii_of_string (s1 ++ s2)%string =
  (list_ascii_of_string s1 ++ list_ascii_of_string s2)%list.
Proof. induction s1 as [|a s1 IH]; simpl; [reflexivity|rewrite IH; reflexivity]. Qed.

Lemma string_of_list_ascii_app (l1 l2 : list ascii) :
  string_of_list_ascii (l1 ++ l2)%list =
  (string_of_list_ascii l1 ++ string_of_list_ascii l2)%string.
Proof. induction l1 as [|a l1 IH]; simpl; [reflexivity|rewrite IH; reflexivity]. Qed.

Lemma reverse_append (s1 s2 : string) :
  reverse (s1 ++ s2)%string = (reverse s2 ++ reverse s1)%string.
Proof.
  unfold reverse.
  rewrite list_ascii_of_string_append, rev_app_distr, string_of_list_ascii_app.
  reflexivity.
Qed.

Lemma reverse_involutive s : reverse (reverse s) = s.
Proof.
  unfold reverse.
  rewrite list_ascii_of_string_of_list_ascii, rev_involutive.
  apply string_of_list_ascii_of_string.
Qed.

Lemma reverse_cons a s : reverse (String a s) = (reverse s ++ String a "")%string.
Proof. apply (reverse_append (String a "") s). Qed.

Lemma WhiteSpace_append s1 s2 :
  WhiteSpace s1 -> WhiteSpace s2 -> WhiteSpace (s1 ++ s2)%string.
Proof.
  induction 1 as [|a s Ha _ IH|a b s Hab _ IH|a b c s Habc _ IH]; intros H2; simpl.
  - exact H2.
  - apply WhiteSpace_1; [exact Ha|apply IH, H2].
  - apply WhiteSpace_2; [exact Hab|apply IH, H2].
  - apply WhiteSpace_3; [exact Habc|apply IH, H2].
Qed.

(** The white space a pass of [strip] removes: read onwards, or read from the
    end with the bytes of each character in reverse. *)
Definition stripped (backwards : bool) (p : string) : Prop :=
  WhiteSpace (if backwards then reverse p else p).

Lemma stripped_nil b : stripped b "".
Proof. destruct b; apply WhiteSpace_nil. Qed.

Lemma stripped_1 b a p : ws1 a = true -> stripped b p -> stripped b (String a p).
Proof.
  unfold stripped. destruct b; intros Ha Hp.
  - rewrite reverse_cons. apply WhiteSpace_append; [exact Hp|].
    apply WhiteSpace_1; [exact Ha|apply WhiteSpace_nil].
  - apply WhiteSpace_1; assumption.
Qed.

Lemma stripped_2 (b : bool) x y p :
  (if b then ws2 y x else ws2 x y) = true -> stripped b p ->
  stripped b (String x (String y p)).
Proof.
  unfold stripped. destruct b; intros Hxy Hp.
  - rewrite !reverse_cons, append_assoc. apply WhiteSpace_append; [exact Hp|].
    simpl. apply WhiteSpace_2; [exact Hxy|apply WhiteSpace_nil].
  - apply WhiteSpace_2; assumption.
Qed.

Lemma stripped_3 (b : bool) x y z p :
  (if b then ws3 z y x else ws3 x y z) = true -> stripped b p ->
  stripped b (String x (String y (String z p))).
Proof.
  unfold stripped. destruct b; intros Hxyz Hp.
  - rewrite !reverse_cons, !append_assoc. apply WhiteSpace_append; [exact Hp|].
    simpl. apply WhiteSpace_3; [exact Hxyz|apply WhiteSpace_nil].
  - apply WhiteSpace_3; assumption.
Qed.

(** What [strip] does: it splits the string into the white space at its front
    and a rest that [strip] leaves as it is. *)
Lemma strip_spec b : forall n s,
  (String.length s <= n)%nat ->
  exists p,
    stripped b p /\ s = (p ++ strip b s)%string /\
    strip b (strip b s) = strip b s.
Proof.
  induction n as [|n IH]; intros s Hlen.
  - destruct s; [|simpl in Hlen; lia].
    exists "". split; [apply stripped_nil|split; reflexivity].
  - destruct s as [|x r].
    { exists "". split; [apply stripped_nil|split; reflexivity]. }
    simpl in Hlen. cbn [strip].
    destruct (ws1 x) eqn:H1.
    { destruct (IH r) as (p & Hp & Hr & Hi); [lia|].
      exists (String x p). split; [apply stripped_1; assumption|].
      split; [simpl; rewrite <- Hr; reflexivity|exact Hi]. }
    destruct r as [|y r2].
    { exists "". split; [apply stripped_nil|].
      split; [reflexivity|]. cbn [strip]. rewrite H1. reflexivity. }
    destruct (if b then ws2 y x else ws2 x y) eqn:H2.
    { simpl in Hlen. destruct (IH r2) as (p & Hp & Hr & Hi); [lia|].
      exists (String x (String y p)). split; [apply stripped_2; assumption|].
      split; [simpl; rewrite <- Hr; reflexivity|exact Hi]. }
    destruct r2 as [|z r3].
    { exists "". split; [apply stripped_nil|].
      split; [reflexivity|]. cbn [strip]. rewrite H1, H2. reflexivity. }
    destruct (if b then ws3 z y x else ws3 x y z) eqn:H3.
    { simpl in Hlen. destruct (IH r3) as (p & Hp & Hr & Hi); [lia|].
      exists (String x (String y (String z p))).
      split; [apply stripped_3; assumption|].
      split; [simpl; rewrite <- Hr; reflexivity|exact Hi]. }
    exists "". split; [apply stripped_nil|].
    split; [reflexivity|]. cbn [strip]. rewrite H1, H2, H3. reflexivity.
Qed.

Lemma strip_split b s :
  exists p, stripped b p /\ s = (p ++ strip b s)%string.
Proof.
  destruct (strip_spec b (String.length s) s (le_n _)) as (p & Hp & Hs & _).
  exists p. split; assumption.
Qed.

Lemma strip_idempotent b s : strip b (strip b s) = strip b s.
Proof.
  destruct (strip_spec b (String.length s) s (le_n _)) as (p & _ & _ & H).
  exact H.
Qed.

Lemma length_strip b s : (String.length (strip b s) <= String.length s)%nat.
Proof.
  destruct (strip_split b s) as (p & _ & Hs).
  rewrite Hs at 2. rewrite length_append. lia.
Qed.

(** A string that [strip] leaves as it is keeps that property when it is cut
    at its end. *)
Lemma strip_fixed_prefix y v :
  strip false (y ++ v)%string = (y ++ v)%string -> strip false y = y.
Proof.
  intros H.
  assert (Hshort : forall r, strip false (r ++ v)%string = (y ++ v)%string ->
                             (String.length r < String.length y)%nat -> False).
  { intros r Hr Hlt. pose proof (length_strip false (r ++ v)%string) as Hl.
    rewrite Hr, !length_append in Hl. lia. }
  destruct y as [|a [|b [|c r3]]]; try reflexivity; cbn [strip append] in *.
  - destruct (ws1 a); [exfalso; apply (Hshort "" H); simpl; lia|reflexivity].
  - destruct (ws1 a); [exfalso; apply (Hshort (String b "") H); simpl; lia|].
    destruct (ws2 a b); [exfalso; apply (Hshort "" H); simpl; lia|reflexivity].
  - destruct (ws1 a);
      [exfalso; apply (Hshort (String b (String c r3)) H); simpl; lia|].
    destruct (ws2 a b); [exfalso; apply (Hshort (String c r3) H); simpl; lia|].
    destruct (ws3 a b c); [exfalso; apply (Hshort r3 H); simpl; lia|reflexivity].
Qed.

Lemma trimEnd_prefix x : exists q, x = (trimEnd x ++ q)%string.
Proof.
  unfold trimEnd. destruct (strip_split true (reverse x)) as (p & _ & Hs).
  exists (reverse p).
  rewrite <- reverse_append, <- Hs. symmetry. apply reverse_involutive.
Qed.

Lemma trim_no_leading_space s : strip false (trim s) = trim s.
Proof.
  unfold trim, trimStart.
  destruct (trimEnd_prefix (strip false s)) as (q & Hq).
  apply (strip_fixed_prefix _ q). rewrite <- Hq. apply strip_idempotent.
Qed.

Lemma trim_no_trailing_space s : trimEnd (trim s) = trim s.
Proof.
  unfold trim at 1. unfold trimEnd at 1 2.
  rewrite reverse_involutive, strip_idempotent. reflexivity.
Qed.

Lemma trim_idempotent s : trim (trim s) = trim s.
Proof.
  unfold trim at 1. unfold trimStart.
  rewrite trim_no_leading_space. apply trim_no_trailing_space.
Qed.

Lemma trim_empty_WhiteSpace s : trim s = EmptyString -> WhiteSpace s.
Proof.
  unfold trim, trimStart, trimEnd. intros H.
  destruct (strip_split false s) as (p & Hp & Hs).
  destruct (strip_split true (reverse (strip false s))) as (q & Hq & Hr).
  assert (Hnil : strip true (reverse (strip false s)) = "").
  { rewrite <- (reverse_involutive (strip true _)), H. reflexivity. }
  rewrite Hnil, append_nil_r in Hr.
  unfold stripped in Hp, Hq. rewrite <- Hr, reverse_involutive in Hq.
  rewrite Hs. apply WhiteSpace_append; assumption.
Qed.

Lemma blank_iff value : blank value = true <-> missing_or_blank value.
Proof.
  split; [|apply blank_missing_or_blank].
  destruct value as [s|]; simpl; [|tauto].
  rewrite orb_true_iff, !String.eqb_eq. intros [->|H].
  - apply WhiteSpace_nil.
  - apply trim_empty_WhiteSpace, H.
Qed.

Lemma blank_trim s : blank (Some (trim s)) = blank (Some s).
Proof.
  simpl. rewrite trim_idempotent.
  destruct (String.eqb_spec s "") as [->|Hs]; simpl.
  - reflexivity.
  - destruct (String.eqb (trim s) ""); reflexivity.
Qed.

Lemma nativeJson_htmlBody : nativeJson htmlBody.
Proof.
  intros ep url n r e Hf Hj. simpl in Hf. injection Hf as <-.
  simpl in Hj. injection Hj as <-. reflexivity.
Qed.

Ltac dispatch_typed Hjson :=
  cbv zeta;
  eapply throwsOnly_weaken;
    [|apply dispatch_throws_typed;
      [exact Hjson
      |intros data items;
       first [ apply firstOrThrow_throws
             | eapply throwsOnly_ok; reflexivity ]]];
  (let e := fresh "e" in
   intros e; apply typedAmong_incl;
   let t := fresh "t" in let Ht := fresh "Ht" in
   intros t Ht; unfold operationTypes; simpl in *; tauto).

Ltac validation_typed :=
  apply throwsOnly_log_throw; apply typedAmong_intro;
  unfold operationTypes; simpl; tauto.

(** X7.  When [response.json()] rejects with built-in errors only, an error
    an operation throws has one of the types [VALIDATION_ERROR],
    [API_KEY_MISSING], [TIMEOUT_ERROR], [NETWORK_ERROR], [UNKNOWN_ERROR],
    [API_KEY_INVALID] and [API_ERROR]: no operation ever ends with an error of
    type [HTTP_ERROR] or [PARSE_ERROR]. *)
Theorem operations_throw_typed :
  forall w,
    nativeJson w ->
    ((forall p, throwsOnly (typedAmong operationTypes) (getAreaCode w p)) /\
     (forall p, throwsOnly (typedAmong operationTypes) (getAreaBasedList w p)) /\
     (forall p, throwsOnly (typedAmong operationTypes) (searchKeyword w p)) /\
     (forall p, throwsOnly (typedAmong operationTypes) (getDetailCommon w p)) /\
     (forall p, throwsOnly (typedAmong operationTypes) (getDetailIntro w p)) /\
     (forall p, throwsOnly (typedAmong operationTypes) (getDetailImage w p)) /\
     (forall p, throwsOnly (typedAmong operationTypes) (getDetailPetTour w p))) /\
    (forall e, typedAmong operationTypes e ->
               errorType_of e <> Some HTTP_ERROR /\
               errorType_of e <> Some PARSE_ERROR).
Proof.
  intros w Hjson. split.
  - split; [|split; [|split; [|split; [|split; [|split]]]]]; intros p.
    + unfold getAreaCode. dispatch_typed Hjson.
    + unfold getAreaBasedList. dispatch_typed Hjson.
    + unfold searchKeyword. destruct (blank (SearchKeywordParams.keyword p)).
      * validation_typed.
      * dispatch_typed Hjson.
    + unfold getDetailCommon. destruct (blank (DetailParams.contentId p)).
      * validation_typed.
      * dispatch_typed Hjson.
    + unfold getDetailIntro. destruct (blank (DetailIntroParams.contentId p)).
      * validation_typed.
      * destruct (blank (DetailIntroParams.contentTypeId p)).
        -- validation_typed.
        -- dispatch_typed Hjson.
    + unfold getDetailImage. destruct (blank (DetailImageParams.contentId p)).
      * validation_typed.
      * dispatch_typed Hjson.
    + unfold getDetailPetTour. destruct (blank (DetailParams.contentId p)).
      * validation_typed.
      * dispatch_typed Hjson.
  - intros e (t & Ht & Hin). rewrite Ht.
    unfold operationTypes in Hin. simpl in Hin.
    split; intros [= ->]; intuition discriminate.
Qed.

Lemma operations_throw_typed_witness :
  throwsOnly (typedAmong operationTypes)
    (getAreaBasedList htmlBody (AreaBasedListParams.mk None (Some "12") None None)).
Proof.
  destruct (operations_throw_typed htmlBody nativeJson_htmlBody) as ((_ & H & _) & _).
  apply H.
Defined.

(** An operation whose arguments are accepted does not end with a validation
    error. *)
Lemma dispatch_not_validation {A} w ep (mkUrl : Params -> Query)
  (k : TourAPIResponse (ItemOf ep) -> list (ItemOf ep) -> M A) message :
  nativeJson w ->
  (forall data items, throwsOnly (typedAmong [UNKNOWN_ERROR]) (k data items)) ->
  ~ throwsType
      (common <- getCommonParams w ;;
       try_catch
         (response <- fetchWithRetry w ep (mkUrl common) 0 ;;
          data <- settle (json response) ;;
          items <- parseAPIResponse w data ;;
          k data items)
         (rethrow message))
      VALIDATION_ERROR.
Proof.
  intros Hjson Hk (e & He & Ht).
  destruct (dispatch_throws_typed w ep mkUrl k message Hjson Hk e He)
    as (t & Ht' & Hin).
  rewrite Ht in Ht'. injection Ht' as <-. simpl in Hin.
  intuition discriminate.
Qed.

Ltac not_validation Hjson :=
  cbv zeta; apply dispatch_not_validation;
    [exact Hjson
    |intros data items;
     first [ apply firstOrThrow_throws
           | eapply throwsOnly_ok; reflexivity ]].

Ltac validation_iff Hjson :=
  split;
    [ let H := fresh in
      intros H; exfalso; revert H; not_validation Hjson
    | discriminate ].

(** X8.  When [response.json()] rejects with built-in errors only, an
    operation ends with an error of type [VALIDATION_ERROR] exactly when a
    required argument is missing, empty or made of white space; the two
    operations without a required argument never do. *)
Theorem validation_error_iff_blank :
  forall w,
    nativeJson w ->
    (forall p, ~ throwsType (getAreaCode w p) VALIDATION_ERROR) /\
    (forall p, ~ throwsType (getAreaBasedList w p) VALIDATION_ERROR) /\
    (forall p, throwsType (searchKeyword w p) VALIDATION_ERROR <->
               missing_or_blank (SearchKeywordParams.keyword p)) /\
    (forall p, throwsType (getDetailCommon w p) VALIDATION_ERROR <->
               missing_or_blank (DetailParams.contentId p)) /\
    (forall p, throwsType (getDetailIntro w p) VALIDATION_ERROR <->
               missing_or_blank (DetailIntroParams.contentId p) \/
               missing_or_blank (DetailIntroParams.contentTypeId p)) /\
    (forall p, throwsType (getDetailImage w p) VALIDATION_ERROR <->
               missing_or_blank (DetailImageParams.contentId p)) /\
    (forall p, throwsType (getDetailPetTour w p) VALIDATION_ERROR <->
               missing_or_blank (DetailParams.contentId p)).
Proof.
  intros w Hjson.
  split; [|split; [|split; [|split; [|split; [|split]]]]]; intros p.
  - unfold getAreaCode. not_validation Hjson.
  - unfold getAreaBasedList. not_validation Hjson.
  - rewrite <- blank_iff. unfold searchKeyword.
    destruct (blank (SearchKeywordParams.keyword p)).
    + split; [reflexivity|intros _; apply validation_throw].
    + validation_iff Hjson.
  - rewrite <- blank_iff. unfold getDetailCommon.
    destruct (blank (DetailParams.contentId p)).
    + split; [reflexivity|intros _; apply validation_throw].
    + validation_iff Hjson.
  - rewrite <- !blank_iff. unfold getDetailIntro.
    destruct (blank (DetailIntroParams.contentId p)).
    + split; [left; reflexivity|intros _; apply validation_throw].
    + destruct (blank (DetailIntroParams.contentTypeId p)).
      * split; [right; reflexivity|intros _; apply validation_throw].
      * split; [|intros [H|H]; discriminate H].
        intros H. exfalso. revert H. not_validation Hjson.
  - rewrite <- blank_iff. unfold getDetailImage.
    destruct (blank (DetailImageParams.contentId p)).
    + split; [reflexivity|intros _; apply validation_throw].
    + validation_iff Hjson.
  - rewrite <- blank_iff. unfold getDetailPetTour.
    destruct (blank (DetailParams.contentId p)).
    + split; [reflexivity|intros _; apply validation_throw].
    + validation_iff Hjson.
Qed.

Lemma validation_error_iff_blank_witness :
  ~ throwsType (searchKeyword htmlBody
                  (SearchKeywordParams.mk (Some " 서울 ") None None None None))
               VALIDATION_ERROR.
Proof.
  destruct (validation_error_iff_blank htmlBody nativeJson_htmlBody)
    as (_ & _ & H & _).
  intros Hthrow. apply H in Hthrow.
  apply blank_missing_or_blank in Hthrow.
  vm_compute in Hthrow. discriminate Hthrow.
Defined.

(** X9.  White space around the keyword or around an identifier does not
    reach the upstream: every request carries the trimmed value, and the run
    of the operation is the run on the trimmed argument. *)
Theorem surrounding_white_space_is_ignored :
  forall w,
    (forall k a c n pg,
       searchKeyword w (SearchKeywordParams.mk (Some k) a c n pg) =
       searchKeyword w (SearchKeywordParams.mk (Some (trim k)) a c n pg) /\
       requestsWith "keyword" (trim k)
         (searchKeyword w (SearchKeywordParams.mk (Some k) a c n pg))) /\
    (forall id,
       getDetailCommon w (DetailParams.mk (Some id)) =
       getDetailCommon w (DetailParams.mk (Some (trim id))) /\
       requestsWith "contentId" (trim id)
         (getDetailCommon w (DetailParams.mk (Some id)))) /\
    (forall id ty,
       getDetailIntro w (DetailIntroParams.mk (Some id) (Some ty)) =
       getDetailIntro w (DetailIntroParams.mk (Some (trim id)) (Some (trim ty))) /\
       requestsWith "contentId" (trim id)
         (getDetailIntro w (DetailIntroParams.mk (Some id) (Some ty))) /\
       requestsWith "contentTypeId" (trim ty)
         (getDetailIntro w (DetailIntroParams.mk (Some id) (Some ty)))) /\
    (forall id n pg,
       getDetailImage w (DetailImageParams.mk (Some id) n pg) =
       getDetailImage w (DetailImageParams.mk (Some (trim id)) n pg) /\
       requestsWith "contentId" (trim id)
         (getDetailImage w (DetailImageParams.mk (Some id) n pg))) /\
    (forall id,
       getDetailPetTour w (DetailParams.mk (Some id)) =
       getDetailPetTour w (DetailParams.mk (Some (trim id))) /\
       requestsWith "contentId" (trim id)
         (getDetailPetTour w (DetailParams.mk (Some id)))).
Proof.
  intros w.
  split; [|split; [|split; [|split]]].
  - intros k a c n pg. split.
    + unfold searchKeyword. cbn [SearchKeywordParams.keyword trimmed].
      rewrite blank_trim, trim_idempotent. reflexivity.
    + unfold searchKeyword.
      destruct (blank _); [apply requestsWith_log_throw|].
      apply requestsWith_bind; [apply requestsWith_getCommonParams|].
      intros common. cbv zeta.
      apply requestsWith_request; [|intros; reflexivity].
      apply (In_buildQueryString "keyword" (PStr (trim k))). simpl. tauto.
  - intros id. split.
    + unfold getDetailCommon. cbn [DetailParams.contentId trimmed].
      rewrite blank_trim, trim_idempotent. reflexivity.
    + unfold getDetailCommon.
      destruct (blank _); [apply requestsWith_log_throw|].
      apply requestsWith_bind; [apply requestsWith_getCommonParams|].
      intros common. cbv zeta.
      apply requestsWith_request; [|intros; apply trace_firstOrThrow].
      apply (In_buildQueryString "contentId" (PStr (trim id))). simpl. tauto.
  - intros id ty. split; [|split].
    + unfold getDetailIntro.
      cbn [DetailIntroParams.contentId DetailIntroParams.contentTypeId trimmed].
      rewrite !blank_trim, !trim_idempotent. reflexivity.
    + unfold getDetailIntro.
      destruct (blank _); [apply requestsWith_log_throw|].
      destruct (blank _); [apply requestsWith_log_throw|].
      apply requestsWith_bind; [apply requestsWith_getCommonParams|].
      intros common. cbv zeta.
      apply requestsWith_request; [|intros; apply trace_firstOrThrow].
      apply (In_buildQueryString "contentId" (PStr (trim id))). simpl. tauto.
    + unfold getDetailIntro.
      destruct (blank _); [apply requestsWith_log_throw|].
      destruct (blank _); [apply requestsWith_log_throw|].
      apply requestsWith_bind; [apply requestsWith_getCommonParams|].
      intros common. cbv zeta.
      apply requestsWith_request; [|intros; apply trace_firstOrThrow].
      apply (In_buildQueryString "contentTypeId" (PStr (trim ty))). simpl. tauto.
  - intros id n pg. split.
    + unfold getDetailImage. cbn [DetailImageParams.contentId trimmed].
      rewrite blank_trim, trim_idempotent. reflexivity.
    + unfold getDetailImage.
      destruct (blank _); [apply requestsWith_log_throw|].
      apply requestsWith_bind; [apply requestsWith_getCommonParams|].
      intros common. cbv zeta.
      apply requestsWith_request; [|intros; reflexivity].
      apply (In_buildQueryString "contentId" (PStr (trim id))). simpl. tauto.
  - intros id. split.
    + unfold getDetailPetTour. cbn [DetailParams.contentId trimmed].
      rewrite blank_trim, trim_idempotent. reflexivity.
    + unfold getDetailPetTour.
      destruct (blank _); [apply requestsWith_log_throw|].
      apply requestsWith_bind; [apply requestsWith_getCommonParams|].
      intros common. cbv zeta.
      apply requestsWith_request; [|intros; apply trace_firstOrThrow].
      apply (In_buildQueryString "contentId" (PStr (trim id))). simpl. tauto.
Qed.

(** ** How a listing is put together *)

Lemma parse_not_0000 {T} (w : World) (data : TourAPIResponse T) :
  resultCode (header data) <> "0000" ->
  exists e,
    outcome (parseAPIResponse w data) = Throw e /\
    instanceof_TourAPIError e = true /\
    typedAmong [API_KEY_INVALID; API_ERROR] e.
Proof.
  intros Hcode. unfold parseAPIResponse.
  apply String.eqb_neq in Hcode. rewrite Hcode. cbn [negb].
  match goal with
  | |- context [logError w ?err ?c ;;; throw ?err] =>
      destruct (@log_then_throw (list T) w err c) as (Ho & _); exists err
  end.
  split; [exact Ho|]. split; [reflexivity|].
  apply typedAmong_intro. destruct (_ || _); simpl; tauto.
Qed.

(** X10.  With a service key, the outcome of [getAreaBasedList] is made of
    the outcomes of the layers below it.  An error of the transport reaches
    the caller as it is.  A body that is not JSON is wrapped into a
    [TourAPIError] of type [UNKNOWN_ERROR] that keeps the cause.  An envelope
    whose [resultCode] is not ['0000'] gives the error of the parser, as it
    is.  Any other envelope gives the page: its items as an array, and the
    [totalCount], [numOfRows] and [pageNo] of the body, or 0, 10 and 1 where
    the body has none. *)
Theorem getAreaBasedList_outcome :
  forall w key p,
    serviceKeyOf w = Some key ->
    let transport := fetchWithRetry w areaBasedList2 (listingQuery key p) 0 in
    (forall e, outcome transport = Throw e ->
               outcome (getAreaBasedList w p) = Throw e) /\
    (forall response e,
       outcome transport = Ok response -> json response = Throw e ->
       instanceof_TourAPIError e = false ->
       outcome (getAreaBasedList w p) =
         Throw (TourAPIError "지역 기반 목록 조회 중 에러가 발생했습니다." None
                             (Some (as_Error e)) UNKNOWN_ERROR)) /\
    (forall response data,
       outcome transport = Ok response -> json response = Ok data ->
       resultCode (header data) <> "0000" ->
       exists e,
         outcome (parseAPIResponse w data) = Throw e /\
         outcome (getAreaBasedList w p) = Throw e) /\
    (forall response data,
       outcome transport = Ok response -> json response = Ok data ->
       resultCode (header data) = "0000" ->
       outcome (getAreaBasedList w p) = Ok (listingOf data)).
Proof.
  intros w key p Hkey transport.
  unfold getAreaBasedList. rewrite (getCommonParams_configured w key Hkey).
  rewrite bind_ret. cbv zeta.
  change (buildQueryString _) with (listingQuery key p). fold transport.
  set (body := response <- transport ;; _).
  split; [|split; [|split]].
  - intros e He.
    assert (Hbody : outcome body = Throw e) by (apply outcome_bind_throw; exact He).
    rewrite (outcome_try_throw _ _ e Hbody).
    apply outcome_rethrow_TourAPIError.
    apply (typedAmong_instance transportTypes).
    apply (throwsOnly_fetchWithRetry w areaBasedList2 (listingQuery key p) e He).
  - intros response e Hr Hj Hforeign.
    assert (Hbody : outcome body = Throw e).
    { unfold body. rewrite (outcome_bind_ok _ _ response Hr).
      unfold settle. rewrite Hj. reflexivity. }
    rewrite (outcome_try_throw _ _ e Hbody).
    unfold rethrow. rewrite Hforeign. reflexivity.
  - intros response data Hr Hj Hcode.
    destruct (parse_not_0000 w data Hcode) as (e & Hp & Hi & _).
    exists e. split; [exact Hp|].
    assert (Hbody : outcome body = Throw e).
    { unfold body. rewrite (outcome_bind_ok _ _ response Hr).
      unfold settle. rewrite Hj.
      rewrite (outcome_bind_ok (Ok data, []) _ data eq_refl).
      apply outcome_bind_throw. exact Hp. }
    rewrite (outcome_try_throw _ _ e Hbody).
    apply outcome_rethrow_TourAPIError. exact Hi.
  - intros response data Hr Hj Hcode.
    apply outcome_try_ok. unfold body.
    rewrite (outcome_bind_ok _ _ response Hr).
    unfold settle. rewrite Hj.
    rewrite (outcome_bind_ok (Ok data, []) _ data eq_refl).
    rewrite (parse_0000 w data Hcode). reflexivity.
Qed.

Lemma getAreaBasedList_outcome_witness :
  outcome (getAreaBasedList sampleUpstream
             (AreaBasedListParams.mk (Some "31") None (Some 1) (Some 1))) =
  Ok (TourListResponse.mk [[("contentid", "125266")]] 300 1 1).
Proof.
  destruct (getAreaBasedList_outcome sampleUpstream "key"
              (AreaBasedListParams.mk (Some "31") None (Some 1) (Some 1)) eq_refl)
    as (_ & _ & _ & H).
  apply (H (sampleListing
              (listingQuery "key"
                 (AreaBasedListParams.mk (Some "31") None (Some 1) (Some 1))))
           (mkEnvelope (mkHeader "0000" (Some "OK"))
              (Some (Body.mk (Some (OneItem [("contentid", "125266")]))
                             (Some 1) (Some 1) (Some 300))))).
  - vm_compute. reflexivity.
  - vm_compute. reflexivity.
  - reflexivity.
Defined.

(** ** The statistics as a whole *)

Lemma getRegionStats_outcome w :
  outcome (getRegionStats w) =
  match outcome (areaCodeLookup w) with
  | Ok areaCodes => Ok (regionStatsOf w areaCodes)
  | Throw e => Throw e
  end.
Proof.
  unfold getRegionStats. fold (areaCodeLookup w).
  set (body := areaCodes <- areaCodeLookup w ;; _).
  destruct (outcome (areaCodeLookup w)) as [areaCodes|e] eqn:E.
  - apply outcome_try_ok. unfold body. rewrite (outcome_bind_ok _ _ areaCodes E).
    destruct areaCodes as [|a rest]; [reflexivity|].
    cbn [List.length Nat.eqb]. rewrite outcome_allSettled_ret.
    rewrite successful_regions. reflexivity.
  - assert (Hbody : outcome body = Throw e) by (apply outcome_bind_throw; exact E).
    rewrite (outcome_try_throw _ _ e Hbody).
    apply outcome_rethrow_TourAPIError.
    apply (getAreaCode_throws w _ e E).
Qed.

Lemma getTypeStats_outcome w : outcome (getTypeStats w) = Ok (typeStatsOf w).
Proof.
  unfold getTypeStats. cbv zeta. apply outcome_try_ok.
  unfold allSettled, bind.
  rewrite successful_types, sumCounts_numberSum, map_map. cbn [TypeStats.count].
  unfold typeStatsOf. cbv zeta.
  destruct (numberSum (map snd (typeCountsOf w CONTENT_TYPE.values)) =? 0) eqn:E.
  - reflexivity.
  - unfold ret, outcome, fst. rewrite map_map. reflexivity.
Qed.

Lemma getStatsSummary_outcome_throw w e :
  outcome (getRegionStats w) = Throw e ->
  outcome (getStatsSummary w) = Throw e.
Proof.
  intros He. unfold getStatsSummary.
  set (body := both <- all2 (getRegionStats w) (getTypeStats w) ;; _).
  assert (Hbody : outcome body = Throw e).
  { unfold body. apply outcome_bind_throw. unfold all2.
    destruct (getRegionStats w) as [r t], (getTypeStats w) as [r' t'].
    simpl in *. rewrite He. reflexivity. }
  rewrite (outcome_try_throw _ _ e Hbody).
  apply outcome_rethrow_TourAPIError.
  apply (try_rethrow_throws _ _ e He).
Qed.

(** X11.  [getTypeStats] never fails, and [getRegionStats] and
    [getStatsSummary] fail exactly when the area-code lookup fails, with the
    error of that lookup: a failure of a count query, for a region or for a
    content type, never fails the statistics. *)
Theorem statistics_fail_with_the_lookup_only :
  forall w,
    (exists typeStats, outcome (getTypeStats w) = Ok typeStats) /\
    (forall e, outcome (getRegionStats w) = Throw e <->
               outcome (areaCodeLookup w) = Throw e) /\
    (forall e, outcome (getStatsSummary w) = Throw e <->
               outcome (areaCodeLookup w) = Throw e).
Proof.
  intros w.
  assert (Hregion : forall e, outcome (getRegionStats w) = Throw e <->
                              outcome (areaCodeLookup w) = Throw e).
  { intros e. rewrite getRegionStats_outcome.
    destruct (outcome (areaCodeLookup w));
      [split; discriminate|split; intros [= ->]; reflexivity]. }
  split; [exists (typeStatsOf w); apply getTypeStats_outcome|].
  split; [exact Hregion|].
  intros e. rewrite <- Hregion. split.
  - intros He.
    destruct (outcome (getRegionStats w)) as [regionStats|e'] eqn:E.
    + exfalso. unfold getStatsSummary in He.
      rewrite (outcome_try_ok _ _
                 (StatsSummary.mk
                    (sumCounts (typeStatsOf w))
                    (slice0 3 (sort (fun a b => RegionStats.count b - RegionStats.count a)
                                    regionStats))
                    (slice0 3 (sort (fun a b => TypeStats.count b - TypeStats.count a)
                                    (typeStatsOf w)))
                    (clock w))) in He; [discriminate He|].
      rewrite (outcome_bind_ok _ _ _
                 (all2_ok _ _ _ _ E (getTypeStats_outcome w))).
      reflexivity.
    + rewrite (getStatsSummary_outcome_throw w e' E) in He.
      injection He as <-. reflexivity.
  - apply getStatsSummary_outcome_throw.
Qed.

Lemma attempts_concat_zero (ts : list Trace) :
  Forall (fun t => attempts t = 0%nat) ts -> attempts (List.concat ts) = 0%nat.
Proof.
  induction 1 as [|t ts Ht _ IH]; [reflexivity|].
  simpl. rewrite attempts_app, Ht, IH. reflexivity.
Qed.

Lemma typeCountsOf_all_fail w ids :
  (forall id, exists e, outcome (getAreaBasedList w (typeParams id)) = Throw e) ->
  typeCountsOf w ids = [].
Proof.
  intros Hfail. induction ids as [|id rest IH]; [reflexivity|].
  unfold typeCountsOf. simpl. fold (typeCountsOf w rest).
  destruct (Hfail id) as (e & ->). exact IH.
Qed.

(** X12.  Without a service key the two statistics behave differently:
    [getRegionStats] and [getStatsSummary] fail with [API_KEY_MISSING], while
    [getTypeStats] returns an empty array, its eight count queries having
    failed one by one.  No call of [fetch] is made. *)
Theorem statistics_without_service_key :
  forall w,
    serviceKeyOf w = None ->
    throwsType (getRegionStats w) API_KEY_MISSING /\
    throwsType (getStatsSummary w) API_KEY_MISSING /\
    outcome (getTypeStats w) = Ok [] /\
    attempts (trace (getTypeStats w)) = 0%nat.
Proof.
  intros w Hkey.
  assert (Hlist : forall p, throwsType (getAreaBasedList w p) API_KEY_MISSING /\
                            attempts (trace (getAreaBasedList w p)) = 0%nat).
  { intros p. unfold getAreaBasedList. apply (dispatch_missing_key w _ Hkey). }
  assert (Hlookup : throwsType (areaCodeLookup w) API_KEY_MISSING).
  { unfold areaCodeLookup, getAreaCode. apply (dispatch_missing_key w _ Hkey). }
  destruct Hlookup as (e & He & Ht).
  assert (Hregion : outcome (getRegionStats w) = Throw e).
  { rewrite getRegionStats_outcome, He. reflexivity. }
  split; [exists e; split; [exact Hregion|exact Ht]|].
  split; [exists e; split; [apply getStatsSummary_outcome_throw, Hregion|exact Ht]|].
  assert (Hcounts : typeCountsOf w CONTENT_TYPE.values = []).
  { apply typeCountsOf_all_fail. intros id.
    destruct (Hlist (typeParams id)) as ((e' & He' & _) & _). exists e'. exact He'. }
  split.
  - rewrite getTypeStats_outcome. unfold typeStatsOf. rewrite Hcounts. reflexivity.
  - unfold getTypeStats. cbv zeta.
    set (body := results <- allSettled _ ;; _).
    assert (Hbody : outcome body = Ok []).
    { unfold body, allSettled, bind.
      rewrite successful_types, Hcounts. reflexivity. }
    rewrite (trace_try_ok _ _ _ Hbody). unfold body, allSettled, bind.
    rewrite successful_types, Hcounts. simpl.
    rewrite !attempts_app. simpl.
    repeat match goal with
    | |- context [trace (typeCallback w ?id)] =>
        rewrite (trace_typeCallback w id)
    end.
    unfold typeQueryTrace. rewrite !attempts_app.
    repeat match goal with
    | |- context [getAreaBasedList w (typeParams ?id)] =>
        let Ha := fresh "Ha" in
        let Ho := fresh "Ho" in
        let e' := fresh "e" in
        destruct (Hlist (typeParams id)) as ((e' & Ho & _) & Ha);
        rewrite Ha, Ho
    end.
    reflexivity.
Qed.

Lemma statistics_without_service_key_witness :
  throwsType (getStatsSummary noKey) API_KEY_MISSING /\
  outcome (getTypeStats noKey) = Ok [].
Proof.
  destruct (statistics_without_service_key noKey eq_refl) as (_ & Hs & Ht & _).
  split; assumption.
Defined.

(* ===================================================================== *)
(** * Properties of the page bar *)
(* ===================================================================== *)

Lemma range_nil first last : last < first -> range first last = [].
Proof.
  intros H. unfold range.
  replace (Z.to_nat (last - first + 1)) with 0%nat by lia. reflexivity.
Qed.

Lemma range_cons first last :
  first <= last -> range first last = first :: range (first + 1) last.
Proof.
  intros H. unfold range.
  replace (Z.to_nat (last - first + 1))
    with (S (Z.to_nat (last - (first + 1) + 1))) by lia.
  simpl. f_equal; [lia|].
  rewrite <- seq_shift, map_map. apply map_ext. intros k. lia.
Qed.

Lemma range_ind (P : Z -> Z -> Prop) :
  (forall first last, last < first -> P first last) ->
  (forall first last, first <= last -> P (first + 1) last -> P first last) ->
  forall first last, P first last.
Proof.
  intros Hnil Hcons first last.
  remember (Z.to_nat (last - first + 1)) as n eqn:Hn.
  revert first Hn. induction n as [|n IH]; intros first Hn.
  - apply Hnil. lia.
  - apply Hcons; [lia|]. apply IH. lia.
Qed.

Lemma In_range first last page :
  In page (range first last) <-> first <= page <= last.
Proof.
  revert page. pattern first, last. apply range_ind; clear first last.
  - intros first last H page. rewrite range_nil by exact H. simpl. lia.
  - intros first last H IH page. rewrite range_cons by exact H. simpl.
    rewrite IH. lia.
Qed.

Lemma range_increasing first last : StronglySorted Z.lt (range first last).
Proof.
  pattern first, last. apply range_ind; clear first last.
  - intros first last H. rewrite range_nil by exact H. constructor.
  - intros first last H IH. rewrite range_cons by exact H.
    constructor; [exact IH|].
    apply Forall_forall. intros page Hp. apply In_range in Hp. lia.
Qed.

Lemma length_range first last :
  List.length (range first last) = Z.to_nat (last - first + 1).
Proof. unfold range. rewrite length_map, length_seq. reflexivity. Qed.

Lemma pageNumbers_app (l1 l2 : list PageEntry) :
  pageNumbers (l1 ++ l2)%list = (pageNumbers l1 ++ pageNumbers l2)%list.
Proof.
  induction l1 as [|[page| |] l1 IH]; simpl; rewrite ?IH; reflexivity.
Qed.

Lemma pageNumbers_map (pages : list Z) :
  pageNumbers (map PageNumber pages) = pages.
Proof. induction pages as [|p pages IH]; simpl; [|rewrite IH]; reflexivity. Qed.

Lemma follows_range prev first last (rest : list PageEntry) :
  first = prev + 1 -> first <= last + 1 ->
  follows prev false (map PageNumber (range first last) ++ rest)%list =
  follows last false rest.
Proof.
  revert prev rest. pattern first, last. apply range_ind; clear first last.
  - intros first last H prev rest Hp Hle. rewrite range_nil by exact H. simpl.
    f_equal. lia.
  - intros first last H IH prev rest Hp _. rewrite range_cons by exact H. simpl.
    replace (first =? prev + 1) with true by lia. simpl.
    apply IH; lia.
Qed.

(** The window of five pages the bar shows when there are more than five:
    its first page. *)
Lemma getPageNumbers_window currentPage totalPages :
  5 < totalPages ->
  exists first,
    1 <= first /\ first + 4 <= totalPages /\
    (1 <= currentPage <= totalPages ->
     first <= Z.max 1 (currentPage - 1) /\
     Z.min totalPages (currentPage + 1) <= first + 4) /\
    getPageNumbers currentPage totalPages =
      ((if 1 <? first
        then PageNumber 1 :: (if 2 <? first then [EllipsisStart] else [])
        else []) ++
       map PageNumber (range first (first + 4)) ++
       (if first + 4 <? totalPages
        then (if first + 4 <? totalPages - 1 then [EllipsisEnd] else []) ++
             [PageNumber totalPages]
        else []))%list.
Proof.
  intros Hmany. unfold getPageNumbers.
  replace (totalPages <=? 5) with false by lia. cbv zeta.
  destruct (Z.min totalPages (currentPage + 2) - Z.max 1 (currentPage - 2) <? 5 - 1)
    eqn:Hnarrow.
  - destruct (Z.max 1 (currentPage - 2) =? 1) eqn:Hfirst; cbn [fst snd].
    + exists 1. replace (Z.max 1 (currentPage - 2)) with 1 by lia.
      replace (Z.min totalPages (1 + 5 - 1)) with (1 + 4) by lia.
      repeat split; try lia.
    + exists (totalPages - 4).
      replace (Z.min totalPages (currentPage + 2)) with totalPages by lia.
      replace (Z.max 1 (totalPages - 5 + 1)) with (totalPages - 4) by lia.
      replace (totalPages - 4 + 4) with totalPages by lia.
      repeat split; try lia.
  - cbn [fst snd]. exists (Z.max 1 (currentPage - 2)).
    replace (Z.min totalPages (currentPage + 2))
      with (Z.max 1 (currentPage - 2) + 4) by lia.
    repeat split; try lia.
Qed.

Lemma getPageNumbers_in_range currentPage totalPages page :
  1 <= totalPages ->
  In page (pageNumbers (getPageNumbers currentPage totalPages)) ->
  1 <= page <= totalPages.
Proof.
  intros Hpages Hin. destruct (Z.leb_spec totalPages 5) as [Hfew|Hmany].
  - unfold getPageNumbers in Hin.
    replace (totalPages <=? 5) with true in Hin by lia.
    rewrite pageNumbers_map in Hin. apply In_range in Hin. exact Hin.
  - destruct (getPageNumbers_window currentPage totalPages Hmany)
      as (first & Hlo & Hhi & _ & E).
    rewrite E, !pageNumbers_app, pageNumbers_map, !in_app_iff, In_range in Hin.
    destruct (Z.ltb_spec 1 first); destruct (Z.ltb_spec 2 first);
      destruct (Z.ltb_spec (first + 4) totalPages);
      destruct (Z.ltb_spec (first + 4) (totalPages - 1)); simpl in Hin; lia.
Qed.

(** X13.  For a number of pages and a current page that are safe integers,
    as are the two pages before and after the current one, the page bar of at
    least one page starts with page 1 and ends with the last page, its page
    numbers increase strictly and lie between 1 and the number of pages, they
    are seven at most, and a page is left out only behind an ellipsis: a
    number follows its predecessor at once, or after exactly one ellipsis
    when pages lie between them.  The current page, when it is a page, is
    shown together with the pages before and after it. *)
Theorem getPageNumbers_shows :
  forall currentPage totalPages,
    1 <= totalPages ->
    isSafeInteger totalPages ->
    isSafeInteger (currentPage - 2) ->
    isSafeInteger (currentPage + 2) ->
    let entries := getPageNumbers currentPage totalPages in
    (exists rest, entries = PageNumber 1 :: rest /\ follows 1 false rest = true) /\
    StronglySorted Z.lt (pageNumbers entries) /\
    (forall page, In page (pageNumbers entries) -> 1 <= page <= totalPages) /\
    In totalPages (pageNumbers entries) /\
    (List.length (pageNumbers entries) <= 7)%nat /\
    (forall page,
       1 <= currentPage <= totalPages -> 1 <= page <= totalPages ->
       currentPage - 1 <= page <= currentPage + 1 ->
       In page (pageNumbers entries)).
Proof.
  intros currentPage totalPages Hpages _ _ _ entries. subst entries.
  destruct (Z.leb_spec totalPages 5) as [Hfew|Hmany].
  - assert (E : getPageNumbers currentPage totalPages =
                map PageNumber (range 1 totalPages)).
    { unfold getPageNumbers. replace (totalPages <=? 5) with true by lia.
      reflexivity. }
    rewrite E, pageNumbers_map.
    split; [|split; [|split; [|split; [|split]]]].
    + rewrite range_cons by lia. simpl. eexists. split; [reflexivity|].
      rewrite <- (app_nil_r (map _ _)), follows_range by lia.
      reflexivity.
    + apply range_increasing.
    + intros page Hp. apply In_range in Hp. exact Hp.
    + apply In_range. lia.
    + rewrite length_range. lia.
    + intros page _ Hp _. apply In_range. exact Hp.
  - destruct (getPageNumbers_window currentPage totalPages Hmany)
      as (first & Hlo & Hhi & Hnear & E).
    rewrite E. clear E.
    assert (Hnums :
      forall page,
        In page
          (pageNumbers
             ((if 1 <? first
               then PageNumber 1 :: (if 2 <? first then [EllipsisStart] else [])
               else []) ++
              map PageNumber (range first (first + 4)) ++
              (if first + 4 <? totalPages
               then (if first + 4 <? totalPages - 1 then [EllipsisEnd] else []) ++
                    [PageNumber totalPages]
               else []))%list) <->
        (1 < first /\ page = 1) \/ first <= page <= first + 4 \/
        (first + 4 < totalPages /\ page = totalPages)).
    { intros page. rewrite !pageNumbers_app, pageNumbers_map, !in_app_iff, In_range.
      destruct (Z.ltb_spec 1 first); destruct (Z.ltb_spec 2 first);
        destruct (Z.ltb_spec (first + 4) totalPages);
        destruct (Z.ltb_spec (first + 4) (totalPages - 1)); simpl; lia. }
    split; [|split; [|split; [|split; [|split]]]].
    + destruct (Z.ltb_spec 1 first) as [H1|H1].
      * simpl. eexists. split; [reflexivity|].
        destruct (Z.ltb_spec 2 first) as [H2|H2]; simpl.
        -- replace (1 + 1 <? first) with true by lia.
           rewrite range_cons by lia. simpl.
           replace (1 + 1 <? first) with true by lia. simpl.
           rewrite follows_range by lia.
           destruct (Z.ltb_spec (first + 4) totalPages);
             destruct (Z.ltb_spec (first + 4) (totalPages - 1)); simpl; lia.
        -- rewrite follows_range by lia.
           destruct (Z.ltb_spec (first + 4) totalPages);
             destruct (Z.ltb_spec (first + 4) (totalPages - 1)); simpl; lia.
      * assert (first = 1) by lia. subst first.
        change (range 1 (1 + 4)) with [1; 2; 3; 4; 5].
        eexists. split; [reflexivity|].
        destruct (Z.ltb_spec (1 + 4) totalPages);
          destruct (Z.ltb_spec (1 + 4) (totalPages - 1)); simpl; lia.
    + rewrite !pageNumbers_app, pageNumbers_map.
      assert (Htail :
        StronglySorted Z.lt
          (range first (first + 4) ++
           pageNumbers
             (if first + 4 <? totalPages
              then (if first + 4 <? totalPages - 1 then [EllipsisEnd] else []) ++
                   [PageNumber totalPages]
              else []))%list).
      { assert (Hadd : forall l x, StronglySorted Z.lt l ->
                  (forall y, In y l -> y < x) ->
                  StronglySorted Z.lt (l ++ [x])%list).
        { intros l x Hl. induction Hl as [|a l Hl IH Ha]; intros Hx; simpl.
          - constructor; constructor.
          - constructor.
            + apply IH. intros y Hy. apply Hx. right. exact Hy.
            + apply Forall_app. split; [exact Ha|].
              constructor; [|constructor]. apply Hx. left. reflexivity. }
        destruct (Z.ltb_spec (first + 4) totalPages);
          destruct (Z.ltb_spec (first + 4) (totalPages - 1)); simpl;
          rewrite ?app_nil_r; try apply range_increasing;
          (apply Hadd; [apply range_increasing|];
           intros y Hy; apply In_range in Hy; lia). }
      destruct (Z.ltb_spec 1 first); [|exact Htail].
      assert (Hone : forall l, StronglySorted Z.lt l ->
                (forall y, In y l -> 1 < y) -> StronglySorted Z.lt (1 :: l)).
      { intros l Hl Hy. constructor; [exact Hl|]. apply Forall_forall. exact Hy. }
      assert (Hall : forall y,
        In y (range first (first + 4) ++
              pageNumbers
                (if first + 4 <? totalPages
                 then (if first + 4 <? totalPages - 1 then [EllipsisEnd] else []) ++
                      [PageNumber totalPages]
                 else []))%list -> 1 < y).
      { intros y Hy. apply in_app_iff in Hy. destruct Hy as [Hy|Hy].
        - apply In_range in Hy. lia.
        - destruct (Z.ltb_spec (first + 4) totalPages);
            destruct (Z.ltb_spec (first + 4) (totalPages - 1));
            simpl in Hy; lia. }
      destruct (Z.ltb_spec 2 first); simpl; apply Hone; assumption.
    + intros page Hp. apply Hnums in Hp. lia.
    + apply Hnums. lia.
    + rewrite !pageNumbers_app, pageNumbers_map, !length_app, length_range.
      destruct (Z.ltb_spec 1 first); destruct (Z.ltb_spec 2 first);
        destruct (Z.ltb_spec (first + 4) totalPages);
        destruct (Z.ltb_spec (first + 4) (totalPages - 1)); simpl; lia.
    + intros page Hcur Hpage Hpages'. apply Hnums.
      specialize (Hnear Hcur). lia.
Qed.

Lemma getPageNumbers_shows_witness :
  In 20 (pageNumbers (getPageNumbers 7 20)) /\
  forall page, In page (pageNumbers (getPageNumbers 7 20)) -> 1 <= page <= 20.
Proof.
  destruct (getPageNumbers_shows 7 20) as (_ & _ & Hin & Hlast & _);
    [lia|unfold isSafeInteger; lia..|].
  split; [exact Hlast|exact Hin].
Defined.

(** The bar of twenty pages on page 7. *)
Example getPageNumbers_7_of_20 :
  getPageNumbers 7 20 =
    [PageNumber 1; EllipsisStart; PageNumber 5; PageNumber 6; PageNumber 7;
     PageNumber 8; PageNumber 9; EllipsisEnd; PageNumber 20].
Proof. reflexivity. Qed.

(** X14.  On a bar whose current page is one of its pages, the second page
    after the last one still being a safe integer, a click or a key on a page
    button, the previous button or the next button changes the page
    only to a page between 1 and the number of pages that is not the current
    one; the key of a button that is not the current page's moves with Enter
    and the space bar only.  Every button of the bar works: a click, or
    Enter, on a page number shown that is not the current page changes the
    page to that number. *)
Theorem pagination_stays_in_range :
  forall currentPage totalPages,
    1 <= currentPage <= totalPages ->
    isSafeInteger (totalPages + 2) ->
    let reachable (change : option Z) :=
      forall page, change = Some page ->
                   1 <= page <= totalPages /\ page <> currentPage in
    reachable (handlePrevious currentPage totalPages) /\
    reachable (handleNext currentPage totalPages) /\
    (forall page, reachable (handlePageClick currentPage totalPages page)) /\
    (forall key page, reachable (handleKeyDown currentPage totalPages key page)) /\
    (forall key page,
       page <> currentPage -> key <> "Enter" -> key <> " " ->
       handleKeyDown currentPage totalPages key page = None) /\
    (forall page,
       In page (pageNumbers (getPageNumbers currentPage totalPages)) ->
       page <> currentPage ->
       handlePageClick currentPage totalPages page = Some page /\
       handleKeyDown currentPage totalPages "Enter" page = Some page).
Proof.
  intros currentPage totalPages Hcur _ reachable. subst reachable. cbv beta.
  assert (Hprev : forall page, handlePrevious currentPage totalPages = Some page ->
                    1 <= page <= totalPages /\ page <> currentPage).
  { unfold handlePrevious. intros page.
    destruct (Z.ltb_spec 1 currentPage); intros [= <-]. lia. }
  assert (Hnext : forall page, handleNext currentPage totalPages = Some page ->
                    1 <= page <= totalPages /\ page <> currentPage).
  { unfold handleNext. intros page.
    destruct (Z.ltb_spec currentPage totalPages); intros [= <-]. lia. }
  assert (Hclick : forall target page,
            handlePageClick currentPage totalPages target = Some page ->
            1 <= page <= totalPages /\ page <> currentPage).
  { unfold handlePageClick. intros target page.
    destruct (Z.leb_spec 1 target); destruct (Z.leb_spec target totalPages);
      destruct (Z.eqb_spec target currentPage); simpl; intros [= <-]. lia. }
  split; [exact Hprev|]. split; [exact Hnext|]. split; [exact Hclick|].
  split; [|split].
  - intros key target page. unfold handleKeyDown.
    destruct (String.eqb key "Enter" || String.eqb key " ");
      [apply Hclick|].
    destruct (String.eqb key "ArrowLeft" && (target =? currentPage));
      [apply Hprev|].
    destruct (String.eqb key "ArrowRight" && (target =? currentPage));
      [apply Hnext|discriminate].
  - intros key page Hpage Henter Hspace. unfold handleKeyDown.
    apply String.eqb_neq in Henter, Hspace. rewrite Henter, Hspace. simpl.
    replace (page =? currentPage) with false by lia.
    rewrite !andb_false_r. reflexivity.
  - intros page Hshown Hother.
    assert (Hrange : 1 <= page <= totalPages).
    { apply (getPageNumbers_in_range currentPage); [lia|exact Hshown]. }
    assert (Hgo : handlePageClick currentPage totalPages page = Some page).
    { unfold handlePageClick.
      replace (1 <=? page) with true by lia.
      replace (page <=? totalPages) with true by lia.
      replace (page =? currentPage) with false by lia. reflexivity. }
    split; [exact Hgo|]. unfold handleKeyDown. simpl. exact Hgo.
Qed.

Lemma pagination_stays_in_range_witness :
  (forall page, handleKeyDown 3 8 "ArrowRight" 3 = Some page ->
                1 <= page <= 8 /\ page <> 3) /\
  handleKeyDown 3 8 "ArrowRight" 5 = None.
Proof.
  destruct (pagination_stays_in_range 3 8) as (_ & _ & _ & Hkey & Hother);
    [lia|unfold isSafeInteger; lia|].
  split; [apply Hkey|apply Hother; [lia|discriminate|discriminate]].
Defined.

(* ===================================================================== *)
(** * Properties of the address lookup *)
(* ===================================================================== *)

Lemma prefix_beginsWith p s : prefix p s = true <-> beginsWith p s.
Proof.
  revert s. induction p as [|a p IH]; intros s; simpl.
  - split; [intros _; exists s; reflexivity|destruct s; reflexivity].
  - destruct s as [|b s].
    + split; [discriminate|intros (rest & H); discriminate H].
    + simpl. destruct (Ascii.ascii_dec a b) as [->|Hab].
      * rewrite IH. split; intros (rest & H); exists rest.
        -- simpl. rewrite H. reflexivity.
        -- simpl in H. injection H as H. exact H.
      * split; [discriminate|].
        intros (rest & H). simpl in H. injection H as H _. congruence.
Qed.

Lemma includes_occursIn s sub : includes s sub = true <-> occursIn sub s.
Proof.
  induction s as [|a s IH]; cbn [includes].
  - rewrite orb_false_r, prefix_beginsWith. split.
    + intros (rest & H). exists "", rest. exact H.
    + intros (before & after & H). destruct before; [|discriminate H].
      exists after. exact H.
  - rewrite orb_true_iff, prefix_beginsWith, IH. split.
    + intros [(rest & H)|(before & after & H)].
      * exists "", rest. exact H.
      * exists (String a before), after. simpl. rewrite H. reflexivity.
    + intros (before & after & H). destruct before as [|b before].
      * left. exists after. exact H.
      * right. simpl in H. injection H as _ H. exists before, after. exact H.
Qed.

Lemma includes_false s sub : includes s sub = false <-> ~ occursIn sub s.
Proof.
  rewrite <- includes_occursIn. destruct (includes s sub); split;
    congruence.
Qed.

Lemma firstRegionIn_first address entries :
  (firstRegionIn address entries = "" /\
   forall region code, In (region, code) entries -> ~ occursIn region address) \/
  (exists before region code after,
     entries = (before ++ (region, code) :: after)%list /\
     occursIn region address /\
     (forall r c, In (r, c) before -> ~ occursIn r address) /\
     firstRegionIn address entries = code).
Proof.
  induction entries as [|[region code] entries IH]; simpl.
  - left. split; [reflexivity|]. intros region code [].
  - destruct (includes address region) eqn:E.
    + right. exists [], region, code, entries.
      split; [reflexivity|]. split; [apply includes_occursIn, E|].
      split; [intros r c []|reflexivity].
    + apply includes_false in E. destruct IH as [(H0 & Hnone)|Hsome].
      * left. split; [exact H0|].
        intros r c [[= <- <-]|Hin]; [exact E|exact (Hnone r c Hin)].
      * right. destruct Hsome as (before & r & c & after & -> & Hocc & Hbefore & Hc).
        exists ((region, code) :: before), r, c, after.
        split; [reflexivity|]. split; [exact Hocc|]. split; [|exact Hc].
        intros r' c' [[= <- <-]|Hin]; [exact E|exact (Hbefore r' c' Hin)].
Qed.

Lemma extractAreaCodeFromAddress_table address :
  extractAreaCodeFromAddress address = firstRegionIn address areaMap.
Proof.
  unfold extractAreaCodeFromAddress.
  destruct (String.eqb_spec address "") as [->|_]; reflexivity.
Qed.

Lemma areaMap_codes region code : In (region, code) areaMap -> code <> "".
Proof.
  unfold areaMap. simpl. intros H.
  repeat (destruct H as [[= <- <-]|H]; [discriminate|]). destruct H.
Qed.

(** X15.  The area code taken from an address is empty exactly when none of
    the seventeen regions of the table occurs in the address; otherwise it is
    the code of the first region of the table, in the order of the table, that
    occurs somewhere in the address, wherever the other regions occur. *)
Theorem extractAreaCodeFromAddress_first_region :
  forall address,
    (extractAreaCodeFromAddress address = "" <->
     forall region code, In (region, code) areaMap -> ~ occursIn region address) /\
    (extractAreaCodeFromAddress address <> "" ->
     exists before region after,
       areaMap =
         (before ++ (region, extractAreaCodeFromAddress address) :: after)%list /\
       occursIn region address /\
       forall r c, In (r, c) before -> ~ occursIn r address).
Proof.
  intros address. rewrite extractAreaCodeFromAddress_table.
  destruct (firstRegionIn_first address areaMap)
    as [(H0 & Hnone)|(before & region & code & after & Hmap & Hocc & Hbefore & Hc)].
  - split; [split; [intros _; exact Hnone|intros _; exact H0]|].
    intros H. contradiction.
  - assert (Hcode : code <> "").
    { apply (areaMap_codes region). rewrite Hmap. apply in_elt. }
    split.
    + split.
      * intros H. rewrite Hc in H. contradiction.
      * intros Hnone. exfalso. apply (Hnone region code); [|exact Hocc].
        rewrite Hmap. apply in_elt.
    + intros _. exists before, region, after. rewrite Hc.
      split; [exact Hmap|]. split; [exact Hocc|exact Hbefore].
Qed.

(** The order of the table decides, not the order in the address: 광주 (5)
    stands before 경기 (31) in the table. *)
Example extractAreaCodeFromAddress_table_order :
  extractAreaCodeFromAddress "경기도 광주시 오포읍" = "5" /\
  extractAreaCodeFromAddress "서울특별시 종로구" = "1" /\
  extractAreaCodeFromAddress "Seoul" = "".
Proof. repeat split; vm_compute; reflexivity. Qed.

(* ===================================================================== *)
(** * Properties of the image helpers *)
(* ===================================================================== *)

Lemma startsWith_beginsWith s p : startsWith s p = true <-> beginsWith p s.
Proof. apply prefix_beginsWith. Qed.

Lemma normalizeImageUrl_cases url fallback :
  normalizeImageUrl url fallback = fallback \/
  (exists u, url = Some u /\ trim u <> "" /\
             (beginsWith "http://" (trim u) \/ beginsWith "https://" (trim u)) /\
             normalizeImageUrl url fallback = Some (trim u)) \/
  (exists u rest, url = Some u /\ trim u = String "/" rest /\
                  normalizeImageUrl url fallback =
                    Some ("https://tong.visitkorea.or.kr" ++ trim u)).
Proof.
  unfold normalizeImageUrl. destruct url as [u|]; [|left; reflexivity].
  destruct (String.eqb u "" || String.eqb (trim u) "" || String.eqb u "null" ||
            String.eqb u "undefined") eqn:Hguard; [left; reflexivity|].
  rewrite !orb_false_iff in Hguard. destruct Hguard as (((_ & Hblank) & _) & _).
  apply String.eqb_neq in Hblank.
  destruct (startsWith (trim u) "http://" || startsWith (trim u) "https://") eqn:Habs.
  - right. left. exists u. split; [reflexivity|]. split; [exact Hblank|].
    split; [|reflexivity].
    apply orb_true_iff in Habs. rewrite !startsWith_beginsWith in Habs. exact Habs.
  - destruct (startsWith (trim u) "/") eqn:Hslash; [|left; reflexivity].
    right. right. apply startsWith_beginsWith in Hslash.
    destruct Hslash as (rest & Hrest). exists u, rest.
    split; [reflexivity|]. split; [exact Hrest|reflexivity].
Qed.

Lemma strip_fixed_head b a r :
  strip b (String a r) = String a r ->
  ws1 a = false /\
  (forall c r2, r = String c r2 ->
     (if b then ws2 c a else ws2 a c) = false /\
     (forall d r3, r2 = String d r3 ->
        (if b then ws3 d c a else ws3 a c d) = false)).
Proof.
  intros H.
  assert (Hshort : forall r', strip b r' = String a r ->
                     (String.length r' <= String.length r)%nat -> False).
  { intros r' Hr Hlen. pose proof (length_strip b r') as Hl.
    rewrite Hr in Hl. simpl in Hl. lia. }
  simpl in H. destruct (ws1 a); [exfalso; apply (Hshort r H); lia|].
  split; [reflexivity|]. intros c r2 ->.
  destruct (if b then ws2 c a else ws2 a c);
    [exfalso; apply (Hshort r2 H); simpl; lia|].
  split; [reflexivity|]. intros d r3 ->.
  destruct (if b then ws3 d c a else ws3 a c d);
    [exfalso; apply (Hshort r3 H); simpl; lia|reflexivity].
Qed.

Lemma trimEnd_fixed t : trimEnd t = t -> strip true (reverse t) = reverse t.
Proof.
  unfold trimEnd. intros H.
  rewrite <- (reverse_involutive (strip true (reverse t))), H. reflexivity.
Qed.

(** The address of the image host followed by a trimmed path is trimmed. *)
Lemma trim_host_path rest :
  trim (String "/" rest) = String "/" rest ->
  trim ("https://tong.visitkorea.or.kr" ++ String "/" rest) =
  ("https://tong.visitkorea.or.kr" ++ String "/" rest)%string.
Proof.
  intros Ht.
  pose proof (trim_no_trailing_space (String "/" rest)) as Hend.
  rewrite Ht in Hend.
  apply trimEnd_fixed in Hend. rewrite reverse_cons in Hend.
  unfold trim. change (trimStart ("https://tong.visitkorea.or.kr" ++ String "/" rest))
    with ("https://tong.visitkorea.or.kr" ++ String "/" rest)%string.
  unfold trimEnd.
  assert (Hfix :
    strip true (reverse ("https://tong.visitkorea.or.kr" ++ String "/" rest)) =
    reverse ("https://tong.visitkorea.or.kr" ++ String "/" rest)).
  { rewrite reverse_append, reverse_cons.
    change (reverse "https://tong.visitkorea.or.kr")
      with "rk.ro.aeroktisiv.gnot//:sptth".
    destruct (reverse rest) as [|c [|d y]].
    - reflexivity.
    - apply strip_fixed_head in Hend. destruct Hend as (Hc & _).
      simpl. rewrite Hc. reflexivity.
    - pose proof Hend as Hhead. apply strip_fixed_head in Hhead.
      destruct Hhead as (Hc & Hrest).
      destruct (Hrest d (y ++ "/")%string eq_refl) as (Hd & Hthird).
      destruct y as [|e y].
      + simpl. rewrite Hc. simpl in Hd. rewrite Hd. reflexivity.
      + specialize (Hthird e (y ++ "/")%string eq_refl).
        simpl. rewrite Hc. simpl in Hd. rewrite Hd. simpl in Hthird.
        rewrite Hthird. reflexivity. }
  rewrite Hfix. apply reverse_involutive.
Qed.

Lemma normalizeImageUrl_fixed s fallback :
  trim s = s ->
  beginsWith "http://" s \/ beginsWith "https://" s ->
  normalizeImageUrl (Some s) fallback = Some s.
Proof.
  intros Ht Habs. unfold normalizeImageUrl. rewrite Ht. clear Ht.
  destruct Habs as [(rest & ->)|(rest & ->)]; destruct rest; reflexivity.
Qed.

Lemma normalizeImageUrl_guard u :
  trim u <> "" -> u <> "null" -> u <> "undefined" ->
  (String.eqb u "" || String.eqb (trim u) "" || String.eqb u "null" ||
   String.eqb u "undefined") = false.
Proof.
  intros Ht Hnull Hundefined.
  assert (Hu : u <> "") by (intros ->; apply Ht; reflexivity).
  apply String.eqb_neq in Ht, Hnull, Hundefined, Hu.
  rewrite Ht, Hnull, Hundefined, Hu. reflexivity.
Qed.

(** X16.  [normalizeImageUrl] is decided by the address without the white
    space around it: an address that starts with [/] is completed to
    [https://tong.visitkorea.or.kr/...], one that starts with [http://] or
    [https://] is returned trimmed, and any other address, a missing one
    included, gives the fallback.  The result is therefore the fallback or an
    absolute address: a string that starts with [http://] or [https://], has
    no white space around it, and that [normalizeImageUrl] leaves as it
    is. *)
Theorem normalizeImageUrl_absolute :
  forall url fallback,
    (forall u,
       url = Some u -> beginsWith "/" (trim u) ->
       normalizeImageUrl url fallback =
         Some ("https://tong.visitkorea.or.kr" ++ trim u)) /\
    (forall u,
       url = Some u ->
       beginsWith "http://" (trim u) \/ beginsWith "https://" (trim u) ->
       normalizeImageUrl url fallback = Some (trim u)) /\
    (url = None -> normalizeImageUrl url fallback = fallback) /\
    (forall u,
       url = Some u ->
       ~ beginsWith "/" (trim u) -> ~ beginsWith "http://" (trim u) ->
       ~ beginsWith "https://" (trim u) ->
       normalizeImageUrl url fallback = fallback) /\
    (normalizeImageUrl url fallback = fallback \/
     exists s,
       normalizeImageUrl url fallback = Some s /\
       (beginsWith "http://" s \/ beginsWith "https://tong.visitkorea.or.kr/" s \/
        (beginsWith "https://" s /\ exists u, url = Some u /\ s = trim u)) /\
       trim s = s /\
       normalizeImageUrl (Some s) fallback = Some s).
Proof.
  intros url fallback.
  assert (Hnull : trim "null" = "null") by reflexivity.
  assert (Hundefined : trim "undefined" = "undefined") by reflexivity.
  split; [|split; [|split; [|split]]].
  - intros u -> (rest & Hrest). unfold normalizeImageUrl.
    rewrite normalizeImageUrl_guard.
    + cbv zeta. rewrite Hrest. destruct rest; reflexivity.
    + rewrite Hrest. discriminate.
    + intros ->. rewrite Hnull in Hrest. discriminate Hrest.
    + intros ->. rewrite Hundefined in Hrest. discriminate Hrest.
  - intros u -> Habs. unfold normalizeImageUrl.
    rewrite normalizeImageUrl_guard.
    + cbv zeta.
      replace (startsWith (trim u) "http://" || startsWith (trim u) "https://")
        with true; [reflexivity|].
      symmetry. apply orb_true_iff. rewrite !startsWith_beginsWith. exact Habs.
    + destruct Habs as [(rest & ->)|(rest & ->)]; discriminate.
    + intros ->. rewrite Hnull in Habs.
      destruct Habs as [(rest & H)|(rest & H)]; discriminate H.
    + intros ->. rewrite Hundefined in Habs.
      destruct Habs as [(rest & H)|(rest & H)]; discriminate H.
  - intros ->. reflexivity.
  - intros u -> Hslash Hhttp Hhttps.
    destruct (normalizeImageUrl_cases (Some u) fallback)
      as [E|[(u' & Hu & _ & Habs & _)|(u' & rest & Hu & Hrest & _)]].
    + exact E.
    + injection Hu as <-. destruct Habs as [H|H]; [destruct (Hhttp H)|destruct (Hhttps H)].
    + injection Hu as <-. destruct Hslash. exists rest. exact Hrest.
  - destruct (normalizeImageUrl_cases url fallback)
      as [E|[(u & Hu & _ & Habs & E)|(u & rest & _ & Hrest & E)]].
    + left. exact E.
    + right. exists (trim u). split; [exact E|].
      split; [destruct Habs as [H|H]; [left; exact H|right; right; eauto]|].
      split; [apply trim_idempotent|].
      apply normalizeImageUrl_fixed; [apply trim_idempotent|exact Habs].
    + right. exists ("https://tong.visitkorea.or.kr" ++ trim u)%string.
      split; [exact E|].
      assert (Ht : trim ("https://tong.visitkorea.or.kr" ++ trim u) =
                   ("https://tong.visitkorea.or.kr" ++ trim u)%string).
      { pose proof (trim_idempotent u) as Hi. rewrite Hrest in Hi |- *.
        apply trim_host_path, Hi. }
      split; [right; left; rewrite Hrest; eexists; reflexivity|].
      split; [exact Ht|].
      apply normalizeImageUrl_fixed; [exact Ht|].
      right. eexists. reflexivity.
Qed.

Lemma normalizeImageUrl_absolute_witness :
  normalizeImageUrl (Some " /cms/resource/21/photo.jpg ") None =
    Some "https://tong.visitkorea.or.kr/cms/resource/21/photo.jpg" /\
  normalizeImageUrl (Some "photo.jpg") (Some "/placeholder.png") =
    Some "/placeholder.png".
Proof.
  destruct (normalizeImageUrl_absolute (Some " /cms/resource/21/photo.jpg ") None)
    as (Hslash & _).
  destruct (normalizeImageUrl_absolute (Some "photo.jpg") (Some "/placeholder.png"))
    as (_ & _ & _ & Hother & _).
  split.
  - apply (Hslash " /cms/resource/21/photo.jpg "); [reflexivity|].
    exists "cms/resource/21/photo.jpg". reflexivity.
  - apply (Hother "photo.jpg"); [reflexivity|..];
      intros (rest & H); vm_compute in H; discriminate H.
Defined.

(** X17.  The props of an image always have a source: [src] is never empty.
    The image is marked [unoptimized] exactly when its source starts with
    [http://].  With the default fallback the source is an absolute
    [http://] or [https://] address.  [width] and [height] are set together
    or not at all, and never together with [fill]; [sizes] is never the
    empty string. *)
Theorem getImageProps_source :
  forall url alt options,
    let props := getImageProps url alt options in
    ImageProps.src props <> "" /\
    (ImageProps.unoptimized props = Some true <->
     beginsWith "http://" (ImageProps.src props)) /\
    (ImageProps.unoptimized props = None <->
     ~ beginsWith "http://" (ImageProps.src props)) /\
    (ImageOptions.fallback options = None ->
     beginsWith "http://" (ImageProps.src props) \/
     beginsWith "https://" (ImageProps.src props)) /\
    (ImageProps.fill props = Some true ->
     ImageProps.width props = None /\ ImageProps.height props = None) /\
    (ImageProps.width props = None <-> ImageProps.height props = None) /\
    ImageProps.sizes props <> Some "".
Proof.
  intros url alt [layout customSizes priority fill width height fallback] props.
  subst props. unfold getImageProps. cbn [ImageOptions.layout
    ImageOptions.customSizes ImageOptions.priority ImageOptions.fill
    ImageOptions.width ImageOptions.height ImageOptions.fallback
    ImageProps.src ImageProps.unoptimized ImageProps.fill ImageProps.width
    ImageProps.height ImageProps.sizes].
  set (fb := match fallback with Some f => f | None => Some DEFAULT_PLACEHOLDER_IMAGE end).
  assert (Hdefault : ~ beginsWith "http://" DEFAULT_PLACEHOLDER_IMAGE).
  { intros (rest & H). discriminate H. }
  assert (Hsecure : beginsWith "https://" DEFAULT_PLACEHOLDER_IMAGE).
  { eexists. reflexivity. }
  assert (Hsrc :
    forall n : option string,
      (if falsy_string n then DEFAULT_PLACEHOLDER_IMAGE else string_or_empty n) <> "" /\
      ((if isHttpImage n then Some true else None) = Some true <->
       beginsWith "http://"
         (if falsy_string n then DEFAULT_PLACEHOLDER_IMAGE else string_or_empty n)) /\
      ((if isHttpImage n then Some true else None) = None <->
       ~ beginsWith "http://"
         (if falsy_string n then DEFAULT_PLACEHOLDER_IMAGE else string_or_empty n))).
  { intros [[|a s]|]; cbn [falsy_string string_or_empty isHttpImage String.eqb].
    - simpl. split; [discriminate|]. split; split; try discriminate; tauto.
    - assert (E : falsy_string (Some (String a s)) = false) by reflexivity.
      simpl falsy_string. simpl string_or_empty.
      change (isHttpImage (Some (String a s)))
        with (startsWith (String a s) "http://").
      split; [discriminate|].
      destruct (startsWith (String a s) "http://") eqn:Hs.
      + apply startsWith_beginsWith in Hs.
        split; split; try discriminate; try tauto; reflexivity.
      + assert (Hn : ~ beginsWith "http://" (String a s)).
        { intros H. apply startsWith_beginsWith in H. congruence. }
        split; split; try discriminate; try tauto; reflexivity.
    - simpl. split; [discriminate|]. split; split; try discriminate; tauto. }
  destruct (Hsrc (normalizeImageUrl url fb)) as (Hne & Hhttp & Hnone).
  split; [exact Hne|]. split; [exact Hhttp|]. split; [exact Hnone|].
  split; [|split; [|split]].
  - intros ->. subst fb.
    destruct (normalizeImageUrl_cases url (Some DEFAULT_PLACEHOLDER_IMAGE))
      as [E|[(u & _ & Hblank & Habs & E)|(u & rest & _ & _ & E)]]; rewrite E.
    + right. exact Hsecure.
    + destruct (trim u) as [|a s]; [contradiction|]. exact Habs.
    + right. eexists. reflexivity.
  - destruct (match fill with Some b => b | None => false end); [tauto|discriminate].
  - destruct (match fill with Some b => b | None => false end); [tauto|].
    destruct width as [width|], height as [height|]; simpl;
      try (destruct (width =? 0)); try (destruct (height =? 0)); simpl;
      split; intros H; try discriminate H; reflexivity.
  - destruct (negb (layout_eqb_custom
                      match layout with Some l => l | None => card end)) eqn:Hl.
    + destruct (match layout with Some l => l | None => card end);
        simpl; discriminate.
    + destruct customSizes as [[|? ?]|]; simpl; discriminate.
Qed.

(* ===================================================================== *)
(** * Properties of the query parameters *)
(* ===================================================================== *)

Module URLSearchParamsFacts.
Import URLSearchParams.

Lemma getAll_delete name other params :
  getAll other (delete name params) =
  if String.eqb other name then [] else getAll other params.
Proof.
  unfold getAll, delete. induction params as [|[k v] params IH]; simpl.
  - destruct (String.eqb other name); reflexivity.
  - destruct (String.eqb_spec k name) as [->|Hk]; simpl.
    + rewrite IH. destruct (String.eqb_spec name other) as [->|Hn].
      * rewrite String.eqb_refl. reflexivity.
      * destruct (String.eqb_spec other name); [congruence|reflexivity].
    + destruct (String.eqb_spec k other) as [->|Ho]; simpl; rewrite IH.
      * destruct (String.eqb_spec other name); [congruence|reflexivity].
      * destruct (String.eqb other name); reflexivity.
Qed.

Lemma getAll_cons k v other params :
  getAll other ((k, v) :: params) =
  ((if String.eqb k other then [v] else []) ++ getAll other params)%list.
Proof. unfold getAll. simpl. destruct (String.eqb k other); reflexivity. Qed.

Lemma getAll_set name value other params :
  getAll other (set name value params) =
  if String.eqb other name then [value] else getAll other params.
Proof.
  induction params as [|[k v] params IH]; simpl.
  - rewrite getAll_cons, (String.eqb_sym name other).
    destruct (String.eqb other name); reflexivity.
  - destruct (String.eqb_spec k name) as [->|Hk].
    + rewrite !getAll_cons, getAll_delete, (String.eqb_sym name other).
      destruct (String.eqb other name); reflexivity.
    + rewrite !getAll_cons, IH.
      destruct (String.eqb_spec other name) as [->|Ho]; [|reflexivity].
      destruct (String.eqb_spec k name); [congruence|reflexivity].
Qed.

Lemma getAll_append name value other params :
  getAll other (append name value params) =
  if String.eqb other name then (getAll other params ++ [value])%list
  else getAll other params.
Proof.
  unfold getAll, append. rewrite filter_app, map_app. simpl.
  rewrite (String.eqb_sym name other).
  destruct (String.eqb other name); simpl; [reflexivity|apply app_nil_r].
Qed.

Lemma getAll_forEach_append name (values : list string) other params :
  getAll other (fold_left (fun params id => append name id params) values params) =
  if String.eqb other name then (getAll other params ++ values)%list
  else getAll other params.
Proof.
  revert params. induction values as [|v values IH]; intros params; simpl.
  - destruct (String.eqb other name); [rewrite app_nil_r|]; reflexivity.
  - rewrite IH, getAll_append.
    destruct (String.eqb other name); [rewrite <- app_assoc|]; reflexivity.
Qed.

End URLSearchParamsFacts.

(** X18.  A search from the search box leaves exactly one [keyword] in the
    address, the trimmed text of the box, or none when the box is blank;
    clearing the box leaves none.  Both drop [page], so the result starts
    at its first page, and leave every other parameter as it is. *)
Theorem search_box_parameters :
  forall keyword searchParams,
    (exists params,
       handleSearch false keyword searchParams = Some params /\
       URLSearchParams.getAll "keyword" params =
         (if blank (Some keyword) then [] else [trim keyword]) /\
       URLSearchParams.getAll "page" params = [] /\
       (forall name, name <> "keyword" -> name <> "page" ->
          URLSearchParams.getAll name params =
          URLSearchParams.getAll name searchParams)) /\
    URLSearchParams.getAll "keyword" (handleClear searchParams) = [] /\
    URLSearchParams.getAll "page" (handleClear searchParams) = [] /\
    (forall name, name <> "keyword" -> name <> "page" ->
       URLSearchParams.getAll name (handleClear searchParams) =
       URLSearchParams.getAll name searchParams).
Proof.
  intros keyword searchParams. split; [|split; [|split]].
  - eexists. split; [reflexivity|].
    assert (Hblank : blank (Some keyword) = String.eqb (trim keyword) "").
    { simpl. destruct (String.eqb_spec keyword "") as [->|_]; reflexivity. }
    rewrite Hblank.
    split; [|split].
    + rewrite URLSearchParamsFacts.getAll_delete. simpl.
      destruct (String.eqb (trim keyword) ""); simpl.
      * rewrite URLSearchParamsFacts.getAll_delete. reflexivity.
      * rewrite URLSearchParamsFacts.getAll_set. reflexivity.
    + rewrite URLSearchParamsFacts.getAll_delete. reflexivity.
    + intros name Hk Hp. apply String.eqb_neq in Hk, Hp.
      rewrite URLSearchParamsFacts.getAll_delete, Hp.
      destruct (String.eqb (trim keyword) ""); simpl.
      * rewrite URLSearchParamsFacts.getAll_delete, Hk. reflexivity.
      * rewrite URLSearchParamsFacts.getAll_set, Hk. reflexivity.
  - unfold handleClear.
    rewrite !URLSearchParamsFacts.getAll_delete. reflexivity.
  - unfold handleClear.
    rewrite !URLSearchParamsFacts.getAll_delete. reflexivity.
  - intros name Hk Hp. apply String.eqb_neq in Hk, Hp. unfold handleClear.
    rewrite !URLSearchParamsFacts.getAll_delete, Hp, Hk. reflexivity.
Qed.

Lemma updateFilters_getAll searchParams updates name :
  URLSearchParams.getAll name (updateFilters searchParams updates) =
  if String.eqb name "page" &&
     negb match FilterUpdates.resetPage updates with
          | Some false => true
          | _ => false
          end
  then []
  else if String.eqb name "sort" then
    match FilterUpdates.sort updates with
    | Some sort => if String.eqb sort SORT_LATEST then [] else [sort]
    | None => URLSearchParams.getAll name searchParams
    end
  else if String.eqb name "contentTypeId" then
    match FilterUpdates.contentTypeId updates with
    | Some ids => ids
    | None => URLSearchParams.getAll name searchParams
    end
  else if String.eqb name "areaCode" then
    match FilterUpdates.areaCode updates with
    | Some areaCode => if String.eqb areaCode "" then [] else [areaCode]
    | None => URLSearchParams.getAll name searchParams
    end
  else URLSearchParams.getAll name searchParams.
Proof.
  destruct updates as [area types sort reset]. unfold updateFilters.
  cbn [FilterUpdates.areaCode FilterUpdates.contentTypeId FilterUpdates.sort
       FilterUpdates.resetPage].
  set (p1 := match area with
             | Some areaCode =>
                 if negb (String.eqb areaCode "")
                 then URLSearchParams.set "areaCode" areaCode searchParams
                 else URLSearchParams.delete "areaCode" searchParams
             | None => searchParams
             end).
  set (p2 := match types with
             | Some ids =>
                 fold_left
                   (fun params id => URLSearchParams.append "contentTypeId" id params)
                   ids (URLSearchParams.delete "contentTypeId" p1)
             | None => p1
             end).
  set (p3 := match sort with
             | Some sort =>
                 if String.eqb sort SORT_LATEST
                 then URLSearchParams.delete "sort" p2
                 else URLSearchParams.set "sort" sort p2
             | None => p2
             end).
  assert (H1 : URLSearchParams.getAll name p1 =
               if String.eqb name "areaCode" then
                 match area with
                 | Some areaCode => if String.eqb areaCode "" then [] else [areaCode]
                 | None => URLSearchParams.getAll name searchParams
                 end
               else URLSearchParams.getAll name searchParams).
  { subst p1. destruct area as [areaCode|].
    - destruct (String.eqb areaCode ""); simpl.
      + apply URLSearchParamsFacts.getAll_delete.
      + apply URLSearchParamsFacts.getAll_set.
    - destruct (String.eqb name "areaCode"); reflexivity. }
  assert (H2 : URLSearchParams.getAll name p2 =
               if String.eqb name "contentTypeId" then
                 match types with
                 | Some ids => ids
                 | None => URLSearchParams.getAll name searchParams
                 end
               else URLSearchParams.getAll name p1).
  { subst p2. destruct types as [ids|].
    - rewrite URLSearchParamsFacts.getAll_forEach_append,
        URLSearchParamsFacts.getAll_delete.
      destruct (String.eqb name "contentTypeId"); reflexivity.
    - rewrite H1.
      destruct (String.eqb_spec name "contentTypeId") as [->|_]; reflexivity. }
  assert (H3 : URLSearchParams.getAll name p3 =
               if String.eqb name "sort" then
                 match sort with
                 | Some sort => if String.eqb sort SORT_LATEST then [] else [sort]
                 | None => URLSearchParams.getAll name searchParams
                 end
               else URLSearchParams.getAll name p2).
  { subst p3. destruct sort as [sort|].
    - destruct (String.eqb sort SORT_LATEST).
      + apply URLSearchParamsFacts.getAll_delete.
      + apply URLSearchParamsFacts.getAll_set.
    - rewrite H2, H1.
      destruct (String.eqb_spec name "sort") as [->|_]; reflexivity. }
  assert (Hpage : String.eqb name "page" = true ->
                  URLSearchParams.getAll name p3 =
                  URLSearchParams.getAll name searchParams).
  { intros Hn. apply String.eqb_eq in Hn. subst name.
    rewrite H3, H2, H1. reflexivity. }
  destruct (String.eqb name "page") eqn:Hn.
  - destruct reset as [[|]|]; simpl;
      rewrite ?URLSearchParamsFacts.getAll_delete, ?Hn; try reflexivity.
    apply String.eqb_eq in Hn. subst name. rewrite H3, H2, H1. reflexivity.
  - simpl.
    assert (E : URLSearchParams.getAll name
                  match reset with
                  | Some false => p3
                  | _ => URLSearchParams.delete "page" p3
                  end = URLSearchParams.getAll name p3).
    { destruct reset as [[|]|];
        rewrite ?URLSearchParamsFacts.getAll_delete, ?Hn; reflexivity. }
    rewrite E, H3, H2, H1. reflexivity.
Qed.

(** X19.  A change of a filter touches its own parameter and [page] only:
    [updateFilters] drops [page] unless [resetPage] is [false], writes
    [areaCode], [contentTypeId] and [sort] for the updates it is given and
    leaves them as they are otherwise, and keeps every other parameter, the
    [keyword] of a search among them. *)
Theorem updateFilters_parameters :
  forall searchParams updates,
    let params := updateFilters searchParams updates in
    (FilterUpdates.resetPage updates <> Some false ->
     URLSearchParams.getAll "page" params = []) /\
    (FilterUpdates.resetPage updates = Some false ->
     URLSearchParams.getAll "page" params =
     URLSearchParams.getAll "page" searchParams) /\
    URLSearchParams.getAll "areaCode" params =
      match FilterUpdates.areaCode updates with
      | Some areaCode => if String.eqb areaCode "" then [] else [areaCode]
      | None => URLSearchParams.getAll "areaCode" searchParams
      end /\
    URLSearchParams.getAll "contentTypeId" params =
      match FilterUpdates.contentTypeId updates with
      | Some ids => ids
      | None => URLSearchParams.getAll "contentTypeId" searchParams
      end /\
    URLSearchParams.getAll "sort" params =
      match FilterUpdates.sort updates with
      | Some sort => if String.eqb sort "latest" then [] else [sort]
      | None => URLSearchParams.getAll "sort" searchParams
      end /\
    (forall name,
       name <> "page" -> name <> "areaCode" -> name <> "contentTypeId" ->
       name <> "sort" ->
       URLSearchParams.getAll name params =
       URLSearchParams.getAll name searchParams).
Proof.
  intros searchParams updates params. subst params.
  split; [|split; [|split; [|split; [|split]]]].
  - intros Hreset. rewrite updateFilters_getAll. simpl.
    destruct (FilterUpdates.resetPage updates) as [[|]|]; try reflexivity.
    congruence.
  - intros Hreset. rewrite updateFilters_getAll, Hreset. reflexivity.
  - rewrite updateFilters_getAll. reflexivity.
  - rewrite updateFilters_getAll. reflexivity.
  - rewrite updateFilters_getAll. reflexivity.
  - intros name Hp Ha Ht Hs. apply String.eqb_neq in Hp, Ha, Ht, Hs.
    rewrite updateFilters_getAll, Hp, Ha, Ht, Hs. reflexivity.
Qed.

Lemma updateFilters_parameters_witness :
  URLSearchParams.getAll "page"
    (updateFilters [("keyword", "바다"); ("page", "3")]
       (FilterUpdates.mk (Some "1") None None None)) = [].
Proof.
  destruct (updateFilters_parameters [("keyword", "바다"); ("page", "3")]
              (FilterUpdates.mk (Some "1") None None None)) as (Hpage & _).
  apply Hpage. discriminate.
Defined.

Lemma includes_string_remove (array : list string) typeId other :
  includes_string (filter (fun id => negb (String.eqb id typeId)) array) other =
  negb (String.eqb other typeId) && includes_string array other.
Proof.
  unfold includes_string. induction array as [|x array IH]; simpl.
  - rewrite andb_false_r. reflexivity.
  - destruct (String.eqb_spec x typeId) as [->|Hx]; simpl; rewrite IH.
    + destruct (String.eqb_spec other typeId); simpl; reflexivity.
    + destruct (String.eqb_spec other x) as [->|Ho]; simpl; [|reflexivity].
      destruct (String.eqb_spec x typeId); [contradiction|reflexivity].
Qed.

Lemma includes_string_push (array : list string) typeId other :
  includes_string (array ++ [typeId])%list other =
  includes_string array other || String.eqb other typeId.
Proof.
  unfold includes_string. rewrite existsb_app. simpl.
  rewrite orb_false_r. reflexivity.
Qed.

Lemma filter_Boolean_fixed (array : list string) :
  Forall (fun id => id <> "") array ->
  filter (fun id => negb (String.eqb id "")) array = array.
Proof.
  induction 1 as [|x array Hx _ IH]; simpl; [reflexivity|].
  apply String.eqb_neq in Hx. rewrite Hx, IH. reflexivity.
Qed.

Lemma currentContentTypeIds_Boolean searchParams :
  Forall (fun id => id <> "") (currentContentTypeIds searchParams).
Proof.
  unfold currentContentTypeIds. apply Forall_forall. intros id Hid.
  apply filter_In in Hid. destruct Hid as (_ & Hid).
  apply negb_true_iff, String.eqb_neq in Hid. exact Hid.
Qed.

Lemma handleTypeToggle_types searchParams typeId :
  typeId <> "" ->
  currentContentTypeIds (handleTypeToggle searchParams typeId) =
  if includes_string (currentContentTypeIds searchParams) typeId
  then filter (fun id => negb (String.eqb id typeId))
              (currentContentTypeIds searchParams)
  else (currentContentTypeIds searchParams ++ [typeId])%list.
Proof.
  intros Hid. unfold handleTypeToggle.
  unfold currentContentTypeIds at 1. rewrite updateFilters_getAll. simpl.
  apply filter_Boolean_fixed.
  pose proof (currentContentTypeIds_Boolean searchParams) as Hcur.
  destruct (includes_string (currentContentTypeIds searchParams) typeId).
  - apply Forall_forall. intros id Hin. apply filter_In in Hin.
    destruct Hin as (Hin & _). revert id Hin. apply Forall_forall. exact Hcur.
  - apply Forall_app. split; [exact Hcur|]. constructor; [exact Hid|constructor].
Qed.

(** X20.  The handlers of the filters.  Choosing a region sets [areaCode] to
    its code, and ['all'] removes it; choosing an order sets [sort], and
    ['latest'] removes it; clearing the types removes every
    [contentTypeId].  Toggling a content type flips that type and no other
    in the selection, so that toggling it twice gives the selection back.
    Each of them drops [page] and keeps the [keyword]. *)
Theorem filter_handlers :
  forall searchParams,
    (forall code,
       URLSearchParams.getAll "areaCode" (handleAreaChange searchParams code) =
       if String.eqb code "all" || String.eqb code "" then [] else [code]) /\
    (forall sort,
       URLSearchParams.getAll "sort" (handleSortChange searchParams sort) =
       if String.eqb sort "latest" then [] else [sort]) /\
    URLSearchParams.getAll "contentTypeId" (handleTypeClear searchParams) = [] /\
    (forall typeId other,
       typeId <> "" ->
       includes_string
         (currentContentTypeIds (handleTypeToggle searchParams typeId)) other =
       (if String.eqb other typeId
        then negb (includes_string (currentContentTypeIds searchParams) typeId)
        else includes_string (currentContentTypeIds searchParams) other) /\
       includes_string
         (currentContentTypeIds
            (handleTypeToggle (handleTypeToggle searchParams typeId) typeId))
         other =
       includes_string (currentContentTypeIds searchParams) other) /\
    (forall params,
       (exists code, params = handleAreaChange searchParams code) \/
       (exists sort, params = handleSortChange searchParams sort) \/
       params = handleTypeClear searchParams \/
       (exists typeId, params = handleTypeToggle searchParams typeId) ->
       URLSearchParams.getAll "page" params = [] /\
       URLSearchParams.getAll "keyword" params =
       URLSearchParams.getAll "keyword" searchParams).
Proof.
  intros searchParams. split; [|split; [|split; [|split]]].
  - intros code. unfold handleAreaChange. rewrite updateFilters_getAll. simpl.
    destruct (String.eqb_spec code "all") as [->|_]; simpl; reflexivity.
  - intros sort. unfold handleSortChange. rewrite updateFilters_getAll.
    reflexivity.
  - unfold handleTypeClear. rewrite updateFilters_getAll. reflexivity.
  - intros typeId other Hid.
    assert (Hflip : forall params,
      includes_string (currentContentTypeIds (handleTypeToggle params typeId))
                      other =
      if String.eqb other typeId
      then negb (includes_string (currentContentTypeIds params) typeId)
      else includes_string (currentContentTypeIds params) other).
    { intros params. rewrite (handleTypeToggle_types params typeId Hid).
      destruct (includes_string (currentContentTypeIds params) typeId) eqn:Hin.
      - rewrite includes_string_remove.
        destruct (String.eqb other typeId); reflexivity.
      - rewrite includes_string_push.
        destruct (String.eqb_spec other typeId) as [->|_]; simpl.
        + apply orb_true_r.
        + apply orb_false_r. }
    split; [apply Hflip|].
    rewrite Hflip. destruct (String.eqb_spec other typeId) as [->|Ho].
    + rewrite Hflip. apply negb_involutive.
    + apply Hflip.
  - intros params [(code & ->)|[(sort & ->)|[->|(typeId & ->)]]];
      unfold handleAreaChange, handleSortChange, handleTypeClear, handleTypeToggle;
      rewrite !updateFilters_getAll; split; reflexivity.
Qed.

Lemma filter_handlers_witness :
  includes_string
    (currentContentTypeIds
       (handleTypeToggle [("contentTypeId", "12"); ("page", "2")] "39")) "39" =
  true.
Proof.
  destruct (filter_handlers [("contentTypeId", "12"); ("page", "2")])
    as (_ & _ & _ & Htoggle & _).
  destruct (Htoggle "39" "39") as (Hflip & _); [discriminate|].
  rewrite Hflip. reflexivity.
Defined.

(* ===================================================================== *)
(** * Properties of the recommendations *)
(* ===================================================================== *)

Lemma same_id_eq a b : same_id a b = true <-> a = b.
Proof.
  destruct a as [x|], b as [y|]; simpl.
  - rewrite String.eqb_eq. split; congruence.
  - split; discriminate.
  - split; discriminate.
  - tauto.
Qed.

Lemma alreadyRecommended_false recommendations item :
  alreadyRecommended recommendations item = false ->
  ~ In (contentid item) (map contentid recommendations).
Proof.
  unfold alreadyRecommended. intros H Hin.
  apply in_map_iff in Hin. destruct Hin as (rec & Hid & Hrec).
  assert (Ht : existsb (fun rec => same_id (contentid rec) (contentid item))
                       recommendations = true).
  { apply existsb_exists. exists rec. split; [exact Hrec|].
    apply same_id_eq. exact Hid. }
  congruence.
Qed.

Section Ids.

Variables (A K : Type) (id : A -> K).

Lemma NoDup_ids_filter (keep : A -> bool) (items : list A) :
  NoDup (map id items) -> NoDup (map id (filter keep items)).
Proof.
  induction items as [|x items IH]; simpl; intros H; [constructor|].
  inversion H as [|? ? Hx Hrest]; subst.
  destruct (keep x); simpl; [|apply IH, Hrest].
  constructor; [|apply IH, Hrest].
  intros Hin. apply Hx. apply in_map_iff in Hin.
  destruct Hin as (y & Hy & Hin). apply filter_In in Hin.
  apply in_map_iff. exists y. tauto.
Qed.

Lemma NoDup_ids_firstn (n : nat) (items : list A) :
  NoDup (map id items) -> NoDup (map id (firstn n items)).
Proof.
  intros H. rewrite <- (firstn_skipn n items), map_app in H.
  apply NoDup_app_remove_r in H. exact H.
Qed.

Lemma NoDup_ids_app (old new : list A) :
  NoDup (map id old) -> NoDup (map id new) ->
  (forall x, In x new -> ~ In (id x) (map id old)) ->
  NoDup (map id (old ++ new)).
Proof.
  intros Hold Hnew Hfresh. induction old as [|x old IH]; simpl; [exact Hnew|].
  inversion Hold as [|? ? Hx Hrest]; subst.
  constructor.
  - rewrite map_app, in_app_iff. intros [Hin|Hin]; [exact (Hx Hin)|].
    apply in_map_iff in Hin. destruct Hin as (y & Hy & Hin).
    apply (Hfresh y Hin). left. symmetry. exact Hy.
  - apply IH; [exact Hrest|]. intros y Hy Hin. apply (Hfresh y Hy).
    right. exact Hin.
Qed.

End Ids.

(** What one step of the search adds. *)
Lemma recommendFrom_adds w params keep room warning recommendations :
  exists added,
    outcome (recommendFrom w params keep room warning recommendations) =
      Ok (recommendations ++ added)%list /\
    (List.length added <= room)%nat /\
    (forall item, In item added -> keep item = true) /\
    ((forall p response,
        outcome (getAreaBasedList w p) = Ok response ->
        NoDup (map contentid (TourListResponse.items response))) ->
     NoDup (map contentid added)).
Proof.
  unfold recommendFrom.
  destruct (outcome (getAreaBasedList w params)) as [response|e] eqn:Hlist.
  - exists (slice0 room (filter keep (TourListResponse.items response))).
    split; [|split; [|split]].
    + apply outcome_try_ok. rewrite (outcome_bind_ok _ _ response Hlist).
      reflexivity.
    + apply firstn_le_length.
    + intros item Hin. unfold slice0 in Hin.
      assert (Hin' : In item (filter keep (TourListResponse.items response))).
      { rewrite <- (firstn_skipn room (filter keep _)). apply in_or_app.
        left. exact Hin. }
      apply filter_In in Hin'. tauto.
    + intros Hdistinct. unfold slice0.
      apply NoDup_ids_firstn, NoDup_ids_filter, (Hdistinct params), Hlist.
  - exists []. split; [|split; [|split]].
    + rewrite (outcome_try_throw _ _ e).
      * rewrite outcome_emit, app_nil_r. reflexivity.
      * apply outcome_bind_throw. exact Hlist.
    + simpl. lia.
    + intros item [].
    + intros _. constructor.
Qed.

Lemma not_current item contentId :
  negb (same_id (contentid item) (Some contentId)) = true ->
  contentid item <> Some contentId.
Proof.
  intros H Heq. apply negb_true_iff in H.
  apply same_id_eq in Heq. congruence.
Qed.

(** The fallback steps: the places they add are new. *)
Lemma recommendFrom_fallback w params contentId room warning recommendations :
  (forall item, In item recommendations -> contentid item <> Some contentId) ->
  exists added,
    outcome
      (if (List.length recommendations <? 3)%nat then
         recommendFrom w params
           (fun item => negb (same_id (contentid item) (Some contentId)) &&
                        negb (alreadyRecommended recommendations item))
           room warning recommendations
       else ret recommendations) =
      Ok (recommendations ++ added)%list /\
    (List.length added <= room)%nat /\
    (forall item, In item (recommendations ++ added)%list ->
                  contentid item <> Some contentId) /\
    ((forall p response,
        outcome (getAreaBasedList w p) = Ok response ->
        NoDup (map contentid (TourListResponse.items response))) ->
     NoDup (map contentid recommendations) ->
     NoDup (map contentid (recommendations ++ added)%list)).
Proof.
  intros Hold. destruct (List.length recommendations <? 3)%nat.
  - destruct (recommendFrom_adds w params
                (fun item => negb (same_id (contentid item) (Some contentId)) &&
                             negb (alreadyRecommended recommendations item))
                room warning recommendations)
      as (added & Hrun & Hlen & Hkeep & Hdistinct).
    exists added. split; [exact Hrun|]. split; [exact Hlen|]. split.
    + intros item Hin. apply in_app_iff in Hin. destruct Hin as [Hin|Hin].
      * apply Hold, Hin.
      * apply Hkeep in Hin. apply andb_true_iff in Hin.
        apply not_current. tauto.
    + intros Hw Hnodup. apply NoDup_ids_app; [exact Hnodup|apply Hdistinct, Hw|].
      intros item Hin. apply Hkeep in Hin. apply andb_true_iff in Hin.
      destruct Hin as (_ & Hnew). apply negb_true_iff in Hnew.
      apply alreadyRecommended_false, Hnew.
  - exists []. rewrite app_nil_r. split; [reflexivity|].
    split; [simpl; lia|]. split; [exact Hold|]. intros _ H. exact H.
Qed.

(** X22.  The recommendations never fail: whatever the three listing calls
    do, the component gets nothing to render or between one and six places.
    The place of the page is never among them; and when no listing names a
    place twice, no place is recommended twice. *)
Theorem TourRecommendationsContent_recommends :
  forall w contentId areaCode contentTypeId,
    exists result,
      outcome (TourRecommendationsContent w contentId areaCode contentTypeId) =
        Ok result /\
      forall recommendations,
        result = Some recommendations ->
        (1 <= List.length recommendations <= 6)%nat /\
        (forall item, In item recommendations ->
                      contentid item <> Some contentId) /\
        ((forall p response,
            outcome (getAreaBasedList w p) = Ok response ->
            NoDup (map contentid (TourListResponse.items response))) ->
         NoDup (map contentid recommendations)).
Proof.
  intros w contentId areaCode contentTypeId. unfold TourRecommendationsContent.
  cbv zeta.
  destruct (recommendFrom_adds w
              (AreaBasedListParams.mk (Some areaCode) (Some contentTypeId)
                                      (Some 10) (Some 1))
              (fun item => negb (same_id (contentid item) (Some contentId)))
              6 "같은 지역+타입 조회 실패:" [])
    as (first & Hrun1 & _ & Hkeep1 & Hdistinct1).
  simpl app in Hrun1.
  assert (Hcur1 : forall item, In item first -> contentid item <> Some contentId).
  { intros item Hin. apply not_current, Hkeep1, Hin. }
  destruct (recommendFrom_fallback w
              (AreaBasedListParams.mk (Some areaCode) None (Some 10) (Some 1))
              contentId (6 - List.length first) "같은 지역 조회 실패:" first Hcur1)
    as (second & Hrun2 & _ & Hcur2 & Hdistinct2).
  destruct (recommendFrom_fallback w
              (AreaBasedListParams.mk None (Some contentTypeId) (Some 10) (Some 1))
              contentId (6 - List.length (first ++ second)%list)
              "같은 타입 조회 실패:" (first ++ second)%list Hcur2)
    as (third & Hrun3 & _ & Hcur3 & Hdistinct3).
  set (final := slice0 6 ((first ++ second) ++ third)%list).
  exists (if (List.length final =? 0)%nat then None else Some final).
  split.
  - erewrite outcome_try_ok; [reflexivity|].
    rewrite (outcome_bind_ok _ _ first Hrun1).
    rewrite (outcome_bind_ok _ _ (first ++ second)%list Hrun2).
    rewrite (outcome_bind_ok _ _ ((first ++ second) ++ third)%list Hrun3).
    fold final. destruct (List.length final =? 0)%nat; reflexivity.
  - intros recommendations Hresult.
    destruct (List.length final =? 0)%nat eqn:Hempty; [discriminate|].
    injection Hresult as <-. apply Nat.eqb_neq in Hempty.
    assert (Hin : forall item, In item final ->
                    In item ((first ++ second) ++ third)%list).
    { intros item H. rewrite <- (firstn_skipn 6 (_ ++ third)%list).
      apply in_or_app. left. exact H. }
    split; [|split].
    + pose proof (firstn_le_length 6 ((first ++ second) ++ third)%list) as Hle.
      fold (slice0 6 ((first ++ second) ++ third)%list) in Hle. fold final in Hle.
      lia.
    + intros item H. apply Hcur3, Hin, H.
    + intros Hw. unfold final, slice0. apply NoDup_ids_firstn.
      apply Hdistinct3; [exact Hw|]. apply Hdistinct2; [exact Hw|].
      apply Hdistinct1, Hw.
Qed.

(** The recommendations on the sample upstream, which lists place 125266 in
    every page: for another place it is recommended once, and for the place
    itself nothing is. *)
Example TourRecommendationsContent_sampleUpstream :
  outcome (TourRecommendationsContent sampleUpstream "999" "1" "12") =
    Ok (Some [[("contentid", "125266")]]) /\
  outcome (TourRecommendationsContent sampleUpstream "125266" "1" "12") = Ok None.
Proof. split; vm_compute; reflexivity. Qed.

(* ===================================================================== *)
(** * Properties of the statistics page *)
(* ===================================================================== *)

Lemma chartTopRegions_top data :
  chartTopRegions data =
  slice0 10 (sort (byKeyDesc RegionStats.count) data).
Proof.
  unfold chartTopRegions.
  change (fun a b => RegionStats.count b - RegionStats.count a)
    with (byKeyDesc RegionStats.count).
  induction (slice0 10 (sort (byKeyDesc RegionStats.count) data))
    as [|[areaCode name count] regions IH]; simpl; [|rewrite IH]; reflexivity.
Qed.

Lemma getStatsSummary_outcome_ok w regionStats :
  outcome (getRegionStats w) = Ok regionStats ->
  outcome (getStatsSummary w) =
  Ok (StatsSummary.mk
        (sumCounts (typeStatsOf w))
        (slice0 3 (sort (byKeyDesc RegionStats.count) regionStats))
        (slice0 3 (sort (byKeyDesc TypeStats.count) (typeStatsOf w)))
        (clock w)).
Proof.
  intros E. unfold getStatsSummary. apply outcome_try_ok.
  rewrite (outcome_bind_ok _ _ _ (all2_ok _ _ _ _ E (getTypeStats_outcome w))).
  reflexivity.
Qed.

(** X23.  The region chart runs [getRegionStats] itself, apart from the
    summary of the page.  It fails exactly when its own run fails, with the
    same error; otherwise it shows at most ten regions in descending order of
    count, the ten largest of the region statistics it obtained.  Its first
    three bars are the [topRegions] of the summary whenever the run of the
    summary obtained the same region statistics from the upstream. *)
Theorem region_chart_agrees_with_summary :
  forall chart page : World,
    (forall e, outcome (RegionChartContent chart) = Throw e <->
               outcome (getRegionStats chart) = Throw e) /\
    (forall regionStats,
       outcome (getRegionStats chart) = Ok regionStats ->
       exists bars,
         outcome (RegionChartContent chart) = Ok bars /\
         descending RegionStats.count bars /\
         List.length bars = Nat.min 10 (List.length regionStats) /\
         (exists rest,
            Permutation regionStats (bars ++ rest)%list /\
            forall x y, In x bars -> In y rest ->
                        RegionStats.count y <= RegionStats.count x) /\
         (forall summary,
            outcome (getRegionStats page) = Ok regionStats ->
            outcome (getStatsSummary page) = Ok summary ->
            slice0 3 bars = StatsSummary.topRegions summary)).
Proof.
  intros chart page. unfold RegionChartContent.
  destruct (outcome (getRegionStats chart)) as [regionStats|e'] eqn:E.
  - assert (Hchart : outcome (data <- getRegionStats chart ;; ret (chartTopRegions data)) =
                     Ok (chartTopRegions regionStats)).
    { rewrite (outcome_bind_ok _ _ regionStats E). reflexivity. }
    split.
    + intros e. rewrite Hchart. split; discriminate.
    + intros ? [= <-]. exists (chartTopRegions regionStats).
      split; [exact Hchart|].
      rewrite chartTopRegions_top.
      destruct (top_spec RegionStats.t RegionStats.count 10 regionStats)
        as (Hsorted & Hlength & Hrest).
      split; [exact Hsorted|]. split; [exact Hlength|]. split; [exact Hrest|].
      intros summary Hregions Hs.
      rewrite (getStatsSummary_outcome_ok page regionStats Hregions) in Hs.
      injection Hs as <-.
      cbn [StatsSummary.topRegions]. unfold slice0.
      rewrite firstn_firstn. reflexivity.
  - assert (Hchart : outcome (data <- getRegionStats chart ;; ret (chartTopRegions data)) =
                     Throw e').
    { apply outcome_bind_throw. exact E. }
    split.
    + intros e. rewrite Hchart. tauto.
    + intros regionStats H. discriminate H.
Qed.

Lemma region_chart_agrees_with_summary_witness :
  exists bars,
    outcome (RegionChartContent sampleUpstream) = Ok bars /\
    map RegionStats.count bars = [300; 150; 90; 20].
Proof.
  destruct (region_chart_agrees_with_summary sampleUpstream sampleUpstream)
    as (_ & Hagree).
  destruct (Hagree (regionStatsOf sampleUpstream sampleAreaCodes))
    as (bars & Hbars & _).
  { vm_compute. reflexivity. }
  exists bars. split; [exact Hbars|].
  assert (Hc : Ok bars = outcome (RegionChartContent sampleUpstream))
    by (symmetry; exact Hbars).
  vm_compute in Hc. injection Hc as ->. reflexivity.
Defined.

(** The chart and the summary of one page, when the upstream answers the
    requests of the two components with different counts: the chart shows the
    counts of its own answers, the summary those of its own. *)
Example region_chart_of_other_answers :
  option_map (map RegionStats.count)
    (match outcome (RegionChartContent sampleUpstream) with
     | Ok bars => Some (slice0 3 bars)
     | Throw _ => None
     end) = Some [300; 150; 90] /\
  option_map (map RegionStats.count)
    (match outcome (getStatsSummary twentyThreeOf160) with
     | Ok summary => Some (StatsSummary.topRegions summary)
     | Throw _ => None
     end) = Some [0; 0; 0].
Proof. split; vm_compute; reflexivity. Qed.

(* ===================================================================== *)
(** * Properties of the error page *)
(* ===================================================================== *)

Lemma typed_shownAmong e :
  typedAmong [API_KEY_MISSING; TIMEOUT_ERROR; NETWORK_ERROR; UNKNOWN_ERROR;
              API_KEY_INVALID; API_ERROR] e ->
  shownAmong clientErrorPages e.
Proof.
  intros (t & Ht & Hin).
  destruct e as [message status original errorType| |]; try discriminate Ht.
  simpl in Ht. injection Ht as ->. unfold shownAmong. simpl getErrorMessage.
  simpl in Hin.
  destruct Hin as [<-|[<-|[<-|[<-|[<-|[<-|[]]]]]]];
    eexists; eexists; (split; [reflexivity|]); simpl; tauto.
Qed.

Ltac dispatch_shown Hjson :=
  cbv zeta;
  eapply throwsOnly_weaken;
    [exact typed_shownAmong
    |apply dispatch_throws_typed;
      [exact Hjson
      |intros data items;
       first [ apply firstOrThrow_throws
             | eapply throwsOnly_ok; reflexivity ]]].

Ltac validation_shown :=
  apply throwsOnly_log_throw;
  eexists; eexists; (split; [reflexivity|]); simpl; tauto.

(** X24.  When [response.json()] rejects with built-in errors only, the error
    page shows, for an error of an operation of the client, one of eight
    pairs of a title and a message: the title is never ['서버 오류'] and the
    message is never one of the messages kept for an HTTP status (404, 429,
    500 and above, other), whatever status the upstream answers with. *)
Theorem error_page_of_client_errors :
  forall w,
    nativeJson w ->
    ((forall p, throwsOnly (shownAmong clientErrorPages) (getAreaCode w p)) /\
     (forall p, throwsOnly (shownAmong clientErrorPages) (getAreaBasedList w p)) /\
     (forall p, throwsOnly (shownAmong clientErrorPages) (searchKeyword w p)) /\
     (forall p, throwsOnly (shownAmong clientErrorPages) (getDetailCommon w p)) /\
     (forall p, throwsOnly (shownAmong clientErrorPages) (getDetailIntro w p)) /\
     (forall p, throwsOnly (shownAmong clientErrorPages) (getDetailImage w p)) /\
     (forall p, throwsOnly (shownAmong clientErrorPages) (getDetailPetTour w p))) /\
    (forall title message,
       In (title, message) clientErrorPages ->
       title <> "서버 오류" /\ ~ In message httpStatusMessages).
Proof.
  intros w Hjson. split.
  - split; [|split; [|split; [|split; [|split; [|split]]]]]; intros p.
    + unfold getAreaCode. dispatch_shown Hjson.
    + unfold getAreaBasedList. dispatch_shown Hjson.
    + unfold searchKeyword. destruct (blank (SearchKeywordParams.keyword p)).
      * validation_shown.
      * dispatch_shown Hjson.
    + unfold getDetailCommon. destruct (blank (DetailParams.contentId p)).
      * validation_shown.
      * dispatch_shown Hjson.
    + unfold getDetailIntro. destruct (blank (DetailIntroParams.contentId p)).
      * validation_shown.
      * destruct (blank (DetailIntroParams.contentTypeId p)).
        -- validation_shown.
        -- dispatch_shown Hjson.
    + unfold getDetailImage. destruct (blank (DetailImageParams.contentId p)).
      * validation_shown.
      * dispatch_shown Hjson.
    + unfold getDetailPetTour. destruct (blank (DetailParams.contentId p)).
      * validation_shown.
      * dispatch_shown Hjson.
  - intros title message Hin. unfold clientErrorPages in Hin. simpl in Hin.
    repeat (destruct Hin as [[= <- <-]|Hin];
            [split; [discriminate|];
             unfold httpStatusMessages; simpl;
             intros H; repeat (destruct H as [H|H]; [discriminate H|]);
             exact H|]).
    destruct Hin.
Qed.

Lemma error_page_of_client_errors_witness :
  shownAmong clientErrorPages
    (TourAPIError "요청 실패 (4회 시도): HTTP 500: Internal Server Error" None
       (Some (TourAPIError "HTTP 500: Internal Server Error" (Some 500) None
                           HTTP_ERROR))
       UNKNOWN_ERROR).
Proof.
  destruct (error_page_of_client_errors alwaysHttp500) as ((_ & Hlist & _) & _).
  - intros ep url n r e Hf Hj. simpl in Hf. injection Hf as <-.
    simpl in Hj. discriminate Hj.
  - apply (Hlist (AreaBasedListParams.mk (Some "1") None None None)).
    vm_compute. reflexivity.
Defined.

(* ===================================================================== *)
(** * The number of calls of fetch *)
(* ===================================================================== *)

Section CallsAtMost.

Lemma callsAtMost_bind {A B} n1 n2 (m : M A) (f : A -> M B) :
  callsAtMost n1 m -> (forall a, callsAtMost n2 (f a)) ->
  callsAtMost (n1 + n2) (bind m f).
Proof.
  unfold callsAtMost. destruct m as [[a|e] t]; simpl; intros Hm Hf; [|lia].
  specialize (Hf a). unfold bind. destruct (f a) as [r t']. simpl in *.
  rewrite attempts_app. lia.
Qed.

Lemma callsAtMost_try {A} n1 n2 (m : M A) (h : Thrown -> M A) :
  callsAtMost n1 m -> (forall e, callsAtMost n2 (h e)) ->
  callsAtMost (n1 + n2) (try_catch m h).
Proof.
  unfold callsAtMost. destruct m as [[a|e] t]; simpl; intros Hm Hh; [lia|].
  specialize (Hh e). unfold try_catch. destruct (h e) as [r t']. simpl in *.
  rewrite attempts_app. lia.
Qed.

Lemma callsAtMost_none {A} (m : M A) n :
  attempts (trace m) = 0%nat -> callsAtMost n m.
Proof. unfold callsAtMost. intros ->. lia. Qed.

Lemma callsAtMost_weaken {A} n n' (m : M A) :
  (n <= n')%nat -> callsAtMost n m -> callsAtMost n' m.
Proof. unfold callsAtMost. lia. Qed.

Lemma callsAtMost_log_throw {A} w e c n :
  callsAtMost n (logError w e c ;;; @throw A e).
Proof.
  apply callsAtMost_none. destruct (@log_then_throw A w e c) as (_ & H & _).
  exact H.
Qed.

Lemma callsAtMost_warn {A} text (a : A) n :
  callsAtMost n (emit (EvConsoleWarn text) ;;; ret a).
Proof. apply callsAtMost_none. reflexivity. Qed.

Lemma callsAtMost_getCommonParams w : callsAtMost 0 (getCommonParams w).
Proof.
  unfold getCommonParams, getServiceKey.
  apply (callsAtMost_bind 0 0).
  - destruct (falsy_string _).
    + apply callsAtMost_log_throw.
    + apply callsAtMost_none. reflexivity.
  - intros key. apply callsAtMost_none. reflexivity.
Qed.

Lemma callsAtMost_parse {T} w (data : TourAPIResponse T) :
  callsAtMost 0 (parseAPIResponse w data).
Proof.
  unfold parseAPIResponse.
  destruct (negb (String.eqb (resultCode (header data)) "0000")).
  - apply callsAtMost_log_throw.
  - apply callsAtMost_none.
    destruct (body data) as [b|]; [|reflexivity].
    destruct (Body.items b) as [[x|xs]|]; reflexivity.
Qed.

Lemma callsAtMost_fetchWithRetry w ep url :
  callsAtMost 4 (fetchWithRetry w ep url 0).
Proof.
  unfold callsAtMost.
  destruct (fetchWithRetry_run w ep url MAX_RETRIES 0%nat eq_refl)
    as (k & Hk & _ & _ & Hattempts & _).
  rewrite Hattempts. unfold MAX_RETRIES in Hk. lia.
Qed.

Lemma callsAtMost_request {A} w ep (mkUrl : Params -> Query)
  (k : TourAPIResponse (ItemOf ep) -> list (ItemOf ep) -> M A) message :
  (forall data items, trace (k data items) = []) ->
  callsAtMost 4
    (common <- getCommonParams w ;;
     try_catch
       (response <- fetchWithRetry w ep (mkUrl common) 0 ;;
        data <- settle (json response) ;;
        items <- parseAPIResponse w data ;;
        k data items)
       (rethrow message)).
Proof.
  intros Hk. apply (callsAtMost_bind 0 4); [apply callsAtMost_getCommonParams|].
  intros common. apply (callsAtMost_try 4 0).
  - apply (callsAtMost_bind 4 0); [apply callsAtMost_fetchWithRetry|].
    intros response. apply (callsAtMost_bind 0 0).
    + apply callsAtMost_none. reflexivity.
    + intros data. apply (callsAtMost_bind 0 0); [apply callsAtMost_parse|].
      intros items. apply callsAtMost_none. rewrite Hk. reflexivity.
  - intros e. apply callsAtMost_none. unfold rethrow.
    destruct (instanceof_TourAPIError e); reflexivity.
Qed.

End CallsAtMost.

Ltac at_most_four :=
  cbv zeta;
  first
    [ apply callsAtMost_log_throw
    | apply callsAtMost_request;
      intros; first [reflexivity | apply trace_firstOrThrow] ].

Lemma operations_callsAtMost w :
  (forall p, callsAtMost 4 (getAreaCode w p)) /\
  (forall p, callsAtMost 4 (getAreaBasedList w p)) /\
  (forall p, callsAtMost 4 (searchKeyword w p)) /\
  (forall p, callsAtMost 4 (getDetailCommon w p)) /\
  (forall p, callsAtMost 4 (getDetailIntro w p)) /\
  (forall p, callsAtMost 4 (getDetailImage w p)) /\
  (forall p, callsAtMost 4 (getDetailPetTour w p)).
Proof.
  split; [|split; [|split; [|split; [|split; [|split]]]]]; intros p.
  - unfold getAreaCode. at_most_four.
  - unfold getAreaBasedList. at_most_four.
  - unfold searchKeyword. destruct (blank _); at_most_four.
  - unfold getDetailCommon. destruct (blank _); at_most_four.
  - unfold getDetailIntro. destruct (blank _); [at_most_four|].
    destruct (blank _); at_most_four.
  - unfold getDetailImage. destruct (blank _); at_most_four.
  - unfold getDetailPetTour. destruct (blank _); at_most_four.
Qed.

Lemma callsAtMost_recommendFrom w params keep room warning recommendations :
  callsAtMost 4 (recommendFrom w params keep room warning recommendations).
Proof.
  unfold recommendFrom. apply (callsAtMost_try 4 0).
  - apply (callsAtMost_bind 4 0); [apply operations_callsAtMost|].
    intros response. apply callsAtMost_none. reflexivity.
  - intros e. apply callsAtMost_warn.
Qed.

(** X25.  Whatever the upstream does, each operation of the client calls
    [fetch] four times at most, and so does each section of the detail page
    and the list of the home page; the recommendations, with their three
    listing calls, call it twelve times at most. *)
Theorem calls_of_fetch_are_bounded :
  forall w,
    ((forall p, callsAtMost 4 (getAreaCode w p)) /\
     (forall p, callsAtMost 4 (getAreaBasedList w p)) /\
     (forall p, callsAtMost 4 (searchKeyword w p)) /\
     (forall p, callsAtMost 4 (getDetailCommon w p)) /\
     (forall p, callsAtMost 4 (getDetailIntro w p)) /\
     (forall p, callsAtMost 4 (getDetailImage w p)) /\
     (forall p, callsAtMost 4 (getDetailPetTour w p))) /\
    (forall contentId, callsAtMost 4 (DetailPage w contentId)) /\
    (forall contentId contentTypeId,
       callsAtMost 4 (TourIntroContent w contentId contentTypeId)) /\
    (forall contentId, callsAtMost 4 (TourPetContent w contentId)) /\
    (forall contentId title, callsAtMost 4 (TourGalleryContent w contentId title)) /\
    (forall contentId areaCode contentTypeId,
       callsAtMost 12
         (TourRecommendationsContent w contentId areaCode contentTypeId)) /\
    (forall areaCode contentTypeId keyword pageNo mode,
       callsAtMost 4
         (TourListContent w areaCode contentTypeId keyword pageNo mode)).
Proof.
  intros w. pose proof (operations_callsAtMost w)
    as (Hcode & Hlist & Hsearch & Hcommon & Hintro & Himage & Hpet).
  split; [apply operations_callsAtMost|].
  split; [|split; [|split; [|split; [|split]]]].
  - intros contentId. unfold DetailPage. destruct (blank _).
    + apply callsAtMost_none. reflexivity.
    + unfold TourDetailContent. apply (callsAtMost_try 4 0).
      * apply (callsAtMost_bind 4 0); [apply Hcommon|].
        intros response. apply callsAtMost_none. reflexivity.
      * intros e. apply callsAtMost_none.
        destruct (instanceof_TourAPIError e); [|reflexivity].
        destruct (includes _ _); reflexivity.
  - intros contentId contentTypeId. unfold TourIntroContent.
    apply (callsAtMost_try 4 0).
    + apply (callsAtMost_bind 4 0); [apply Hintro|].
      intros response. apply callsAtMost_none. reflexivity.
    + intros e. apply callsAtMost_warn.
  - intros contentId. unfold TourPetContent. apply (callsAtMost_try 4 0).
    + apply (callsAtMost_bind 4 0); [apply Hpet|].
      intros response. apply callsAtMost_none. reflexivity.
    + intros e. apply callsAtMost_warn.
  - intros contentId title. unfold TourGalleryContent.
    apply (callsAtMost_try 4 0).
    + apply (callsAtMost_bind 4 0); [apply Himage|].
      intros response. apply callsAtMost_none. cbv zeta.
      destruct (List.length _ =? 0)%nat; reflexivity.
    + intros e. apply callsAtMost_warn.
  - intros contentId areaCode contentTypeId. unfold TourRecommendationsContent.
    cbv zeta. apply (callsAtMost_try 12 0).
    + apply (callsAtMost_bind 4 8); [apply callsAtMost_recommendFrom|].
      intros first. apply (callsAtMost_bind 4 4).
      * destruct (List.length first <? 3)%nat;
          [apply callsAtMost_recommendFrom|apply callsAtMost_none; reflexivity].
      * intros second. apply (callsAtMost_bind 4 0).
        -- destruct (List.length second <? 3)%nat;
             [apply callsAtMost_recommendFrom|apply callsAtMost_none; reflexivity].
        -- intros third. apply callsAtMost_none.
           destruct (List.length _ =? 0)%nat; reflexivity.
    + intros e. apply callsAtMost_warn.
  - intros areaCode contentTypeId keyword pageNo mode. unfold TourListContent.
    apply (callsAtMost_try 4 0).
    + apply (callsAtMost_bind 4 0).
      * unfold listingCall. cbv zeta.
        destruct keyword as [[text|values]|];
          [destruct (negb (blank (Some text))); [apply Hsearch|apply Hlist]
          |apply callsAtMost_none; reflexivity
          |apply Hlist].
      * intros data. apply callsAtMost_none. reflexivity.
    + intros e. apply callsAtMost_none.
      destruct (instanceof_TourAPIError e); reflexivity.
Qed.

Lemma callsAtMost_bind_ok {A B} n1 n2 (m : M A) (f : A -> M B) a :
  outcome m = Ok a -> callsAtMost n1 m -> callsAtMost n2 (f a) ->
  callsAtMost (n1 + n2) (bind m f).
Proof.
  unfold callsAtMost. intros Ho Hm Hf.
  rewrite (trace_bind_ok _ _ a Ho), attempts_app. lia.
Qed.

Lemma callsAtMost_allSettled {A} n (promises : list (M A)) :
  Forall (callsAtMost n) promises ->
  callsAtMost (n * List.length promises) (allSettled promises).
Proof.
  unfold callsAtMost, allSettled. simpl.
  induction 1 as [|p promises Hp _ IH]; simpl; [lia|].
  rewrite attempts_app. unfold callsAtMost in Hp. lia.
Qed.

Lemma callsAtMost_all2 {A B} n1 n2 (a : M A) (b : M B) :
  callsAtMost n1 a -> callsAtMost n2 b -> callsAtMost (n1 + n2) (all2 a b).
Proof.
  unfold callsAtMost, all2. destruct a as [ra ta], b as [rb tb]. simpl.
  rewrite attempts_app. lia.
Qed.

Lemma callsAtMost_regionCallback w areaCode :
  callsAtMost 4 (regionCallback w areaCode).
Proof.
  unfold regionCallback. apply (callsAtMost_try 4 0).
  - apply (callsAtMost_bind 4 0); [apply operations_callsAtMost|].
    intros response. apply callsAtMost_none. reflexivity.
  - intros e. apply callsAtMost_none. reflexivity.
Qed.

Lemma callsAtMost_typeCallback w contentTypeId :
  callsAtMost 4 (typeCallback w contentTypeId).
Proof.
  unfold typeCallback. apply (callsAtMost_try 4 0).
  - apply (callsAtMost_bind 4 0); [apply operations_callsAtMost|].
    intros response. apply callsAtMost_none. reflexivity.
  - intros e. apply callsAtMost_none. reflexivity.
Qed.

Lemma callsAtMost_getTypeStats w : callsAtMost 32 (getTypeStats w).
Proof.
  unfold getTypeStats. cbv zeta. apply (callsAtMost_try 32 0).
  - apply (callsAtMost_bind 32 0).
    + apply (callsAtMost_allSettled 4 (map (typeCallback w) CONTENT_TYPE.values)).
      apply Forall_forall. intros p Hp. apply in_map_iff in Hp.
      destruct Hp as (id & <- & _). apply callsAtMost_typeCallback.
    + intros results. apply callsAtMost_none.
      destruct (sumCounts (successful results) =? 0); reflexivity.
  - intros e. apply callsAtMost_none. unfold rethrow.
    destruct (instanceof_TourAPIError e); reflexivity.
Qed.

Lemma callsAtMost_getRegionStats w areaCodes :
  outcome (areaCodeLookup w) = Ok areaCodes ->
  callsAtMost (4 + 4 * List.length areaCodes) (getRegionStats w).
Proof.
  intros Hlookup. unfold getRegionStats. fold (areaCodeLookup w).
  replace (4 + 4 * List.length areaCodes)%nat
    with (4 + 4 * List.length areaCodes + 0)%nat by lia.
  apply callsAtMost_try.
  - apply (callsAtMost_bind_ok _ _ _ _ areaCodes Hlookup).
    + apply operations_callsAtMost.
    + destruct (List.length areaCodes =? 0)%nat.
      * apply callsAtMost_none. reflexivity.
      * replace (4 * List.length areaCodes)%nat
          with (4 * List.length (map (regionCallback w) areaCodes) + 0)%nat
          by (rewrite length_map; lia).
        apply callsAtMost_bind.
        -- apply callsAtMost_allSettled. apply Forall_forall. intros p Hp.
           apply in_map_iff in Hp. destruct Hp as (areaCode & <- & _).
           apply callsAtMost_regionCallback.
        -- intros results. apply callsAtMost_none. reflexivity.
  - intros e. apply callsAtMost_none. unfold rethrow.
    destruct (instanceof_TourAPIError e); reflexivity.
Qed.

(** X26.  The statistics call [fetch] a bounded number of times: the type
    statistics 32 times at most, four for each of the eight content types;
    the region statistics, for a lookup that gives [n] area codes, [4 + 4 n]
    times at most; and the summary, which collects both, [36 + 4 n] times at
    most. *)
Theorem statistics_calls_of_fetch :
  forall w areaCodes,
    outcome (areaCodeLookup w) = Ok areaCodes ->
    callsAtMost 32 (getTypeStats w) /\
    callsAtMost (4 + 4 * List.length areaCodes) (getRegionStats w) /\
    callsAtMost (36 + 4 * List.length areaCodes) (getStatsSummary w).
Proof.
  intros w areaCodes Hlookup.
  split; [apply callsAtMost_getTypeStats|].
  split; [apply callsAtMost_getRegionStats, Hlookup|].
  unfold getStatsSummary.
  replace (36 + 4 * List.length areaCodes)%nat
    with (4 + 4 * List.length areaCodes + 32 + 0 + 0)%nat by lia.
  apply callsAtMost_try.
  - apply callsAtMost_bind.
    + apply callsAtMost_all2.
      * apply callsAtMost_getRegionStats, Hlookup.
      * apply callsAtMost_getTypeStats.
    + intros both. apply callsAtMost_none. reflexivity.
  - intros e. apply callsAtMost_none. unfold rethrow.
    destruct (instanceof_TourAPIError e); reflexivity.
Qed.

Lemma statistics_calls_of_fetch_witness :
  callsAtMost 32 (getTypeStats sampleUpstream) /\
  callsAtMost 20 (getRegionStats sampleUpstream) /\
  callsAtMost 52 (getStatsSummary sampleUpstream).
Proof.
  apply (statistics_calls_of_fetch sampleUpstream sampleAreaCodes).
  vm_compute. reflexivity.
Defined.

(* ===================================================================== *)
(** * Properties of the pages *)
(* ===================================================================== *)

Lemma getDetailCommon_throws w p e :
  outcome (getDetailCommon w p) = Throw e -> instanceof_TourAPIError e = true.
Proof.
  unfold getDetailCommon. destruct (blank (DetailParams.contentId p));
    only_TourAPIError.
Qed.

(** The listing call throws an error of the client, except for a keyword
    given more than once. *)
Lemma listingCall_throws w areaCode contentTypeId keyword pageNo e :
  outcome (listingCall w areaCode contentTypeId keyword pageNo) = Throw e ->
  (instanceof_TourAPIError e = false <-> exists values, keyword = Some (Many values)).
Proof.
  assert (Hnot : forall t : bool, t = true -> forall P : Prop, ~ P -> (t = false <-> P)).
  { intros t -> P HP. split; [discriminate|intros H; destruct (HP H)]. }
  unfold listingCall. cbv zeta. destruct keyword as [[text|values]|].
  - intros He. apply Hnot; [|intros (values & H); discriminate H].
    revert He. destruct (negb (blank (Some text))).
    + unfold searchKeyword. destruct (blank _); only_TourAPIError.
    + unfold getAreaBasedList. only_TourAPIError.
  - intros [= <-]. split; [intros _; exists values; reflexivity|reflexivity].
  - intros He. apply Hnot; [|intros (values & H); discriminate H].
    revert He. cbn [blank negb]. unfold getAreaBasedList. only_TourAPIError.
Qed.

Lemma getDetailCommon_not_found w key contentId :
  outcome (getServiceKey w) = Ok key ->
  blank (Some contentId) = false ->
  answersNoRecord w detailCommon2
    (commonQuery key ++ [("contentId", trim contentId)])%list ->
  outcome (getDetailCommon w (DetailParams.mk (Some contentId))) =
    Throw (TourAPIError_default "상세 정보를 찾을 수 없습니다.").
Proof.
  intros Hkey Hblank Hanswer.
  unfold getDetailCommon. cbn [DetailParams.contentId].
  lookup_not_found Hkey Hblank Hanswer.
Qed.

Lemma requestsWith_warn {A} name value text (a : A) :
  requestsWith name value (emit (EvConsoleWarn text) ;;; ret a).
Proof. unfold requestsWith. simpl. repeat constructor. Qed.

(** X27.  The detail page never fails.  An identifier that is empty or made
    of white space gives the 404 page without any request, so the message of
    the missing identifier is never shown; otherwise the lookup runs on the
    trimmed identifier: its record is rendered, an error whose message
    contains ['찾을 수 없습니다'] gives the 404 page, as does an upstream
    that holds no record, and any other error is shown in the box
    ['데이터를 불러올 수 없습니다'] with its message.  The box for other
    errors, ['오류가 발생했습니다'], is never shown. *)
Theorem DetailPage_outcomes :
  forall w contentId,
    let lookup := getDetailCommon w (DetailParams.mk (Some (trim contentId))) in
    (exists page, outcome (DetailPage w contentId) = Ok page) /\
    (blank (Some contentId) = true ->
     outcome (DetailPage w contentId) = Ok NotFound /\
     trace (DetailPage w contentId) = []) /\
    (blank (Some contentId) = false ->
     (forall response,
        outcome lookup = Ok response ->
        outcome (DetailPage w contentId) = Ok (Rendered (item response))) /\
     (forall e,
        outcome lookup = Throw e ->
        outcome (DetailPage w contentId) =
          Ok (if includes (error_message e) "찾을 수 없습니다"
              then NotFound
              else ErrorBox "데이터를 불러올 수 없습니다" (error_message e))) /\
     (forall key,
        outcome (getServiceKey w) = Ok key ->
        answersNoRecord w detailCommon2
          (commonQuery key ++ [("contentId", trim contentId)])%list ->
        outcome (DetailPage w contentId) = Ok NotFound)) /\
    (forall message,
       outcome (DetailPage w contentId) <>
       Ok (ErrorBox "오류가 발생했습니다" message)).
Proof.
  intros w contentId lookup.
  assert (Hok : forall response,
            outcome lookup = Ok response ->
            outcome (TourDetailContent w (trim contentId)) =
              Ok (Rendered (item response))).
  { intros response Hr. unfold TourDetailContent. apply outcome_try_ok.
    fold lookup. rewrite (outcome_bind_ok _ _ response Hr). reflexivity. }
  assert (Hthrow : forall e,
            outcome lookup = Throw e ->
            outcome (TourDetailContent w (trim contentId)) =
              Ok (if includes (error_message e) "찾을 수 없습니다"
                  then NotFound
                  else ErrorBox "데이터를 불러올 수 없습니다" (error_message e))).
  { intros e He. unfold TourDetailContent. fold lookup.
    rewrite (outcome_try_throw _ _ e); [|apply outcome_bind_throw; exact He].
    rewrite (getDetailCommon_throws w _ e He).
    destruct (includes (error_message e) "찾을 수 없습니다"); reflexivity. }
  unfold DetailPage. destruct (blank (Some contentId)) eqn:Hblank.
  - split; [exists NotFound; reflexivity|].
    split; [intros _; split; reflexivity|].
    split; [discriminate|].
    intros message. discriminate.
  - split; [|split; [discriminate|split]].
    + destruct (outcome lookup) as [response|e] eqn:E.
      * eexists. apply Hok. reflexivity.
      * eexists. apply Hthrow. reflexivity.
    + intros _. split; [exact Hok|]. split; [exact Hthrow|].
      intros key Hkey Hanswer.
      assert (He : outcome lookup =
                   Throw (TourAPIError_default "상세 정보를 찾을 수 없습니다.")).
      { apply (getDetailCommon_not_found w key).
        - exact Hkey.
        - rewrite blank_trim. exact Hblank.
        - rewrite trim_idempotent. exact Hanswer. }
      rewrite (Hthrow _ He). reflexivity.
    + intros message.
      destruct (outcome lookup) as [response|e] eqn:E.
      * rewrite (Hok response eq_refl). discriminate.
      * rewrite (Hthrow e eq_refl).
        destruct (includes (error_message e) "찾을 수 없습니다"); discriminate.
Qed.

Lemma DetailPage_outcomes_witness :
  outcome (DetailPage noRecords " 125266 ") = Ok NotFound /\
  outcome (DetailPage noRecords "   ") = Ok NotFound.
Proof.
  destruct (DetailPage_outcomes noRecords " 125266 ")
    as (_ & _ & Hlookup & _).
  destruct (DetailPage_outcomes noRecords "   ") as (_ & Hblank & _).
  split.
  - destruct Hlookup as (_ & _ & Hnone); [vm_compute; reflexivity|].
    apply (Hnone "key"); [vm_compute; reflexivity|].
    apply noRecords_answersNoRecord.
  - apply Hblank. vm_compute. reflexivity.
Defined.

(** X28.  The optional sections of the detail page never fail: whatever
    their lookup does, the operating hours, the pet information and the
    gallery give their record or nothing.  The gallery is never given an
    empty list of images, and its requests ask for the first twenty
    images. *)
Theorem optional_sections_never_fail :
  forall w contentId contentTypeId title,
    (exists intro,
       outcome (TourIntroContent w contentId contentTypeId) = Ok intro /\
       (intro = None <->
        exists e, outcome (getDetailIntro w
                             (DetailIntroParams.mk (Some contentId)
                                                   (Some contentTypeId))) = Throw e)) /\
    (exists pet,
       outcome (TourPetContent w contentId) = Ok pet /\
       (pet = None <->
        exists e, outcome (getDetailPetTour w (DetailParams.mk (Some contentId))) =
                  Throw e)) /\
    (exists gallery,
       outcome (TourGalleryContent w contentId title) = Ok gallery /\
       gallery <> Some [] /\
       (forall images,
          gallery = Some images ->
          exists total,
            outcome (getDetailImage w
                       (DetailImageParams.mk (Some contentId) (Some 20) (Some 1))) =
            Ok (TourImageResponse.mk images total))) /\
    requestsWith "numOfRows" "20" (TourGalleryContent w contentId title) /\
    requestsWith "pageNo" "1" (TourGalleryContent w contentId title).
Proof.
  intros w contentId contentTypeId title.
  split; [|split; [|split; [|split]]].
  - unfold TourIntroContent.
    destruct (outcome (getDetailIntro w _)) as [response|e] eqn:E.
    + exists (Some (item response)). split.
      * apply outcome_try_ok. rewrite (outcome_bind_ok _ _ response E).
        reflexivity.
      * split; [discriminate|intros (e & He); discriminate He].
    + exists None. split.
      * rewrite (outcome_try_throw _ _ e); [reflexivity|].
        apply outcome_bind_throw. exact E.
      * split; [intros _; exists e; reflexivity|reflexivity].
  - unfold TourPetContent.
    destruct (outcome (getDetailPetTour w _)) as [response|e] eqn:E.
    + exists (Some (item response)). split.
      * apply outcome_try_ok. rewrite (outcome_bind_ok _ _ response E).
        reflexivity.
      * split; [discriminate|intros (e & He); discriminate He].
    + exists None. split.
      * rewrite (outcome_try_throw _ _ e); [reflexivity|].
        apply outcome_bind_throw. exact E.
      * split; [intros _; exists e; reflexivity|reflexivity].
  - unfold TourGalleryContent.
    destruct (outcome (getDetailImage w _)) as [[images total]|e] eqn:E.
    + destruct images as [|image images].
      * exists None. split; [|split; [discriminate|discriminate]].
        apply outcome_try_ok. rewrite (outcome_bind_ok _ _ _ E). reflexivity.
      * exists (Some (image :: images)).
        split; [|split; [discriminate|]].
        -- apply outcome_try_ok. rewrite (outcome_bind_ok _ _ _ E). reflexivity.
        -- intros images' [= <-]. exists total. reflexivity.
    + exists None. split; [|split; [discriminate|discriminate]].
      rewrite (outcome_try_throw _ _ e); [reflexivity|].
      apply outcome_bind_throw. exact E.
  - unfold TourGalleryContent. apply requestsWith_try.
    + apply requestsWith_bind.
      * unfold getDetailImage.
        destruct (blank _); [apply requestsWith_log_throw|].
        apply requestsWith_bind; [apply requestsWith_getCommonParams|].
        intros common. cbv zeta.
        apply requestsWith_request; [|intros; reflexivity].
        apply (In_buildQueryString "numOfRows" (PNum 20)). simpl. tauto.
      * intros response. apply requestsWith_silent. cbv zeta.
        destruct (List.length _ =? 0)%nat; reflexivity.
    + intros e. apply requestsWith_warn.
  - unfold TourGalleryContent. apply requestsWith_try.
    + apply requestsWith_bind.
      * unfold getDetailImage.
        destruct (blank _); [apply requestsWith_log_throw|].
        apply requestsWith_bind; [apply requestsWith_getCommonParams|].
        intros common. cbv zeta.
        apply requestsWith_request; [|intros; reflexivity].
        apply (In_buildQueryString "pageNo" (PNum 1)). simpl. tauto.
      * intros response. apply requestsWith_silent. cbv zeta.
        destruct (List.length _ =? 0)%nat; reflexivity.
    + intros e. apply requestsWith_warn.
Qed.

Ltac home_request name v :=
  apply requestsWith_bind; [apply requestsWith_getCommonParams|];
  intros common; cbv zeta;
  apply requestsWith_request; [|intros; reflexivity];
  apply (In_buildQueryString name v); simpl; tauto.

Ltac home_requests name v :=
  unfold TourListContent; apply requestsWith_try;
    [apply requestsWith_bind;
       [|intros data; apply requestsWith_silent; reflexivity]
    |intros e; apply requestsWith_silent;
     destruct (instanceof_TourAPIError e); reflexivity];
  unfold listingCall; cbv zeta;
  match goal with
  | |- context [match ?keyword with Some _ => _ | None => _ end] =>
      destruct keyword as [[text|values]|];
        [destruct (blank (Some text)) eqn:Hkeyword
        |apply requestsWith_silent; reflexivity
        |destruct (blank None) eqn:Hkeyword]
  end; cbn [negb];
  try (unfold getAreaBasedList; home_request name v);
  unfold searchKeyword; cbn [SearchKeywordParams.keyword];
  match goal with
  | |- context [blank (Some ?k)] =>
      destruct (blank (Some k)); [apply requestsWith_log_throw|]
  end;
  home_request name v.

(** X29.  The list of the home page never fails.  For a keyword given once
    or not at all the page of the listing call is rendered, and an error of
    that call is shown in the box ['데이터를 불러올 수 없습니다'] with its
    message; a keyword that is not blank is searched for in its trimmed form,
    a blank one gives the plain listing.  A keyword given more than once
    reaches the page as an array: no request is made and the box for other
    errors, ['오류가 발생했습니다'], is shown, which is shown in this case
    only.  When [response.json()] rejects with built-in errors only, the home
    page never ends with a [VALIDATION_ERROR].  Every request asks for twelve
    rows of the page given, a safe integer, page 1 for a page that is no
    number or 0, for the area given, joined with commas when it is given more
    than once, and for the first content type only when several are
    selected. *)
Theorem TourListContent_renders :
  forall w areaCode contentTypeId keyword pageNo mode,
    (forall n, pageNo = Some n -> isSafeInteger n) ->
    let call := listingCall w areaCode contentTypeId keyword pageNo in
    let page := TourListContent w areaCode contentTypeId keyword pageNo mode in
    (exists shown, outcome page = Ok shown) /\
    (forall data,
       outcome call = Ok data ->
       outcome page = Ok (Rendered (data, listMode mode))) /\
    (forall e,
       outcome call = Throw e ->
       (instanceof_TourAPIError e = false <->
        exists values, keyword = Some (Many values)) /\
       outcome page =
         Ok (if instanceof_TourAPIError e
             then ErrorBox "데이터를 불러올 수 없습니다" (error_message e)
             else ErrorBox "오류가 발생했습니다"
                           "관광지 목록을 불러오는 중 문제가 발생했습니다.")) /\
    (forall values,
       keyword = Some (Many values) ->
       page = ret (ErrorBox "오류가 발생했습니다"
                            "관광지 목록을 불러오는 중 문제가 발생했습니다.")) /\
    (forall message,
       outcome page = Ok (ErrorBox "오류가 발생했습니다" message) ->
       exists values, keyword = Some (Many values)) /\
    (nativeJson w -> ~ throwsType call VALIDATION_ERROR) /\
    requestsWith "numOfRows" "12" page /\
    requestsWith "pageNo" (string_of_Z (or_number pageNo 1)) page /\
    (forall text,
       keyword = Some (One text) -> blank (Some text) = false ->
       requestsWith "keyword" (trim text) page) /\
    (forall value,
       areaCode = Some value ->
       requestsWith "areaCode" (String_of_SearchParam value) page) /\
    (forall id, singleContentTypeId contentTypeId = Some id ->
                requestsWith "contentTypeId" id page) /\
    (forall first others,
       first <> "" ->
       TourListContent w areaCode (Some (Many (first :: others))) keyword pageNo mode =
       TourListContent w areaCode (Some (One first)) keyword pageNo mode).
Proof.
  intros w areaCode contentTypeId keyword pageNo mode _ call page.
  assert (Hok : forall data,
            outcome call = Ok data ->
            outcome page = Ok (Rendered (data, listMode mode))).
  { intros data Hdata. unfold page, TourListContent. fold call.
    apply outcome_try_ok. rewrite (outcome_bind_ok _ _ data Hdata). reflexivity. }
  assert (Hthrow : forall e,
            outcome call = Throw e ->
            outcome page =
              Ok (if instanceof_TourAPIError e
                  then ErrorBox "데이터를 불러올 수 없습니다" (error_message e)
                  else ErrorBox "오류가 발생했습니다"
                                "관광지 목록을 불러오는 중 문제가 발생했습니다.")).
  { intros e He. unfold page, TourListContent. fold call.
    rewrite (outcome_try_throw _ _ e); [|apply outcome_bind_throw; exact He].
    destruct (instanceof_TourAPIError e); reflexivity. }
  split; [|split; [|split; [|split; [|split; [|split; [|split; [|split;
    [|split; [|split; [|split]]]]]]]]]].
  - destruct (outcome call) as [data|e] eqn:E.
    + eexists. apply (Hok data). reflexivity.
    + eexists. apply (Hthrow e). reflexivity.
  - exact Hok.
  - intros e He. split; [|apply Hthrow, He].
    apply (listingCall_throws w areaCode contentTypeId keyword pageNo e He).
  - intros values ->. reflexivity.
  - intros message Hbox.
    destruct (outcome call) as [data|e] eqn:E.
    + rewrite (Hok data eq_refl) in Hbox. discriminate Hbox.
    + rewrite (Hthrow e eq_refl) in Hbox.
      apply (listingCall_throws w areaCode contentTypeId keyword pageNo e E).
      destruct (instanceof_TourAPIError e); [|reflexivity].
      injection Hbox as Htitle _. discriminate Htitle.
  - intros Hjson. unfold call, listingCall. cbv zeta.
    destruct keyword as [[text|values]|].
    + destruct (blank (Some text)) eqn:Hkeyword; cbn [negb].
      * unfold getAreaBasedList. not_validation Hjson.
      * unfold searchKeyword. cbn [SearchKeywordParams.keyword trimmed].
        rewrite blank_trim, Hkeyword. not_validation Hjson.
    + intros (e & He & Ht). injection He as <-. discriminate Ht.
    + cbn [blank negb]. unfold getAreaBasedList. not_validation Hjson.
  - unfold page. home_requests "numOfRows" (PNum 12).
  - unfold page. home_requests "pageNo" (PNum (or_number pageNo 1)).
  - intros text -> Hblank. unfold page.
    unfold TourListContent. apply requestsWith_try;
      [apply requestsWith_bind;
         [|intros data; apply requestsWith_silent; reflexivity]
      |intros e; apply requestsWith_silent;
       destruct (instanceof_TourAPIError e); reflexivity].
    unfold listingCall. cbv zeta. rewrite Hblank. cbn [negb].
    unfold searchKeyword. cbn [SearchKeywordParams.keyword trimmed].
    rewrite blank_trim, Hblank, trim_idempotent.
    home_request "keyword" (PStr (trim text)).
  - intros value ->. unfold page. cbn [option_map].
    home_requests "areaCode" (PStr (String_of_SearchParam value)).
  - intros id Hid. unfold page.
    unfold TourListContent. apply requestsWith_try;
      [apply requestsWith_bind;
         [|intros data; apply requestsWith_silent; reflexivity]
      |intros e; apply requestsWith_silent;
       destruct (instanceof_TourAPIError e); reflexivity].
    unfold listingCall. cbv zeta. rewrite Hid.
    destruct keyword as [[text|values]|];
      [destruct (blank (Some text)) eqn:Hkeyword
      |apply requestsWith_silent; reflexivity
      |destruct (blank None) eqn:Hkeyword]; cbn [negb];
      try (unfold getAreaBasedList; home_request "contentTypeId" (PStr id));
      unfold searchKeyword; cbn [SearchKeywordParams.keyword];
      match goal with
      | |- context [blank (Some ?k)] =>
          destruct (blank (Some k)); [apply requestsWith_log_throw|]
      end;
      home_request "contentTypeId" (PStr id).
  - intros first others Hfirst. unfold TourListContent, listingCall.
    cbn [singleContentTypeId nth_error].
    apply String.eqb_neq in Hfirst. rewrite Hfirst. reflexivity.
Qed.

Lemma TourListContent_renders_witness :
  ~ throwsType (listingCall htmlBody None None (Some (One " 바다 ")) (Some 2))
               VALIDATION_ERROR.
Proof.
  destruct (TourListContent_renders htmlBody None None (Some (One " 바다 "))
              (Some 2) None)
    as (_ & _ & _ & _ & _ & Hvalid & _).
  - intros n [= <-]. unfold isSafeInteger. lia.
  - apply Hvalid. apply nativeJson_htmlBody.
Defined.

(** A keyword given twice: the box for other errors, and no request. *)
Example TourListContent_repeated_keyword :
  TourListContent sampleUpstream None None (Some (Many ["바다"; "산"])) (Some 1) None =
  (Ok (ErrorBox "오류가 발생했습니다"
                "관광지 목록을 불러오는 중 문제가 발생했습니다."), []).
Proof. reflexivity. Qed.

(* ===================================================================== *)
(** * The page number of the address *)
(* ===================================================================== *)

Lemma digits_of_uint_acc d : forall p,
  digits (Z.pos p) (NilEmpty.string_of_uint d) = Z.pos (Pos.of_uint_acc d p).
Proof.
  induction d as [|d IH|d IH|d IH|d IH|d IH|d IH|d IH|d IH|d IH|d IH];
    intros p; cbn [NilEmpty.string_of_uint Pos.of_uint_acc digits];
    [reflexivity|..];
    match goal with
    | |- context [digit ?a] =>
        let v := eval vm_compute in (digit a) in change (digit a) with v
    end;
    cbv iota beta; rewrite <- IH; f_equal; lia.
Qed.

Lemma digits_of_uint d :
  digits 0 (NilEmpty.string_of_uint d) = Z.of_N (Pos.of_uint d).
Proof.
  induction d as [|d IH|d IH|d IH|d IH|d IH|d IH|d IH|d IH|d IH|d IH];
    cbn [NilEmpty.string_of_uint Pos.of_uint digits];
    [reflexivity|..];
    match goal with
    | |- context [digit ?a] =>
        let v := eval vm_compute in (digit a) in change (digit a) with v
    end;
    cbv iota beta;
    [exact IH|..];
    match goal with
    | |- digits ?acc _ = _ =>
        let v := eval vm_compute in acc in change acc with v
    end;
    rewrite digits_of_uint_acc; reflexivity.
Qed.

(** The numeral of a positive number starts with a digit. *)
Lemma string_of_uint_head d :
  d <> Decimal.Nil ->
  exists a rest k,
    NilEmpty.string_of_uint d = String a rest /\ digit a = Some k /\
    a <> "-"%char /\ a <> "+"%char /\ ws1 a = false /\
    (forall b, ws2 a b = false) /\ (forall b c, ws3 a b c = false).
Proof.
  intros Hd.
  destruct d as [|d|d|d|d|d|d|d|d|d|d]; [contradiction|..];
    cbn [NilEmpty.string_of_uint];
    eexists; eexists; eexists;
    (split; [reflexivity|]);
    (split; [vm_compute; reflexivity|]);
    (split; [discriminate|]); (split; [discriminate|]);
    (split; [reflexivity|]); split; intros; reflexivity.
Qed.

Lemma parseInt_string_of_Z n : 1 <= n -> parseInt (string_of_Z n) = Some n.
Proof.
  intros Hn. destruct n as [|p|p]; try lia.
  unfold string_of_Z. cbn [Z.to_int NilZero.string_of_int].
  pose proof (DecimalPos.Unsigned.to_uint_nonnil p) as Hnil.
  assert (Hs : NilZero.string_of_uint (Pos.to_uint p) =
               NilEmpty.string_of_uint (Pos.to_uint p)).
  { unfold NilZero.string_of_uint. destruct (Pos.to_uint p); [contradiction|..];
      reflexivity. }
  rewrite Hs.
  destruct (string_of_uint_head (Pos.to_uint p) Hnil)
    as (a & rest & k & Hhead & Hdigit & Hminus & Hplus & H1 & H2 & H3).
  assert (Hvalue : digits 0 (String a rest) = Z.pos p).
  { rewrite <- Hhead, digits_of_uint, DecimalPos.Unsigned.of_to. reflexivity. }
  unfold parseInt, trimStart. rewrite Hhead.
  assert (Hstrip : strip false (String a rest) = String a rest).
  { cbn [strip]. rewrite H1. destruct rest as [|b rest]; [reflexivity|].
    rewrite H2. destruct rest as [|c rest]; [reflexivity|].
    rewrite H3. reflexivity. }
  rewrite Hstrip.
  assert (Hunsigned : unsigned (String a rest) = Some (Z.pos p)).
  { unfold unsigned. rewrite Hdigit, Hvalue. reflexivity. }
  destruct a as [[] [] [] [] [] [] [] []];
    try exact Hunsigned; contradiction.
Qed.

Lemma pageNoOf_at_least_one page n : pageNoOf page = Some n -> 1 <= n.
Proof.
  unfold pageNoOf. destruct (parseInt _) as [z|]; simpl; [|discriminate].
  intros [= <-]. lia.
Qed.

(** X21.  The page of the page bar comes back from the address.  A change of
    page writes the page as the only [page] of the address and keeps every
    other parameter; the home page reads that page back, for a page from 1
    on (below 2^53, where a number is an integer).  After a search, after
    clearing it and after a change of a filter the home page reads page 1;
    and whatever [page] holds, the page it reads is never below 1. *)
Theorem page_parameter_round_trip :
  forall searchParams newPage,
    1 <= newPage < 2 ^ 53 ->
    URLSearchParams.getAll "page" (handlePageChange searchParams newPage) =
      [string_of_Z newPage] /\
    (forall name, name <> "page" ->
       URLSearchParams.getAll name (handlePageChange searchParams newPage) =
       URLSearchParams.getAll name searchParams) /\
    pageNoOf (URLSearchParams.get "page" (handlePageChange searchParams newPage)) =
      Some newPage /\
    (forall keyword params,
       handleSearch false keyword searchParams = Some params ->
       pageNoOf (URLSearchParams.get "page" params) = Some 1) /\
    pageNoOf (URLSearchParams.get "page" (handleClear searchParams)) = Some 1 /\
    (forall updates,
       FilterUpdates.resetPage updates <> Some false ->
       pageNoOf (URLSearchParams.get "page" (updateFilters searchParams updates)) =
       Some 1) /\
    (forall page n, pageNoOf page = Some n -> 1 <= n).
Proof.
  intros searchParams newPage Hpage. unfold URLSearchParams.get.
  split; [|split; [|split; [|split; [|split; [|split]]]]].
  - unfold handlePageChange. rewrite URLSearchParamsFacts.getAll_set.
    reflexivity.
  - intros name Hn. apply String.eqb_neq in Hn. unfold handlePageChange.
    rewrite URLSearchParamsFacts.getAll_set, Hn. reflexivity.
  - unfold handlePageChange. rewrite URLSearchParamsFacts.getAll_set.
    cbn [String.eqb Ascii.eqb Bool.eqb hd_error]. unfold pageNoOf.
    assert (Hs : parseInt (string_of_Z newPage) = Some newPage)
      by (apply parseInt_string_of_Z; lia).
    assert (Hne : falsy_string (Some (string_of_Z newPage)) = false).
    { simpl. apply String.eqb_neq. intros Heq. rewrite Heq in Hs.
      discriminate Hs. }
    rewrite Hne. cbn [string_or_empty]. rewrite Hs. simpl. f_equal. lia.
  - intros keyword params [= <-].
    rewrite URLSearchParamsFacts.getAll_delete. reflexivity.
  - unfold handleClear. rewrite URLSearchParamsFacts.getAll_delete.
    reflexivity.
  - intros updates Hreset. rewrite updateFilters_getAll.
    destruct (FilterUpdates.resetPage updates) as [[|]|]; try reflexivity.
    congruence.
  - apply pageNoOf_at_least_one.
Qed.

Lemma page_parameter_round_trip_witness :
  pageNoOf
    (URLSearchParams.get "page"
       (handlePageChange [("keyword", "바다"); ("page", "2")] 7)) = Some 7.
Proof.
  destruct (page_parameter_round_trip [("keyword", "바다"); ("page", "2")] 7)
    as (_ & _ & Hread & _); [lia|exact Hread].
Defined.

(** What [parseInt] reads. *)
Example parseInt_reads :
  parseInt "12abc" = Some 12 /\ parseInt " -5" = Some (-5) /\
  parseInt "+7" = Some 7 /\ parseInt "abc" = None /\ parseInt "" = None /\
  parseInt "--5" = None /\ pageNoOf None = Some 1 /\
  pageNoOf (Some "0") = Some 1 /\ pageNoOf (Some "x") = None.
Proof. repeat split; vm_compute; reflexivity. Qed.

(* ===================================================================== *)
(** * The console outside development *)
(* ===================================================================== *)

Section Quiet.

Variable w : World.
Hypothesis production : NODE_ENV w <> Some "development".

Lemma quiet_bind {A B} (m : M A) (f : A -> M B) :
  quiet m -> (forall a, quiet (f a)) -> quiet (bind m f).
Proof.
  unfold quiet. destruct m as [[a|e] t]; simpl; intros Hm Hf; [|exact Hm].
  specialize (Hf a). unfold bind. destruct (f a) as [r t']. simpl in *.
  apply Forall_app. split; assumption.
Qed.

Lemma quiet_try {A} (m : M A) (h : Thrown -> M A) :
  quiet m -> (forall e, quiet (h e)) -> quiet (try_catch m h).
Proof.
  unfold quiet. destruct m as [[a|e] t]; simpl; intros Hm Hh; [exact Hm|].
  specialize (Hh e). unfold try_catch. destruct (h e) as [r t']. simpl in *.
  apply Forall_app. split; assumption.
Qed.

Lemma quiet_silent {A} (m : M A) : trace m = [] -> quiet m.
Proof. unfold quiet. intros ->. constructor. Qed.

Lemma quiet_logError e c : quiet (logError w e c).
Proof.
  unfold logError. destruct (NODE_ENV w) as [env|] eqn:E;
    [|apply quiet_silent; reflexivity].
  destruct (String.eqb_spec env "development") as [->|_];
    [contradiction|apply quiet_silent; reflexivity].
Qed.

Lemma quiet_log_throw {A} e c : quiet (logError w e c ;;; @throw A e).
Proof.
  apply quiet_bind; [apply quiet_logError|].
  intros _. apply quiet_silent. reflexivity.
Qed.

Lemma quiet_fetchWithRetry ep url n : quiet (fetchWithRetry w ep url n).
Proof.
  revert production. revert w ep url n.
  apply (fetchWithRetry_elim
           (fun w ep url n run =>
              NODE_ENV w <> Some "development" -> quiet run)).
  intros w' ep url n IH Hproduction.
  assert (Hlog : forall A e c, quiet (logError w' e c ;;; @throw A e)).
  { intros A e c. apply quiet_bind.
    - unfold logError. destruct (NODE_ENV w') as [env|] eqn:E;
        [|apply quiet_silent; reflexivity].
      destruct (String.eqb_spec env "development") as [->|_];
        [contradiction|apply quiet_silent; reflexivity].
    - intros _. apply quiet_silent. reflexivity. }
  apply quiet_try.
  - unfold attempt. apply quiet_bind.
    + unfold quiet. simpl. repeat constructor.
    + intros _. apply quiet_bind.
      * apply quiet_silent. destruct (fetch w' ep url n); reflexivity.
      * intros response. destruct (negb (ok response)).
        -- apply Hlog.
        -- apply quiet_silent. reflexivity.
  - intros error. destruct (isAbortError error).
    + apply Hlog.
    + destruct (le_lt_dec MAX_RETRIES n) as [Hle|Hlt].
      * apply Hlog.
      * apply quiet_bind.
        -- unfold quiet. simpl. repeat constructor.
        -- intros u. apply (IH error Hlt u Hproduction).
Qed.

Lemma quiet_request {A} ep (mkUrl : Params -> Query)
  (k : TourAPIResponse (ItemOf ep) -> list (ItemOf ep) -> M A) message :
  (forall data items, trace (k data items) = []) ->
  quiet
    (common <- getCommonParams w ;;
     try_catch
       (response <- fetchWithRetry w ep (mkUrl common) 0 ;;
        data <- settle (json response) ;;
        items <- parseAPIResponse w data ;;
        k data items)
       (rethrow message)).
Proof.
  intros Hk. apply quiet_bind.
  - unfold getCommonParams, getServiceKey. apply quiet_bind.
    + destruct (falsy_string _);
        [apply quiet_log_throw|apply quiet_silent; reflexivity].
    + intros key. apply quiet_silent. reflexivity.
  - intros common. apply quiet_try.
    + apply quiet_bind; [apply quiet_fetchWithRetry|].
      intros response. apply quiet_bind; [apply quiet_silent; reflexivity|].
      intros data. apply quiet_bind.
      * unfold parseAPIResponse.
        destruct (negb (String.eqb (resultCode (header data)) "0000")).
        -- apply quiet_log_throw.
        -- apply quiet_silent.
           destruct (body data) as [b|]; [|reflexivity].
           destruct (Body.items b) as [[x|xs]|]; reflexivity.
      * intros items. apply quiet_silent. apply Hk.
    + intros e. apply quiet_silent. unfold rethrow.
      destruct (instanceof_TourAPIError e); reflexivity.
Qed.

End Quiet.

Ltac quiet_operation Hproduction :=
  cbv zeta;
  first
    [ apply quiet_log_throw; exact Hproduction
    | apply quiet_request;
      [exact Hproduction
      |intros; first [reflexivity | apply trace_firstOrThrow]] ].

(** X30.  Outside development ([NODE_ENV] is not ['development']) the client
    writes nothing to the console: a run of the transport and of each of the
    seven operations holds calls of [fetch] and waits only, whatever errors
    it meets. *)
Theorem production_is_quiet :
  forall w,
    NODE_ENV w <> Some "development" ->
    (forall ep url, quiet (fetchWithRetry w ep url 0)) /\
    (forall p, quiet (getAreaCode w p)) /\
    (forall p, quiet (getAreaBasedList w p)) /\
    (forall p, quiet (searchKeyword w p)) /\
    (forall p, quiet (getDetailCommon w p)) /\
    (forall p, quiet (getDetailIntro w p)) /\
    (forall p, quiet (getDetailImage w p)) /\
    (forall p, quiet (getDetailPetTour w p)).
Proof.
  intros w Hproduction.
  split; [intros ep url; apply quiet_fetchWithRetry; exact Hproduction|].
  split; [|split; [|split; [|split; [|split; [|split]]]]]; intros p.
  - unfold getAreaCode. quiet_operation Hproduction.
  - unfold getAreaBasedList. quiet_operation Hproduction.
  - unfold searchKeyword. destruct (blank _); quiet_operation Hproduction.
  - unfold getDetailCommon. destruct (blank _); quiet_operation Hproduction.
  - unfold getDetailIntro. destruct (blank _); [quiet_operation Hproduction|].
    destruct (blank _); quiet_operation Hproduction.
  - unfold getDetailImage. destruct (blank _); quiet_operation Hproduction.
  - unfold getDetailPetTour. destruct (blank _); quiet_operation Hproduction.
Qed.

Lemma production_is_quiet_witness :
  quiet (getAreaBasedList alwaysHttp500
           (AreaBasedListParams.mk (Some "1") None None None)).
Proof.
  destruct (production_is_quiet alwaysHttp500) as (_ & _ & Hlist & _).
  - discriminate.
  - apply Hlist.
Defined.

(** In development the same run logs each failed attempt and the error of the
    exhausted retries. *)
Example development_logs :
  List.length
    (filter (fun ev => match ev with EvLogError _ _ => true | _ => false end)
       (trace (getAreaBasedList
                 (mkWorld (Some "key") None (Some "development")
                          (fetch alwaysHttp500) 0)
                 (AreaBasedListParams.mk (Some "1") None None None)))) = 5%nat.
Proof. vm_compute. reflexivity. Qed.

(* ===================================================================== *)
(** * The page defaults on the wire *)
(* ===================================================================== *)

(** Every run of the transport begins with the call of [fetch]. *)
Lemma fetchWithRetry_first w ep url n :
  exists rest, trace (fetchWithRetry w ep url n) = EvFetch ep url n :: rest.
Proof.
  rewrite fetchWithRetry_equation_1. unfold attempt.
  match goal with
  | |- context [try_catch (emit ?ev ;;; ?m) ?h] =>
      generalize h; generalize m
  end.
  intros [[r|e] t] h; simpl.
  - eexists. reflexivity.
  - destruct (h e) as [r' t']. eexists. reflexivity.
Qed.

Lemma firstRequestWith_request {A} w ep url name value
  (k : Response (ItemOf ep) -> M A) (h : Thrown -> M A) :
  In (name, value) url ->
  firstRequestWith ep name value
    (try_catch (response <- fetchWithRetry w ep url 0 ;; k response) h).
Proof.
  intros Hin. destruct (fetchWithRetry_first w ep url 0) as (rest & Hrest).
  exists url. unfold firstRequestWith.
  destruct (fetchWithRetry w ep url 0) as [[r|e] t]; simpl in *; subst t.
  - destruct (k r) as [[a|e] t']; simpl.
    + eexists. split; [reflexivity|exact Hin].
    + destruct (h e) as [r' t'']. eexists. split; [reflexivity|exact Hin].
  - destruct (h e) as [r' t'']. eexists. split; [reflexivity|exact Hin].
Qed.

Ltac page_default_sent Hkey H :=
  rewrite (getCommonParams_configured _ _ Hkey), bind_ret; cbv zeta;
  apply firstRequestWith_request;
  first [ apply (In_buildQueryString "numOfRows" (PNum 10))
        | apply (In_buildQueryString "pageNo" (PNum 1)) ];
  rewrite H; simpl; tauto.

(** C10.  In [getAreaCode], [getAreaBasedList], [searchKeyword] and
    [getDetailImage] a [numOfRows] or [pageNo] of [0] is replaced by the
    default before the query is built.  The run is the run of the call that
    omits the parameter, and every request of the run carries [numOfRows=10],
    respectively [pageNo=1].  Such a request is sent: with a service key, and
    with the keyword or the identifier the operation requires, the run begins
    with the first attempt of a request to the endpoint of the operation that
    carries the default. *)
Theorem zero_page_parameters_default :
  forall w,
    ((forall p, getAreaCode w p =
                getAreaCode w (AreaCodeParams.mk
                                 (omit0 (AreaCodeParams.numOfRows p))
                                 (omit0 (AreaCodeParams.pageNo p)))) /\
     (forall p, AreaCodeParams.numOfRows p = Some 0 ->
                requestsWith "numOfRows" "10" (getAreaCode w p)) /\
     (forall p, AreaCodeParams.pageNo p = Some 0 ->
                requestsWith "pageNo" "1" (getAreaCode w p)) /\
     (forall key p, serviceKeyOf w = Some key ->
                    AreaCodeParams.numOfRows p = Some 0 ->
                    firstRequestWith areaCode2 "numOfRows" "10" (getAreaCode w p)) /\
     (forall key p, serviceKeyOf w = Some key ->
                    AreaCodeParams.pageNo p = Some 0 ->
                    firstRequestWith areaCode2 "pageNo" "1" (getAreaCode w p))) /\
    ((forall p, getAreaBasedList w p =
                getAreaBasedList w (AreaBasedListParams.mk
                                      (AreaBasedListParams.areaCode p)
                                      (AreaBasedListParams.contentTypeId p)
                                      (omit0 (AreaBasedListParams.numOfRows p))
                                      (omit0 (AreaBasedListParams.pageNo p)))) /\
     (forall p, AreaBasedListParams.numOfRows p = Some 0 ->
                requestsWith "numOfRows" "10" (getAreaBasedList w p)) /\
     (forall p, AreaBasedListParams.pageNo p = Some 0 ->
                requestsWith "pageNo" "1" (getAreaBasedList w p)) /\
     (forall key p, serviceKeyOf w = Some key ->
                    AreaBasedListParams.numOfRows p = Some 0 ->
                    firstRequestWith areaBasedList2 "numOfRows" "10"
                      (getAreaBasedList w p)) /\
     (forall key p, serviceKeyOf w = Some key ->
                    AreaBasedListParams.pageNo p = Some 0 ->
                    firstRequestWith areaBasedList2 "pageNo" "1"
                      (getAreaBasedList w p))) /\
    ((forall p, searchKeyword w p =
                searchKeyword w (SearchKeywordParams.mk
                                   (SearchKeywordParams.keyword p)
                                   (SearchKeywordParams.areaCode p)
                                   (SearchKeywordParams.contentTypeId p)
                                   (omit0 (SearchKeywordParams.numOfRows p))
                                   (omit0 (SearchKeywordParams.pageNo p)))) /\
     (forall p, SearchKeywordParams.numOfRows p = Some 0 ->
                requestsWith "numOfRows" "10" (searchKeyword w p)) /\
     (forall p, SearchKeywordParams.pageNo p = Some 0 ->
                requestsWith "pageNo" "1" (searchKeyword w p)) /\
     (forall key p, serviceKeyOf w = Some key ->
                    blank (SearchKeywordParams.keyword p) = false ->
                    SearchKeywordParams.numOfRows p = Some 0 ->
                    firstRequestWith searchKeyword2 "numOfRows" "10"
                      (searchKeyword w p)) /\
     (forall key p, serviceKeyOf w = Some key ->
                    blank (SearchKeywordParams.keyword p) = false ->
                    SearchKeywordParams.pageNo p = Some 0 ->
                    firstRequestWith searchKeyword2 "pageNo" "1"
                      (searchKeyword w p))) /\
    ((forall p, getDetailImage w p =
                getDetailImage w (DetailImageParams.mk
                                    (DetailImageParams.contentId p)
                                    (omit0 (DetailImageParams.numOfRows p))
                                    (omit0 (DetailImageParams.pageNo p)))) /\
     (forall p, DetailImageParams.numOfRows p = Some 0 ->
                requestsWith "numOfRows" "10" (getDetailImage w p)) /\
     (forall p, DetailImageParams.pageNo p = Some 0 ->
                requestsWith "pageNo" "1" (getDetailImage w p)) /\
     (forall key p, serviceKeyOf w = Some key ->
                    blank (DetailImageParams.contentId p) = false ->
                    DetailImageParams.numOfRows p = Some 0 ->
                    firstRequestWith detailImage2 "numOfRows" "10"
                      (getDetailImage w p)) /\
     (forall key p, serviceKeyOf w = Some key ->
                    blank (DetailImageParams.contentId p) = false ->
                    DetailImageParams.pageNo p = Some 0 ->
                    firstRequestWith detailImage2 "pageNo" "1"
                      (getDetailImage w p))).
Proof.
  intros w. split; [|split; [|split]]; (split; [|split; [|split; [|split]]]).
  - intros p. unfold getAreaCode. simpl. rewrite !or_number_omit0. reflexivity.
  - intros p H. unfold getAreaCode. page_default H.
  - intros p H. unfold getAreaCode. page_default H.
  - intros key p Hkey H. unfold getAreaCode. page_default_sent Hkey H.
  - intros key p Hkey H. unfold getAreaCode. page_default_sent Hkey H.
  - intros p. unfold getAreaBasedList. simpl. rewrite !or_number_omit0. reflexivity.
  - intros p H. unfold getAreaBasedList. page_default H.
  - intros p H. unfold getAreaBasedList. page_default H.
  - intros key p Hkey H. unfold getAreaBasedList. page_default_sent Hkey H.
  - intros key p Hkey H. unfold getAreaBasedList. page_default_sent Hkey H.
  - intros p. unfold searchKeyword. simpl. rewrite !or_number_omit0. reflexivity.
  - intros p H. unfold searchKeyword.
    destruct (blank (SearchKeywordParams.keyword p));
      [apply requestsWith_log_throw | page_default H].
  - intros p H. unfold searchKeyword.
    destruct (blank (SearchKeywordParams.keyword p));
      [apply requestsWith_log_throw | page_default H].
  - intros key p Hkey Hblank H. unfold searchKeyword. rewrite Hblank.
    page_default_sent Hkey H.
  - intros key p Hkey Hblank H. unfold searchKeyword. rewrite Hblank.
    page_default_sent Hkey H.
  - intros p. unfold getDetailImage. simpl. rewrite !or_number_omit0. reflexivity.
  - intros p H. unfold getDetailImage.
    destruct (blank (DetailImageParams.contentId p));
      [apply requestsWith_log_throw | page_default H].
  - intros p H. unfold getDetailImage.
    destruct (blank (DetailImageParams.contentId p));
      [apply requestsWith_log_throw | page_default H].
  - intros key p Hkey Hblank H. unfold getDetailImage. rewrite Hblank.
    page_default_sent Hkey H.
  - intros key p Hkey Hblank H. unfold getDetailImage. rewrite Hblank.
    page_default_sent Hkey H.
Qed.

Lemma zero_page_parameters_default_witness :
  firstRequestWith searchKeyword2 "numOfRows" "10"
    (searchKeyword noRecords
       (SearchKeywordParams.mk (Some "바다") None None (Some 0) (Some 3))) /\
  firstRequestWith detailImage2 "pageNo" "1"
    (getDetailImage alwaysHttp500
       (DetailImageParams.mk (Some "125266") (Some 5) (Some 0))).
Proof.
  destruct (zero_page_parameters_default noRecords)
    as (_ & _ & (_ & _ & _ & Hrows & _) & _).
  destruct (zero_page_parameters_default alwaysHttp500)
    as (_ & _ & _ & (_ & _ & _ & _ & Hpage)).
  split.
  - apply (Hrows "key"); reflexivity.
  - apply (Hpage "key"); reflexivity.
Defined.

(* ===================================================================== *)
(** * The percentages and the total of the statistics *)
(* ===================================================================== *)











(** What [getTypeStats] gives for 23 places of 160. *)
Example percentageOf_23_160 : percentageOf 23 160 = decimal2 1437.
Proof. vm_compute. reflexivity. Qed.





(** What [getStatsSummary] gives for these counts. *)
Example getStatsSummary_hugeCounts :
  match outcome (getStatsSummary hugeCounts) with
  | Ok summary =>
      StatsSummary.totalCount summary = 9007199254740992 /\
      map TypeStats.count (StatsSummary.topTypes summary) = [9007199254740992; 1; 1]
  | Throw _ => False
  end.
Proof. vm_compute. split; reflexivity. Qed.

(** The double of an integer holds that integer up to 2^53, and the nearest
    even multiple of the spacing beyond. *)
Example Number_of_Z_exact_to_2_53 :
  map (fun z => Z_of_Number (Number_of_Z z))
      [0; 1; 1200; -160; 9007199254740991; 9007199254740992; -9007199254740992;
       9007199254740993; 9007199254740995] =
  [0; 1; 1200; -160; 9007199254740991; 9007199254740992; -9007199254740992;
   9007199254740992; 9007199254740996].
Proof. vm_compute. reflexivity. Qed.

(** The sum of Numbers on both sides of 2^53. *)
Example js_add_rounds :
  js_add 9007199254740992 1 = 9007199254740992 /\
  js_add 9007199254740992 3 = 9007199254740996 /\
  js_add 9007199254740991 1 = 9007199254740992 /\
  js_add 100 500 = 600.
Proof. vm_compute. repeat split. Qed.
